(** * malhas26: daily status of a fixed catalog of batch operations

    A shallow embedding of [scripts/update_status.py] and
    [preencher_malhas.py], and the properties of the reconciliation, the
    ordering, the name normaliser, the report renderer and the store
    persistence.

    Python values are modelled as they are at run time: a [str] is a
    sequence of Unicode code points, a document read by [json.load] is a
    tree of [json] values, a [dict] is an insertion-ordered association
    list (a [gmap] where the keys are always [str]), and an exception is
    a result of the [res] monad. *)

From Stdlib Require Import String Ascii ZArith.
From stdpp Require Import base option list gmap sorting.

Set Warnings "-register-all".

(** ** Python strings *)

(** A [str]: a sequence of code points. *)
Abbreviation pystr := (list N).

(** The code points of a literal of the source, from its UTF-8 bytes. *)
Fixpoint utf8_decode (bs : list N) : pystr :=
  match bs with
  | [] => []
  | b :: r =>
      if (b <? 128)%N then b :: utf8_decode r
      else if (b <? 224)%N then
        match r with
        | b1 :: r' => ((b - 192) * 64 + (b1 - 128))%N :: utf8_decode r'
        | _ => []
        end
      else if (b <? 240)%N then
        match r with
        | b1 :: b2 :: r' =>
            ((b - 224) * 4096 + (b1 - 128) * 64 + (b2 - 128))%N
              :: utf8_decode r'
        | _ => []
        end
      else
        match r with
        | b1 :: b2 :: b3 :: r' =>
            ((b - 240) * 262144 + (b1 - 128) * 4096
             + (b2 - 128) * 64 + (b3 - 128))%N :: utf8_decode r'
        | _ => []
        end
  end.

Definition lit (s : string) : pystr :=
  utf8_decode (map N_of_ascii (list_ascii_of_string s)).

(** [str.isspace] of one code point: the set that [str.strip] and
    [str.split] use when called without an argument. *)
Definition isspace (c : N) : bool :=
  ((9 <=? c) && (c <=? 13) || (28 <=? c) && (c <=? 32)
   || (c =? 133) || (c =? 160) || (c =? 5760)
   || (8192 <=? c) && (c <=? 8202)
   || (c =? 8232) || (c =? 8233) || (c =? 8239) || (c =? 8287)
   || (c =? 12288))%N.

Fixpoint lstrip (s : pystr) : pystr :=
  match s with
  | c :: s' => if isspace c then lstrip s' else s
  | [] => []
  end.

Definition rstrip (s : pystr) : pystr := rev (lstrip (rev s)).

(** [s.strip()] *)
Definition strip (s : pystr) : pystr := rstrip (lstrip s).

(** [s.split()]: the maximal runs of non-whitespace code points. *)
Fixpoint split_ws (s : pystr) : list pystr :=
  match s with
  | [] => []
  | c :: s' =>
      if isspace c then split_ws s'
      else match s' with
           | [] => [[c]]
           | d :: _ =>
               if isspace d then [c] :: split_ws s'
               else match split_ws s' with
                    | w :: ws => (c :: w) :: ws
                    | [] => [[c]]
                    end
           end
  end.

(** [s.split(sep)] for a separator of one code point. *)
Fixpoint split_on (sep : N) (s : pystr) : list pystr :=
  match s with
  | [] => [[]]
  | c :: s' =>
      if (c =? sep)%N then [] :: split_on sep s'
      else match split_on sep s' with
           | w :: ws => (c :: w) :: ws
           | [] => [[c]]
           end
  end.

(** [sep.join(ws)] *)
Fixpoint join (sep : pystr) (ws : list pystr) : pystr :=
  match ws with
  | [] => []
  | [w] => w
  | w :: ws' => w ++ sep ++ join sep ws'
  end.

(** [s.startswith(p)] *)
Fixpoint starts_with (p s : pystr) : bool :=
  match p, s with
  | [], _ => true
  | a :: p', b :: s' => (a =? b)%N && starts_with p' s'
  | _ :: _, [] => false
  end.

(** [p in s] for two [str]. *)
Fixpoint is_substring (p s : pystr) : bool :=
  starts_with p s ||
  match s with
  | [] => false
  | _ :: s' => is_substring p s'
  end.

(** [s.replace(old, new)]: the occurrences of [old] are found from the
    left and do not overlap.  [skip] counts the code points of a matched
    occurrence that are still to be passed over. *)
Fixpoint replace_go (old new : pystr) (skip : nat) (s : pystr) : pystr :=
  match s with
  | [] => []
  | c :: s' =>
      match skip with
      | S k => replace_go old new k s'
      | O =>
          if starts_with old s
          then new ++ replace_go old new (length old - 1) s'
          else c :: replace_go old new 0 s'
      end
  end.

Definition replace (old new s : pystr) : pystr :=
  match old with
  | [] => new ++ flat_map (fun c => c :: new) s
  | _ => replace_go old new 0 s
  end.

(** [a < b] on [str]: lexicographic on the code points. *)
Fixpoint str_lt (a b : pystr) : bool :=
  match a, b with
  | _, [] => false
  | [], _ :: _ => true
  | x :: a', y :: b' => (x <? y)%N || (x =? y)%N && str_lt a' b'
  end.

(** ** Values of a JSON document *)

(** [JNum] holds the [int]s; [float] values are outside the fragment.  The
    keys of a [dict] read from a document are [str]; a [dict] in memory
    may get other hashable keys, so the keys are values too. *)
Inductive json :=
| JNull
| JBool (b : bool)
| JNum (n : Z)
| JStr (s : pystr)
| JArr (l : list json)
| JObj (kvs : list (json * json)).

Abbreviation pydict := (list (json * json)).

(** Exceptions the two scripts can meet. *)
Inductive exn :=
| KeyError
| IndexError
| TypeError
| AttributeError
| ValueError
| FileNotFoundError
| IsADirectoryError
| NotADirectoryError
| UnicodeEncodeError
| JSONDecodeError
| EOFError
| SystemExit (code : Z).

Inductive res (A : Type) :=
| Ok (a : A)
| Raise (e : exn).
Arguments Ok {A} a.
Arguments Raise {A} e.

#[global] Instance res_ret : MRet res := fun A a => Ok a.
#[global] Instance res_bind : MBind res := fun A B f m =>
  match m with
  | Ok a => f a
  | Raise e => Raise e
  end.

(** A loop whose body can raise: the first exception ends it. *)
Fixpoint res_map {A B} (f : A -> res B) (l : list A) : res (list B) :=
  match l with
  | [] => Ok []
  | x :: l' => y ← f x; ys ← res_map f l'; Ok (y :: ys)
  end.

Fixpoint res_foldl {A S} (f : S -> A -> res S) (s : S) (l : list A) : res S :=
  match l with
  | [] => Ok s
  | x :: l' => s' ← f s x; res_foldl f s' l'
  end.

(** [bool(v)] *)
Definition truthy (v : json) : bool :=
  match v with
  | JNull => false
  | JBool b => b
  | JNum n => negb (n =? 0)%Z
  | JStr s => match s with [] => false | _ => true end
  | JArr l => match l with [] => false | _ => true end
  | JObj d => match d with [] => false | _ => true end
  end.

(** [a or b] *)
Definition py_or (a b : json) : json := if truthy a then a else b.

(** A value that can be a key of a [dict] or a member of a [set]. *)
Definition hashable (v : json) : bool :=
  match v with
  | JArr _ | JObj _ => false
  | _ => true
  end.

Definition int_of_bool (b : bool) : Z := if b then 1%Z else 0%Z.

(** [a == b] where one side is a scalar: [True == 1] and [False == 0], a
    scalar never equals a [list] or a [dict].  The scripts compare two
    containers only in [day not in data["dias"]] with both a [list], where
    either answer ends in the same [TypeError]. *)
Definition py_eq (a b : json) : bool :=
  match a, b with
  | JNull, JNull => true
  | JBool x, JBool y => bool_decide (x = y)
  | JBool x, JNum n | JNum n, JBool x => (n =? int_of_bool x)%Z
  | JNum n, JNum m => (n =? m)%Z
  | JStr s, JStr t => bool_decide (s = t)
  | _, _ => false
  end.

Fixpoint dict_lookup {V} (k : json) (d : list (json * V)) : option V :=
  match d with
  | [] => None
  | (k', v) :: d' => if py_eq k' k then Some v else dict_lookup k d'
  end.

(** [d[k] = v]: an existing key keeps its place. *)
Fixpoint dict_set {V} (k : json) (v : V) (d : list (json * V))
  : list (json * V) :=
  match d with
  | [] => [(k, v)]
  | (k', v') :: d' =>
      if py_eq k' k then (k', v) :: d' else (k', v') :: dict_set k v d'
  end.

(** A [str] literal as a value. *)
Definition str (s : string) : json := JStr (lit s).

(** [o.get(k, dflt)] *)
Definition py_get (o k dflt : json) : res json :=
  match o with
  | JObj d =>
      if hashable k then Ok (default dflt (dict_lookup k d))
      else Raise TypeError
  | _ => Raise AttributeError
  end.

(** [o.setdefault(k, dflt)]: the object afterwards. *)
Definition py_setdefault (o k dflt : json) : res json :=
  match o with
  | JObj d =>
      if hashable k then
        match dict_lookup k d with
        | Some _ => Ok o
        | None => Ok (JObj (dict_set k dflt d))
        end
      else Raise TypeError
  | _ => Raise AttributeError
  end.

(** An index of a sequence of [n] elements, negative ones from the end. *)
Definition seq_index (n : nat) (i : Z) : res nat :=
  if ((0 <=? i) && (i <? Z.of_nat n))%Z then Ok (Z.to_nat i)
  else if ((- Z.of_nat n <=? i) && (i <? 0))%Z then Ok (Z.to_nat (Z.of_nat n + i))
  else Raise IndexError.

Definition as_index (k : json) : option Z :=
  match k with
  | JNum n => Some n
  | JBool b => Some (int_of_bool b)
  | _ => None
  end.

(** [o[k]] *)
Definition py_getitem (o k : json) : res json :=
  match o with
  | JObj d =>
      if hashable k then
        match dict_lookup k d with
        | Some v => Ok v
        | None => Raise KeyError
        end
      else Raise TypeError
  | JArr l =>
      match as_index k with
      | Some i =>
          n ← seq_index (length l) i;
          match l !! n with Some v => Ok v | None => Raise IndexError end
      | None => Raise TypeError
      end
  | JStr s =>
      match as_index k with
      | Some i =>
          n ← seq_index (length s) i;
          match s !! n with Some c => Ok (JStr [c]) | None => Raise IndexError end
      | None => Raise TypeError
      end
  | _ => Raise TypeError
  end.

(** [o[k] = v], the object after the assignment. *)
Definition py_setitem (o k v : json) : res json :=
  match o with
  | JObj d => if hashable k then Ok (JObj (dict_set k v d)) else Raise TypeError
  | JArr l =>
      match as_index k with
      | Some i => n ← seq_index (length l) i; Ok (JArr (<[n:=v]> l))
      | None => Raise TypeError
      end
  | _ => Raise TypeError
  end.

(** [k in o] *)
Definition py_contains (k o : json) : res bool :=
  match o with
  | JObj d =>
      if hashable k then Ok (bool_decide (is_Some (dict_lookup k d)))
      else Raise TypeError
  | JArr l => Ok (existsb (py_eq k) l)
  | JStr s =>
      match k with
      | JStr p => Ok (is_substring p s)
      | _ => Raise TypeError
      end
  | _ => Raise TypeError
  end.

(** [for x in o]: the elements a loop over [o] visits. *)
Definition py_iter (o : json) : res (list json) :=
  match o with
  | JArr l => Ok l
  | JObj d => Ok (d.*1)
  | JStr s => Ok ((fun c => JStr [c]) <$> s)
  | _ => Raise TypeError
  end.

(** [s.strip()] where [s] may be any value. *)
Definition py_strip (v : json) : res pystr :=
  match v with
  | JStr s => Ok (strip s)
  | _ => Raise AttributeError
  end.

(** ** The name normaliser *)

Section Upper.

(** The upper-case mapping of the code points above ASCII is a table of
    the Unicode database of the interpreter: a parameter.  On ASCII the
    mapping is written out. *)
Variable unicode_upper : N -> pystr.

Definition upper_cp (c : N) : pystr :=
  if (c <? 128)%N then
    if ((97 <=? c) && (c <=? 122))%N then [(c - 32)%N] else [c]
  else unicode_upper c.

(** [s.upper()] *)
Definition upper (s : pystr) : pystr := flat_map upper_cp s.

(** The three assignments of [norm] and of [normalize_name], once
    [(s or "")] is a [str]. *)
Definition norm_str (s : pystr) : pystr :=
  let s := upper (strip s) in
  let s := join (lit " ") (split_ws s) in
  replace (lit "TH3 – OY") (lit "TH3 - OY") s.

(** [norm(s)] and [normalize_name(s)]: [(s or "")] of a value that is
    neither false nor a [str] has no [strip]. *)
Definition norm_value (s : json) : res pystr :=
  match py_or s (JStr []) with
  | JStr t => Ok (norm_str t)
  | _ => Raise AttributeError
  end.

End Upper.

(** ** [sorted(l, key=...)] *)

(** The keys are computed first, for the whole list; the sort is stable
    and uses [<] on the keys only.  Insertion from the right puts an
    element before the elements of the same key that came after it. *)
Section Sorted.
Context {A K : Type} (lt : K -> K -> bool).

Fixpoint insert_by (x : K * A) (l : list (K * A)) : list (K * A) :=
  match l with
  | [] => [x]
  | y :: l' => if lt y.1 x.1 then y :: insert_by x l' else x :: l
  end.

Definition sort_decorated (l : list (K * A)) : list (K * A) :=
  foldr insert_by [] l.

Definition py_sorted (key : A -> res K) (l : list A) : res (list A) :=
  ks ← res_map (fun x => k ← key x; Ok (k, x)) l;
  Ok (sort_decorated ks).*2.

End Sorted.

(** [l.index(x)] *)
Fixpoint list_index (x : json) (l : list json) : res Z :=
  match l with
  | [] => Raise ValueError
  | y :: l' => if py_eq y x then Ok 0%Z else i ← list_index x l'; Ok (i + 1)%Z
  end.

(** The sort key of both [sort_catalogo]: a tuple of two [int] and a
    [str], compared from the left. *)
Definition sort_key : Type := Z * Z * pystr.

Definition key_lt (a b : sort_key) : bool :=
  let '(a1, a2, a3) := a in
  let '(b1, b2, b3) := b in
  (a1 <? b1)%Z || (a1 =? b1)%Z && ((a2 <? b2)%Z || (a2 =? b2)%Z && str_lt a3 b3).

(** ** Files, console and standard input *)

(** A path as [pathlib] holds it: its components. *)
Abbreviation path := (list pystr).

(** The components of a path written as a [str]. *)
Definition path_parts (s : pystr) : path :=
  filter (fun p => p ≠ [] ∧ p ≠ lit ".") (split_on 47 s).

(** [base / arg], and a relative path seen from the directory [base]. *)
Definition path_join (base : path) (arg : pystr) : path :=
  if starts_with (lit "/") arg then lit "/" :: path_parts arg
  else base ++ path_parts arg.

(** [p.name] *)
Definition path_name (p : path) : pystr := List.last p [].

(** [p.parent] *)
Definition path_parent (p : path) : path := removelast p.

(** A piece of a printed line: literal text, or a value or a path that an
    f-string formats. *)
Inductive fpart :=
| T (s : pystr)
| V (v : json)
| P (p : path).

Inductive event :=
| EPrint (line : list fpart)
| EPrompt (line : list fpart).

(** An entry of the file system: a regular file with its text, or a
    directory.  Of a directory the scripts can only meet that it exists
    and that it is not a file; what is below it has its own entries. *)
Inductive node :=
| File (text : pystr)
| Dir.

(** [clock] is what [datetime.now().isoformat(timespec="seconds")]
    returns. *)
Record world := World {
  files : gmap path node;
  console : list event;
  stdin : list pystr;
  clock : pystr;
}.

Definition M (A : Type) : Type := world -> res A * world.

#[global] Instance M_ret : MRet M := fun A a w => (Ok a, w).
#[global] Instance M_bind : MBind M := fun A B f m w =>
  match m w with
  | (Ok a, w') => f a w'
  | (Raise e, w') => (Raise e, w')
  end.

Definition lift {A} (r : res A) : M A := fun w => (r, w).
Definition raise {A} (e : exn) : M A := fun w => (Raise e, w).

Definition emit (ev : event) : M unit := fun w =>
  (Ok (), World (files w) (console w ++ [ev]) (stdin w) (clock w)).

(** [print(...)] *)
Definition print (line : list fpart) : M unit := emit (EPrint line).

(** [input(prompt)] *)
Definition input (prompt : list fpart) : M pystr := fun w =>
  let w' := World (files w) (console w ++ [EPrompt prompt]) (stdin w) (clock w) in
  match stdin w with
  | [] => (Raise EOFError, w')
  | l :: rest => (Ok l, World (files w') (console w') rest (clock w'))
  end.

Fixpoint M_foldl {A S} (f : S -> A -> M S) (s : S) (l : list A) : M S :=
  match l with
  | [] => mret s
  | x :: l' => s' ← f s x; M_foldl f s' l'
  end.

Definition now : M pystr := fun w => (Ok (clock w), w).

(** [os.path.exists(p)], [p.exists()]: true of a file and of a
    directory. *)
Definition exists_file (p : path) : M bool := fun w =>
  (Ok (bool_decide (is_Some (files w !! p))), w).

(** What [save_json] does to the files, one system call after the
    other. *)
Inductive fs_op :=
| OpenTrunc (p : path)
| WriteChunk (p : path) (chunk : pystr)
| Rename (src dst : path).

(** A [str] that the UTF-8 encoder of a text file accepts: it has no
    surrogate code point, which [json.load] can read from an escape. *)
Definition encodable (s : pystr) : bool :=
  forallb (fun c => negb ((55296 <=? c) && (c <=? 57343))%N) s.

(** The text of a file that is being written. *)
Definition written (n : option node) : pystr :=
  match n with
  | Some (File t) => t
  | _ => []
  end.

(** One call: the files after it, or the exception it raises, which
    leaves the files as they are.  [open(p, "w")] raises on a directory;
    [f.write(chunk)] encodes the chunk and raises when it cannot;
    [os.replace] raises when the source is missing and when one of the
    two is a directory and the other a file. *)
Definition fs_step (fs : gmap path node) (op : fs_op) : res (gmap path node) :=
  match op with
  | OpenTrunc p =>
      match fs !! p with
      | Some Dir => Raise IsADirectoryError
      | _ => Ok (<[p := File []]> fs)
      end
  | WriteChunk p chunk =>
      if encodable chunk
      then Ok (<[p := File (written (fs !! p) ++ chunk)]> fs)
      else Raise UnicodeEncodeError
  | Rename src dst =>
      match fs !! src, fs !! dst with
      | None, _ => Raise FileNotFoundError
      | Some (File _), Some Dir => Raise IsADirectoryError
      | Some Dir, Some (File _) => Raise NotADirectoryError
      | Some n, _ => Ok (<[dst := n]> (delete src fs))
      end
  end.

(** The calls one after the other, up to the first that raises: the
    [with] statement closes the file and the exception goes on, so the
    calls after it are not made. *)
Fixpoint fs_run (ops : list fs_op) (fs : gmap path node)
  : res unit * gmap path node :=
  match ops with
  | [] => (Ok (), fs)
  | op :: ops' =>
      match fs_step fs op with
      | Ok fs' => fs_run ops' fs'
      | Raise e => (Raise e, fs)
      end
  end.

Definition run_ops (ops : list fs_op) : M unit := fun w =>
  let '(r, fs) := fs_run ops (files w) in
  (r, World fs (console w) (stdin w) (clock w)).



(** [json.load] and the chunks [json.dump(..., ensure_ascii=False,
    indent=2)] writes belong to the standard library: parameters. *)
Record json_codec := JsonCodec {
  json_loads : pystr -> option json;
  json_dumps : json -> list pystr;
}.

Definition load_json (codec : json_codec) (p : path) : M json := fun w =>
  match files w !! p with
  | None => (Raise FileNotFoundError, w)
  | Some Dir => (Raise IsADirectoryError, w)
  | Some (File text) =>
      match json_loads codec text with
      | Some d => (Ok d, w)
      | None => (Raise JSONDecodeError, w)
      end
  end.

(** The calls of [save_json] once the temporary path is known: open it
    for writing, write the chunks, rename it over the target. *)
Definition save_ops (codec : json_codec) (tmp target : path) (data : json)
  : list fs_op :=
  [OpenTrunc tmp] ++ (WriteChunk tmp <$> json_dumps codec data)
  ++ [Rename tmp target].

(** ** The documents *)

(** The value of a key of an object. *)
Definition field (k : string) (o : json) : option json :=
  match o with
  | JObj d => dict_lookup (str k) d
  | _ => None
  end.

Definition is_obj (v : json) : bool :=
  match v with JObj _ => true | _ => false end.

Definition is_str (v : json) : bool :=
  match v with JStr _ => true | _ => false end.

(** A text field that may be missing or [null]. *)
Definition opt_text (v : option json) : bool :=
  match v with
  | None | Some JNull | Some (JStr _) => true
  | _ => false
  end.

(** An operation of the catalog: [{id, nome, categoria}], the id a
    [str]. *)
Definition wf_malha (c : json) : bool :=
  is_obj c
  && match field "id" c with Some (JStr _) => true | _ => false end
  && opt_text (field "nome" c)
  && opt_text (field "categoria" c).

Definition wf_catalogo (catalogo : json) : bool :=
  match catalogo with
  | JArr cs => forallb wf_malha cs
  | _ => false
  end.

(** The store: [catalogo_malhas], and [dias] from a date to the object of
    the day. *)
Definition wf_store (data : json) : bool :=
  is_obj data
  && match field "catalogo_malhas" data with
     | Some catalogo => wf_catalogo catalogo
     | None => true
     end
  && match field "dias" data with
     | Some (JObj dias) => forallb (fun kv => is_str kv.1 && is_obj kv.2) dias
     | Some _ => false
     | None => true
     end.

(** An item of an update payload:
    [{nome, status, ultimo_job, termino_real, fim_de_jogo, nota}]. *)
Definition wf_item (it : json) : bool :=
  is_obj it
  && opt_text (field "nome" it)
  && match field "status" it with Some st => hashable st | None => true end
  && opt_text (field "nota" it).

Definition wf_payload (payload : json) : bool :=
  is_obj payload
  && match field "itens" payload with
     | Some (JArr its) => forallb wf_item its
     | Some _ => false
     | None => true
     end.

(** The operations [main] finds in the catalog of the store, the items it
    finds in a payload, and the items of a day of the store. *)
Definition catalogo_of (data : json) : res (list json) :=
  py_get data (str "catalogo_malhas") (JArr []) ≫= py_iter.

Definition itens_of (payload : json) : res (list json) :=
  py_get payload (str "itens") (JArr []) ≫= py_iter.

Definition day_itens (data day : json) : res (list json) :=
  dias ← py_getitem data (str "dias");
  dia_obj ← py_getitem dias day;
  itens ← py_getitem dia_obj (str "itens");
  match itens with
  | JArr l => Ok l
  | _ => Raise TypeError
  end.

(** ** scripts/update_status.py *)

Module UpdateStatus.

Definition ORDEM_CATEGORIAS : list json := [
  str "Rotativos";
  str "Parcelados";
  str "Modelos";
  str "Gestão PJ e Alto Risco";
  str "Semanal"
].

Definition ORDEM_MALHAS : json := JObj [
  (str "Rotativos", JArr [
     str "ORIGENS";
     str "ADMISSAO";
     str "TETO V2";
     str "CMA";
     str "GESTAO";
     str "CHEQUE";
     str "CONCESSAO CARTAO";
     str "CONCESSAO CHEQUE";
     str "SUPER CREDITO";
     str "RENOVACAO LIMITES SEMANAL";
     str "OVERLIMIT CLOUD";
     str "ATUALIZACAO OVERLIMIT ONLINE MF";
     str "OVERLIMIT CARTAO"
   ]);
  (str "Parcelados", JArr [
     str "CONSIGNADO";
     str "CONSORCIO";
     str "CP INVESTIDOR";
     str "MICROCREDITO";
     str "RX";
     str "TH3 - OY";
     str "IMOBILIARIO"
   ]);
  (str "Modelos", JArr [
     str "BULKLOAD PF ROTATIVOS";
     str "CMA PF";
     str "DNA";
     str "FATURAMENTO";
     str "MODELOS PF PARCELADOS";
     str "MODELOS PF ROTATIVOS";
     str "THR";
     str "RENDAS"
   ]);
  (str "Gestão PJ e Alto Risco", JArr [
     str "BULKLOAD PRAT CPF_CNPJ";
     str "PREVENTIVO PF";
     str "LISTA PREV PJ SEMANAL";
     str "REDUCAO SEMANAL";
     str "REDUCAO MENSAL"
   ]);
  (str "Semanal", JArr [
     str "THD SEMANAL";
     str "THJ SEMANAL";
     str "SUPER CREDITO SEMANAL";
     str "OVERLIMIT CHEQUE SEMANAL";
     str "RENOVADOR CHEQUE SEMANAL";
     str "RX SEMANAL";
     str "IMOBILIARIO PREVENTIVO - SEMANAL";
     str "STATUS MQ"
   ])
].

Definition VALID_STATUS : list json := [
  str "exec"; str "ok"; str "contingencia"; str "abend";
  str "nao_comecou"; str "aguardando"; str "sem_exec"
].

(** [x in VALID_STATUS]: membership in a [set] hashes [x]. *)
Definition in_set (x : json) (s : list json) : res bool :=
  if hashable x then Ok (existsb (py_eq x) s) else Raise TypeError.

(** The five keys of a value of [incoming]. *)
Record fill := Fill {
  f_status : json;
  f_ultimo_job : json;
  f_termino_real : json;
  f_fim_de_jogo : bool;
  f_nota : pystr;
}.

Section Script.

Variable unicode_upper : N -> pystr.
Variable codec : json_codec.
(** [ROOT = Path(__file__).resolve().parents[1]] *)
Variable ROOT : path.

Definition MALHAS_JSON : path := ROOT ++ [lit "malhas.json"].
Definition UPDATES_DIR : path := ROOT ++ [lit "updates"].

Definition norm (s : json) : res pystr := norm_value unicode_upper s.

(** [p.suffix] and [p.with_suffix(suffix)] of [pathlib], for a suffix
    that is well formed, as the literal [".tmp"] is. *)
Fixpoint rfind (c : N) (s : pystr) : option nat :=
  match s with
  | [] => None
  | x :: s' =>
      match rfind c s' with
      | Some i => Some (S i)
      | None => if (x =? c)%N then Some 0 else None
      end
  end.

Definition name_suffix (name : pystr) : pystr :=
  match rfind 46 name with
  | Some i =>
      if bool_decide (0 < i ∧ i < length name - 1) then drop i name else []
  | None => []
  end.

Definition with_suffix (p : path) (suffix : pystr) : res path :=
  let name := path_name p in
  match name with
  | [] => Raise ValueError
  | _ =>
      let old_suffix := name_suffix name in
      Ok (path_parent p ++ [take (length name - length old_suffix) name ++ suffix])
  end.

Definition save_json (p : path) (data : json) : M unit :=
  tmp ← lift (with_suffix p (lit ".tmp"));
  run_ops (save_ops codec tmp p data).

Definition build_catalog_index (data : json) : res (pydict * pydict) :=
  catalogo ← py_get data (str "catalogo_malhas") (JArr []);
  cs ← py_iter catalogo;
  res_foldl (fun '(by_id, by_name) c =>
      cid ← py_get c (str "id") JNull;
      nome ← py_get c (str "nome") (str "") ≫= norm;
      if hashable cid
      then Ok (dict_set cid c by_id, dict_set (JStr nome) c by_name)
      else Raise TypeError)
    ([], []) cs.

Definition cat_order (cat : json) : res Z :=
  match list_index cat ORDEM_CATEGORIAS with
  | Raise ValueError => Ok 999%Z
  | r => r
  end.

Definition malha_order (cat nome : json) : res Z :=
  nome ← norm nome;
  lst ← py_get ORDEM_MALHAS cat (JArr []);
  match lst with
  | JArr l =>
      match list_index (JStr nome) l with
      | Raise ValueError => Ok 9999%Z
      | r => r
      end
  | _ => Raise AttributeError
  end.

Definition catalogo_key (c : json) : res sort_key :=
  k1 ← py_get c (str "categoria") (str "") ≫= cat_order;
  cat ← py_get c (str "categoria") (str "");
  k2 ← py_get c (str "nome") (str "") ≫= malha_order cat;
  k3 ← py_get c (str "nome") (str "") ≫= norm;
  Ok (k1, k2, k3).

Definition sort_catalogo (catalogo : json) : res (list json) :=
  cs ← py_iter catalogo;
  py_sorted key_lt catalogo_key cs.

Definition empty_day : json :=
  JObj [(str "updatedAt", str ""); (str "itens", JArr [])].

(** [ensure_day(data, day)]: [data] afterwards. *)
Definition ensure_day (data day : json) : res json :=
  data ← py_setdefault data (str "dias") (JObj []);
  dias ← py_getitem data (str "dias");
  present ← py_contains day dias;
  if (present : bool) then Ok data
  else
    dias ← py_setitem dias day empty_day;
    py_setitem data (str "dias") dias.

(** The body of the first loop of [main], for one item of the payload:
    nothing for an item whose normalised name is empty ([continue]), or
    the key and the value that [incoming] gets. *)
Definition incoming_entry (it : json) : res (option (pystr * fill)) :=
  nome ← py_get it (str "nome") (str "") ≫= norm;
  match nome with
  | [] => Ok None
  | _ =>
      st ← py_get it (str "status") (str "sem_exec");
      valid ← in_set st VALID_STATUS;
      let st := if (valid : bool) then st else str "sem_exec" in
      ultimo_job ← py_get it (str "ultimo_job") (str "-");
      termino_real ← py_get it (str "termino_real") (str "-");
      fim_de_jogo ← py_get it (str "fim_de_jogo") (JBool false);
      nota ← py_get it (str "nota") (str "");
      nota ← py_strip (py_or nota (str ""));
      Ok (Some (nome, Fill st (py_or ultimo_job (str "-"))
                        (py_or termino_real (str "-"))
                        (truthy fim_de_jogo) nota))
  end.

Definition incoming_put (incoming : gmap pystr fill)
    (e : option (pystr * fill)) : gmap pystr fill :=
  match e with
  | Some (nome, f) => <[nome := f]> incoming
  | None => incoming
  end.

Definition incoming_step (incoming : gmap pystr fill) (it : json)
  : res (gmap pystr fill) :=
  e ← incoming_entry it;
  Ok (incoming_put incoming e).

Definition default_item (cid : json) : json := JObj [
  (str "id", cid);
  (str "status", str "sem_exec");
  (str "ultimo_job", str "-");
  (str "termino_real", str "-");
  (str "fim_de_jogo", JBool false);
  (str "nota", str "")
].

Definition filled_item (cid : json) (f : fill) : json := JObj [
  (str "id", cid);
  (str "status", f_status f);
  (str "ultimo_job", f_ultimo_job f);
  (str "termino_real", f_termino_real f);
  (str "fim_de_jogo", JBool (f_fim_de_jogo f));
  (str "nota", JStr (f_nota f))
].

(** The body of the second loop of [main]: one operation of the
    catalog. *)
Definition final_item (incoming : gmap pystr fill) (c : json) : res json :=
  cid ← py_getitem c (str "id");
  nome ← py_get c (str "nome") cid ≫= norm;
  match incoming !! nome with
  | Some f => Ok (filled_item cid f)
  | None => Ok (default_item cid)
  end.

(** Lines 151 to 203 of [main]: [data] as [save_json] receives it. *)
Definition merge_day (data payload day : json) (clock : pystr) : res json :=
  data ← ensure_day data day;
  dias ← py_getitem data (str "dias");
  dia_obj ← py_getitem dias day;
  updatedAt ← py_get payload (str "updatedAt") JNull;
  let updatedAt := py_or updatedAt (JStr clock) in
  dia_obj ← py_setitem dia_obj (str "updatedAt") updatedAt;
  raw_itens ← py_get payload (str "itens") (JArr []) ≫= py_iter;
  incoming ← res_foldl incoming_step ∅ raw_itens;
  catalogo_sorted ← py_get data (str "catalogo_malhas") (JArr []) ≫= sort_catalogo;
  itens_final ← res_map (final_item incoming) catalogo_sorted;
  dia_obj ← py_setitem dia_obj (str "itens") (JArr itens_final);
  dias ← py_setitem dias day dia_obj;
  py_setitem data (str "dias") dias.

Definition main (argv : list pystr) : M unit :=
  match argv with
  | _ :: arg :: _ =>
      let update_path := path_join ROOT arg in
      found ← exists_file update_path;
      if negb (found : bool) then
        print [T (lit "Arquivo não encontrado: "); P update_path];;
        raise (SystemExit 1)
      else
        data ← load_json codec MALHAS_JSON;
        _ ← lift (build_catalog_index data);
        payload ← load_json codec update_path;
        day ← lift (py_get payload (str "date") JNull);
        if negb (truthy day) then
          print [T (lit "O arquivo de update precisa ter o campo 'date' em YYYY-MM-DD")];;
          raise (SystemExit 1)
        else
          t ← now;
          data ← lift (merge_day data payload day t);
          save_json MALHAS_JSON data;;
          print [T (lit "OK: atualizado malhas.json para o dia "); V day;
                 T (lit " usando "); V (JStr (path_name update_path))]
  | _ =>
      print [T (lit "Uso: python scripts/update_status.py updates/AAAA-MM-DD.json")];;
      raise (SystemExit 1)
  end.

End Script.

End UpdateStatus.

(** ** preencher_malhas.py *)

(** [a < b] on values: two [str], or two numbers. *)
Definition json_lt (a b : json) : res bool :=
  match a, b with
  | JStr x, JStr y => Ok (str_lt x y)
  | _, _ =>
      match as_index a, as_index b with
      | Some x, Some y => Ok (x <? y)%Z
      | _, _ => Raise TypeError
      end
  end.

(** [a < b] on tuples of two [int] and a value, the third a [str] or
    an id that a [dict] takes as a key: the first components that are not
    equal are compared with [<], and two equal tuples are not compared
    further. *)
Definition key3_lt (a b : Z * Z * json) : res bool :=
  let '(a1, a2, a3) := a in
  let '(b1, b2, b3) := b in
  if negb (a1 =? b1)%Z then Ok (a1 <? b1)%Z
  else if negb (a2 =? b2)%Z then Ok (a2 <? b2)%Z
  else if py_eq a3 b3 then Ok false
  else json_lt a3 b3.

(** The keys with their positions, and whether every two keys at two
    positions have an order. *)
Definition comparable_keys {A K} (lt : K -> K -> res bool)
    (ks : list (K * A)) : res unit :=
  _ ← res_map (fun '(i, a) =>
         res_map (fun '(j, b) =>
             if bool_decide (i = j :> nat) then Ok false else lt a.1 b.1)
           (imap pair ks))
       (imap pair ks);
  Ok ().

(** [sorted] where two keys may have no order.  The sort compares keys
    at two positions only, none with itself, and a sort that returns has
    compared every two neighbours of its result.  With [json_lt] and
    with [key3_lt] two values have an order exactly when they are of one
    kind, two [str] or two numbers, so that a sort returns exactly when
    every two keys at two positions have an order, and then the result is
    the one of the stable sort; otherwise it raises the [TypeError] of a
    comparison. *)
Definition py_sorted_partial {A K} (lt : K -> K -> res bool)
    (key : A -> res K) (l : list A) : res (list A) :=
  ks ← res_map (fun x => k ← key x; Ok (k, x)) l;
  _ ← comparable_keys lt ks;
  Ok (sort_decorated
        (fun a b => match lt a b with Ok r => r | Raise _ => false end) ks).*2.

Module PreencherMalhas.

Definition ARQUIVO_JSON : pystr := lit "malhas.json".

Definition ORDEM_CATEGORIAS : list json := [
  str "Rotativos";
  str "Parcelados";
  str "Modelos";
  str "Gestão PJ e Alto Risco";
  str "Semanal"
].

Definition ORDEM_MALHAS : json := JObj [
  (str "Rotativos", JArr [
     str "ORIGENS";
     str "ADMISSAO";
     str "TETO V2";
     str "CMA";
     str "GESTAO";
     str "CHEQUE";
     str "CONCESSAO CARTAO";
     str "CONCESSAO CHEQUE";
     str "SUPER CREDITO";
     str "RENOVACAO LIMITES SEMANAL";
     str "OVERLIMIT CLOUD";
     str "ATUALIZACAO OVERLIMIT ONLINE MF";
     str "OVERLIMIT CARTAO"
   ]);
  (str "Parcelados", JArr [
     str "CONSIGNADO";
     str "CONSORCIO";
     str "CP INVESTIDOR";
     str "MICROCREDITO";
     str "RX";
     str "TH3 - OY";
     str "IMOBILIARIO"
   ]);
  (str "Modelos", JArr [
     str "BULKLOAD PF ROTATIVOS";
     str "CMA PF";
     str "DNA";
     str "FATURAMENTO";
     str "MODELOS PF PARCELADOS";
     str "MODELOS PF ROTATIVOS";
     str "THR";
     str "RENDAS"
   ]);
  (str "Gestão PJ e Alto Risco", JArr [
     str "BULKLOAD PRAT CPF_CNPJ";
     str "PREVENTIVO PF";
     str "LISTA PREV PJ SEMANAL";
     str "REDUCAO SEMANAL";
     str "REDUCAO MENSAL"
   ]);
  (str "Semanal", JArr [
     str "THD SEMANAL";
     str "THJ SEMANAL";
     str "SUPER CREDITO SEMANAL";
     str "OVERLIMIT CHEQUE SEMANAL";
     str "RENOVADOR CHEQUE SEMANAL";
     str "RX SEMANAL";
     str "IMOBILIARIO PREVENTIVO - SEMANAL";
     str "STATUS MQ"
   ])
].

(** Status -> (key of the JSON, glyph) *)
Definition STATUS_MAP : list (json * (json * json)) := [
  (str "1", (str "exec", str "🟡"));
  (str "2", (str "ok", str "🟢"));
  (str "3", (str "contingencia", str "🔵"));
  (str "4", (str "abend", str "🔴"));
  (str "5", (str "nao_comecou", str "⚪"));
  (str "6", (str "aguardando", str "⚫"));
  (str "7", (str "sem_exec", str "⚪"));
  (str "0", (JNull, JNull))
].

Definition STATUS_LABEL : json := JObj [
  (str "exec", str "Em execução");
  (str "ok", str "Finalizado");
  (str "contingencia", str "Contingência");
  (str "abend", str "Abend");
  (str "nao_comecou", str "Não começou");
  (str "aguardando", str "Aguardando condição");
  (str "sem_exec", str "Sem execução no Odate")
].

Definition br_date (ymd : json) : res pystr :=
  match ymd with
  | JStr s =>
      match split_on 45 s with
      | [y; m; d] => Ok (d ++ lit "/" ++ m ++ lit "/" ++ y)
      | _ => Raise ValueError
      end
  | _ => Raise AttributeError
  end.

(** A row of the report: (categoria, nome, status_key, fim_de_jogo, obs) *)
Definition row : Type := json * pystr * json * bool * pystr.

(** The glyph of a status: the first entry of [STATUS_MAP] whose key is
    the status, and the white circle when there is none or it has no
    glyph. *)
Definition status_emoji (st : json) : pystr :=
  let emoji :=
    match List.find (fun e => py_eq e.2.1 st) STATUS_MAP with
    | Some e => e.2.2
    | None => JNull
    end in
  match py_or emoji (str "⚪") with
  | JStr e => e
  | _ => []
  end.

Definition report_line (nome : pystr) (st : json) (obs : pystr) : pystr :=
  let line := status_emoji st ++ lit " " ++ nome in
  match obs with
  | [] => line
  | _ => line ++ lit "  (" ++ obs ++ lit ")"
  end.

(** [groups[cat].append(line)] *)
Definition groups_append (groups : list (json * list pystr)) (r : row)
  : res (list (json * list pystr)) :=
  let '(cat, nome, st, fim, obs) := r in
  let line := report_line nome st obs in
  if hashable cat then
    match dict_lookup cat groups with
    | Some lines => Ok (dict_set cat (lines ++ [line]) groups)
    | None => Raise KeyError
    end
  else Raise TypeError.

(** The lines of one section. *)
Definition report_section (groups : list (json * list pystr)) (cat : json)
  : list pystr :=
  let name := match cat with JStr c => c | _ => [] end in
  [name ++ lit ":" ++ [10%N]]
  ++ match default [] (dict_lookup cat groups) with
     | [] => [lit "- (sem itens)"]
     | lines => (fun x => lit "- " ++ x) <$> lines
     end
  ++ [[]].

Definition LEGENDA : list pystr := [
  lit "Legenda:";
  lit "🟡 Em execução | 🟢 Finalizado | 🔵 Contingência | 🔴 Abend | ⚪ Não começou/Sem execução | ⚫ Aguardando condição";
  lit "⚪/🔵 em “Fim de jogo” = não validado / validado"
].

Definition build_whatsapp_report (dia : json) (rows : list row) : res pystr :=
  let groups := (fun c => (c, [])) <$> ORDEM_CATEGORIAS in
  groups ← res_foldl groups_append groups rows;
  date ← br_date dia;
  let out :=
    [lit "Boa noite." ++ [10%N];
     lit "Acompanhamento Malhas" ++ [10%N];
     lit "Odate: " ++ date ++ [10%N]]
    ++ flat_map (report_section groups) ORDEM_CATEGORIAS
    ++ LEGENDA in
  Ok (join [10%N] out).

Section Script.

Variable unicode_upper : N -> pystr.
(** [s.lower()] of a [str] that is not all ASCII: a table of the
    interpreter too. *)
Variable unicode_lower : pystr -> pystr.
(** Whether [datetime.strptime(s, "%Y-%m-%d")] accepts [s]. *)
Variable strptime_ok : pystr -> bool.
Variable codec : json_codec.
(** The current directory of the process. *)
Variable CWD : path.

Definition normalize_name (s : json) : res pystr := norm_value unicode_upper s.

Definition lower (s : pystr) : pystr :=
  if forallb (fun c => (c <? 128)%N) s
  then (fun c => if ((65 <=? c) && (c <=? 90))%N then (c + 32)%N else c) <$> s
  else unicode_lower s.

Definition save_json (p : pystr) (data : json) : M unit :=
  let tmp := p ++ lit ".tmp" in
  run_ops (save_ops codec (path_join CWD tmp) (path_join CWD p) data).

Definition index_catalogo (data : json) : res pydict :=
  cs ← py_get data (str "catalogo_malhas") (JArr []) ≫= py_iter;
  res_foldl (fun idx c =>
      cid ← py_getitem c (str "id");
      if hashable cid then Ok (dict_set cid c idx) else Raise TypeError)
    [] cs.

Definition empty_day : json :=
  JObj [(str "updatedAt", str ""); (str "itens", JArr [])].

(** [ensure_day(data, dia)]: [data] afterwards. *)
Definition ensure_day (data dia : json) : res json :=
  data ← py_setdefault data (str "dias") (JObj []);
  dias ← py_getitem data (str "dias");
  present ← py_contains dia dias;
  if (present : bool) then Ok data
  else
    dias ← py_setitem dias dia empty_day;
    py_setitem data (str "dias") dias.

(** [itens_map(dia_obj)]: an item is an object shared with
    [dia_obj["itens"]], so the map holds its position in that list. *)
Definition itens_map (dia_obj : json) : res (list (json * nat)) :=
  its ← py_get dia_obj (str "itens") (JArr []) ≫= py_iter;
  res_foldl (fun m '(i, it) =>
      iid ← py_getitem it (str "id");
      if hashable iid then Ok (dict_set iid i m) else Raise TypeError)
    [] (imap (fun i it => (i, it)) its).

Definition cat_order (cat : json) : res Z :=
  match list_index cat ORDEM_CATEGORIAS with
  | Raise ValueError => Ok 999%Z
  | r => r
  end.

Definition malha_order (cat nome : json) : res Z :=
  nome ← normalize_name nome;
  lst ← py_get ORDEM_MALHAS cat (JArr []);
  match lst with
  | JArr l =>
      match list_index (JStr nome) l with
      | Raise ValueError => Ok 9999%Z
      | r => r
      end
  | _ => Raise AttributeError
  end.

Definition catalogo_key (c : json) : res sort_key :=
  k1 ← py_get c (str "categoria") (str "") ≫= cat_order;
  cat ← py_get c (str "categoria") (str "");
  k2 ← py_get c (str "nome") (str "") ≫= malha_order cat;
  k3 ← py_get c (str "nome") (str "") ≫= normalize_name;
  Ok (k1, k2, k3).

Definition sort_catalogo (catalogo : json) : res (list json) :=
  cs ← py_iter catalogo;
  py_sorted key_lt catalogo_key cs.

(** A [while True] loop around [input]: [body] returns, or gives the line
    to print before the next round.  The lines of the standard input are
    finite, and [input] raises at their end. *)
Fixpoint input_rounds {A} (prompt : list fpart)
    (body : pystr -> A + list fpart)
    (lines : list pystr) (out : list event)
  : res A * list pystr * list event :=
  let out := out ++ [EPrompt prompt] in
  match lines with
  | [] => (Raise EOFError, [], out)
  | l :: rest =>
      match body l with
      | inl a => (Ok a, rest, out)
      | inr msg => input_rounds prompt body rest (out ++ [EPrint msg])
      end
  end.

Definition input_loop {A} (prompt : list fpart)
    (body : pystr -> A + list fpart) : M A := fun w =>
  let '(r, rest, out) := input_rounds prompt body (stdin w) (console w) in
  (r, World (files w) out rest (clock w)).

Definition prompt_date (dflt : json) : M json :=
  input_loop [T (lit "Data (YYYY-MM-DD) ["); V dflt; T (lit "]: ")]
    (fun l =>
       let s := strip l in
       match s with
       | [] => inl dflt
       | _ =>
           if strptime_ok s then inl (JStr s)
           else inr [T (lit "Data inválida. Ex: 2026-01-10")]
       end).

Definition prompt_status (current_key : json) : M json :=
  print [T (lit "Status:")];;
  print [T (lit "  1) 🟡 Em execução")];;
  print [T (lit "  2) 🟢 Finalizado")];;
  print [T (lit "  3) 🔵 Contingência")];;
  print [T (lit "  4) 🔴 Abend")];;
  print [T (lit "  5) ⚪ Não começou")];;
  print [T (lit "  6) ⚫ Aguardando condição")];;
  print [T (lit "  7) ⚪ Sem execução no Odate")];;
  print [T (lit "  0) (manter / pular)")];;
  label ← lift (py_get STATUS_LABEL current_key current_key);
  input_loop [T (lit "Escolha [atual: "); V label; T (lit "]: ")]
    (fun l =>
       let s := strip l in
       match dict_lookup (JStr s) STATUS_MAP with
       | Some (key, _) =>
           inl (match key with JNull => current_key | _ => key end)
       | None => inr [T (lit "Opção inválida. Digite 0..7.")]
       end).

Definition prompt_yesno (msg : pystr) (dflt : bool) : M bool :=
  let d := if dflt then lit "s" else lit "n" in
  input_loop [T msg; T (lit " (s/n) ["); T d; T (lit "]: ")]
    (fun l =>
       let s := lower (strip l) in
       match s with
       | [] => inl dflt
       | _ =>
           if bool_decide (s ∈ [lit "s"; lit "sim"]) then inl true
           else if bool_decide (s ∈ [lit "n"; lit "nao"; lit "não"]) then inl false
           else inr [T (lit "Digite s ou n.")]
       end).

(** The item at a position of [dia_obj["itens"]], and the assignment of
    one of its keys.  The positions come from [itens_map] and from the
    appends of the loop, so the list and the position are there. *)
Definition item_at (dia_obj : json) (i : nat) : res json :=
  its ← py_getitem dia_obj (str "itens");
  py_getitem its (JNum (Z.of_nat i)).

Definition item_set (dia_obj : json) (i : nat) (k v : json) : res json :=
  its ← py_getitem dia_obj (str "itens");
  it ← py_getitem its (JNum (Z.of_nat i));
  it ← py_setitem it k v;
  its ← py_setitem its (JNum (Z.of_nat i)) it;
  py_setitem dia_obj (str "itens") its.

Definition new_item (mid : json) : json := JObj [
  (str "id", mid);
  (str "status", str "sem_exec");
  (str "ultimo_job", str "-");
  (str "termino_real", str "-");
  (str "fim_de_jogo", JBool false);
  (str "nota", str "")
].

(** [dia_obj.setdefault("itens", []).append(it)]: the object afterwards
    and the position of the new item. *)
Definition append_item (dia_obj it : json) : res (json * nat) :=
  dia_obj ← py_setdefault dia_obj (str "itens") (JArr []);
  its ← py_getitem dia_obj (str "itens");
  match its with
  | JArr l =>
      dia_obj ← py_setitem dia_obj (str "itens") (JArr (l ++ [it]));
      Ok (dia_obj, length l)
  | _ => Raise AttributeError
  end.

(** The body of the loop over the sorted catalog.  The state is
    [dia_obj] and [itmap]. *)
Definition fill_step (st : json * list (json * nat)) (c : json)
  : M (json * list (json * nat)) :=
  let '(dia_obj, itmap) := st in
  mid ← lift (py_getitem c (str "id"));
  cat ← lift (py_get c (str "categoria") (str "-"));
  nome ← lift (py_get c (str "nome") mid ≫= normalize_name);
  '(dia_obj, itmap, i) ← lift (
    if hashable mid then
      match dict_lookup mid itmap with
      | Some i => Ok (dia_obj, itmap, i)
      | None =>
          '(dia_obj, i) ← append_item dia_obj (new_item mid);
          Ok (dia_obj, dict_set mid i itmap, i)
      end
    else Raise TypeError);
  print [T (lit "Categoria: "); V cat];;
  print [T (lit "Malha: "); V (JStr nome)];;
  it ← lift (item_at dia_obj i);
  current_status ← lift (py_get it (str "status") (str "sem_exec"));
  new_status ← prompt_status current_status;
  dia_obj ← lift (item_set dia_obj i (str "status") new_status);
  it ← lift (item_at dia_obj i);
  cur_fim ← lift (py_get it (str "fim_de_jogo") (JBool false));
  new_fim ← prompt_yesno (lit "Fim de jogo validado") (truthy cur_fim);
  dia_obj ← lift (item_set dia_obj i (str "fim_de_jogo") (JBool new_fim));
  it ← lift (item_at dia_obj i);
  cur_obs ← lift (nota ← py_get it (str "nota") JNull; py_strip (py_or nota (str "")));
  obs ← input [T (lit "Observação (enter mantém) [");
               T (match cur_obs with [] => lit "-" | _ => cur_obs end);
               T (lit "]: ")];
  let obs := strip obs in
  dia_obj ← lift (match obs with
                  | [] => Ok dia_obj
                  | _ => item_set dia_obj i (str "nota") (JStr obs)
                  end);
  print [T (repeat 45%N 48)];;
  mret (dia_obj, itmap).

(** The key of the sort that puts the items of the day in the order of
    the catalog. *)
Definition day_item_key (data it : json) : res (Z * Z * json) :=
  iid ← py_getitem it (str "id");
  idx ← index_catalogo data;
  if hashable iid then
    match dict_lookup iid idx with
    | Some c =>
        cat ← py_getitem c (str "categoria");
        k1 ← (if existsb (py_eq cat) ORDEM_CATEGORIAS
              then list_index cat ORDEM_CATEGORIAS else Ok 999%Z);
        nome ← py_getitem c (str "nome") ≫= normalize_name;
        lst ← py_get ORDEM_MALHAS cat (JArr []);
        k2 ← match lst with
             | JArr l =>
                 if existsb (py_eq (JStr nome)) l
                 then list_index (JStr nome) l else Ok 9999%Z
             | _ => Raise TypeError
             end;
        Ok (k1, k2, JStr nome)
    | None => Ok (999%Z, 9999%Z, iid)
    end
  else Raise TypeError.

(** One row of the report from one item of the day. *)
Definition report_row (cat_by_id : pydict) (it : json) : res row :=
  iid ← py_getitem it (str "id");
  c ← (if hashable iid then Ok (default (JObj []) (dict_lookup iid cat_by_id))
       else Raise TypeError);
  cat ← py_get c (str "categoria") (str "-");
  nome ← py_get c (str "nome") iid ≫= normalize_name;
  st ← py_get it (str "status") (str "sem_exec");
  fim ← py_get it (str "fim_de_jogo") (JBool false);
  nota ← py_get it (str "nota") JNull;
  obs ← py_strip (py_or nota (str ""));
  Ok (cat, nome, st, truthy fim, obs).

Definition report_rows (data : json) (itens : list json) : res (list row) :=
  cat_by_id ← index_catalogo data;
  res_map (report_row cat_by_id) itens.

(** [sorted(d.keys())] *)
Definition sorted_keys (d : json) : res (list json) :=
  match d with
  | JObj kvs => py_sorted_partial json_lt Ok kvs.*1
  | _ => Raise AttributeError
  end.

Definition main : M unit :=
  found ← exists_file (path_join CWD ARQUIVO_JSON);
  if negb (found : bool) then
    print [T (lit "Não achei "); V (JStr ARQUIVO_JSON); T (lit " na pasta atual.")];;
    print [T (lit "Coloque este script na mesma pasta do malhas.json e rode novamente.")]
  else
    data ← load_json codec (path_join CWD ARQUIVO_JSON);
    dias_exist ← lift (d ← py_get data (str "dias") JNull;
                       sorted_keys (py_or d (JObj [])));
    let default_day := List.last dias_exist (str "2026-01-10") in
    dia ← prompt_date default_day;
    data ← lift (ensure_day data dia);
    dias ← lift (py_getitem data (str "dias"));
    dia_obj ← lift (py_getitem dias dia);
    t ← now;
    dia_obj ← lift (py_setitem dia_obj (str "updatedAt") (JStr t));
    catalogo ← lift (py_get data (str "catalogo_malhas") (JArr []));
    catalogo_sorted ← lift (sort_catalogo catalogo);
    itmap ← lift (itens_map dia_obj);
    print [T ([10%N] ++ lit "Preenchimento iniciado.")];;
    print [T (lit "Dica: digite 0 para manter o status atual e ir para a próxima." ++ [10%N])];;
    '(dia_obj, _) ← M_foldl fill_step (dia_obj, itmap) catalogo_sorted;
    itens ← lift (py_getitem dia_obj (str "itens") ≫= py_iter);
    itens ← lift (py_sorted_partial key3_lt (day_item_key data) itens);
    dia_obj ← lift (py_setitem dia_obj (str "itens") (JArr itens));
    dias ← lift (py_setitem dias dia dia_obj);
    data ← lift (py_setitem data (str "dias") dias);
    report_rows ← lift (report_rows data itens);
    save_json ARQUIVO_JSON data;;
    rel ← lift (build_whatsapp_report dia report_rows);
    print [T ([10%N; 10%N] ++ lit "========== RELATÓRIO WHATSAPP (COPIAR E COLAR) ==========" ++ [10%N])];;
    print [T rel];;
    print [T ([10%N] ++ lit "========================================================" ++ [10%N])];;
    print [T (lit "Salvo em: "); V (JStr ARQUIVO_JSON); T (lit " (dia "); V dia; T (lit ")")].

End Script.

End PreencherMalhas.

(** ** Notions of the statements and of the proofs *)

#[global] Arguments lit : simpl never.
#[global] Arguments str : simpl never.
#[global] Arguments UpdateStatus.ORDEM_CATEGORIAS : simpl never.
#[global] Arguments UpdateStatus.ORDEM_MALHAS : simpl never.
#[global] Arguments UpdateStatus.VALID_STATUS : simpl never.
#[global] Arguments PreencherMalhas.ORDEM_CATEGORIAS : simpl never.
#[global] Arguments PreencherMalhas.ORDEM_MALHAS : simpl never.
#[global] Arguments PreencherMalhas.STATUS_MAP : simpl never.
#[global] Arguments PreencherMalhas.STATUS_LABEL : simpl never.
#[global] Arguments PreencherMalhas.LEGENDA : simpl never.

(** The two literals of [replace] in the normaliser, and that call. *)
Definition PAT : pystr := lit "TH3 – OY".
Definition REP : pystr := lit "TH3 - OY".
Definition th3 (s : pystr) : pystr := replace PAT REP s.

(** No occurrence of the old literal is left. *)
Fixpoint no_occ (s : pystr) : bool :=
  negb (starts_with PAT s) &&
  match s with
  | [] => true
  | _ :: s' => no_occ s'
  end.

(** Single spaces between words, none at the ends: the state is whether
    the code point before was a space (or the start). *)
Fixpoint sp_ok (prev_space : bool) (s : pystr) : bool :=
  match s with
  | [] => negb prev_space
  | c :: s' =>
      if isspace c then (c =? 32)%N && negb prev_space && sp_ok true s'
      else sp_ok false s'
  end.

Definition spaced (s : pystr) : bool :=
  match s with [] => true | _ => sp_ok true s end.

Definition word (w : pystr) : Prop :=
  w ≠ [] ∧ Forall (fun c => isspace c = false) w.

(** In a decorated list, [a] may stand before [b]. *)
Definition key_le {A K} (lt : K -> K -> bool) (a b : K * A) : Prop :=
  lt b.1 a.1 = false.

(** The [str] of a list of values. *)
Definition str_values (l : list json) : list pystr :=
  omap (fun v => match v with JStr s => Some s | _ => None end) l.

(** The category and the normalised name that [sort_catalogo] reads from
    an operation. *)
Definition categoria_of (c : json) : res json :=
  py_get c (str "categoria") (str "").

Definition nome_of (unicode_upper : N -> pystr) (c : json) : res pystr :=
  py_get c (str "nome") (str "") ≫= UpdateStatus.norm unicode_upper.

(** The name under which [main] looks an operation up in [incoming], and
    the name under which it files an item of the payload. *)
Definition malha_name (unicode_upper : N -> pystr) (c : json) : res pystr :=
  cid ← py_getitem c (str "id");
  py_get c (str "nome") cid ≫= UpdateStatus.norm unicode_upper.

Definition item_name (unicode_upper : N -> pystr) (it : json) : res pystr :=
  py_get it (str "nome") (str "") ≫= UpdateStatus.norm unicode_upper.

(** The value of a key of [incoming]: the last entry with that key. *)
Fixpoint last_entry (n : pystr)
    (es : list (option (pystr * UpdateStatus.fill)))
  : option UpdateStatus.fill :=
  match es with
  | [] => None
  | e :: es' =>
      match last_entry n es' with
      | Some f => Some f
      | None =>
          match e with
          | Some (m, f) => if bool_decide (m = n) then Some f else None
          | None => None
          end
      end
  end.

(** The record the specification asks for an operation that an item of
    the payload matches: the status of the item when it is one of the
    seven status codes and ["sem_exec"] otherwise, ["-"] for a blank
    [ultimo_job] or [termino_real], the truth value of [fim_de_jogo], the
    trimmed [nota]. *)
Definition STATUS_CODES : list pystr := [
  lit "exec"; lit "ok"; lit "contingencia"; lit "abend";
  lit "nao_comecou"; lit "aguardando"; lit "sem_exec"
].

Definition is_status_code (st : json) : bool :=
  match st with
  | JStr s => bool_decide (s ∈ STATUS_CODES)
  | _ => false
  end.

Definition expected_status (it : json) : json :=
  match field "status" it with
  | Some st => if is_status_code st then st else str "sem_exec"
  | None => str "sem_exec"
  end.

Definition or_dash (v : option json) : json :=
  match v with
  | Some x => if truthy x then x else str "-"
  | None => str "-"
  end.

Definition expected_fim (it : json) : bool :=
  match field "fim_de_jogo" it with
  | Some v => truthy v
  | None => false
  end.

Definition expected_nota (it : json) : pystr :=
  match field "nota" it with
  | Some (JStr s) => strip s
  | _ => []
  end.

Definition expected_record (cid it : json) : json := JObj [
  (str "id", cid);
  (str "status", expected_status it);
  (str "ultimo_job", or_dash (field "ultimo_job" it));
  (str "termino_real", or_dash (field "termino_real" it));
  (str "fim_de_jogo", JBool (expected_fim it));
  (str "nota", JStr (expected_nota it))
].

(** The ids of a list of operations or of records, and the keys of a
    record. *)
Definition ids (l : list json) : list (option json) := field "id" <$> l.

Definition RECORD_KEYS : list json := [
  str "id"; str "status"; str "ultimo_job"; str "termino_real";
  str "fim_de_jogo"; str "nota"
].

Definition record_keys (rec : json) : list json :=
  match rec with
  | JObj d => d.*1
  | _ => []
  end.

(** The dict [incoming] of [main] once its first loop is over. *)
Definition incoming_of (unicode_upper : N -> pystr) (payload : json)
  : res (gmap pystr UpdateStatus.fill) :=
  itens_of payload ≫= res_foldl (UpdateStatus.incoming_step unicode_upper) ∅.

(** The items of a day after a run of the second half of [main]. *)
Definition reconciled (unicode_upper : N -> pystr)
    (data payload day : json) (clock : pystr) : res (list json) :=
  data' ← UpdateStatus.merge_day unicode_upper data payload day clock;
  day_itens data' day.

(** The record [rec] is the one the items [its] of a payload give the
    operation [c]: the fields of the last item whose normalised name is
    the one of the operation, when that name is not empty; the default
    record when the name is empty or is the name of no item. *)
Definition record_of (unicode_upper : N -> pystr) (its : list json)
    (c rec : json) : Prop :=
  ∃ cid nome,
    field "id" c = Some cid ∧ field "id" rec = Some cid ∧
    malha_name unicode_upper c = Ok nome ∧
    (∀ l1 it l2,
       its = l1 ++ it :: l2 →
       item_name unicode_upper it = Ok nome → nome ≠ [] →
       Forall (fun x => item_name unicode_upper x ≠ Ok nome) l2 →
       rec = expected_record cid it) ∧
    (nome = [] ∨ Forall (fun x => item_name unicode_upper x ≠ Ok nome) its →
     rec = UpdateStatus.default_item cid).

(** The catalog in the order of [sort_catalogo], as [main] walks it. *)
Definition catalogo_sorted (unicode_upper : N -> pystr) (data : json)
  : res (list json) :=
  py_get data (str "catalogo_malhas") (JArr [])
    ≫= UpdateStatus.sort_catalogo unicode_upper.

(** *** The report *)

(** A date as the scripts write it: three fields between two hyphens. *)
Definition iso_date (y m d : pystr) : json :=
  JStr (y ++ lit "-" ++ m ++ lit "-" ++ d).

Definition no_hyphen (s : pystr) : Prop := Forall (fun c => c ≠ 45%N) s.

Definition row_cat (r : PreencherMalhas.row) : json := r.1.1.1.1.

(** The value [v] is the category of name [k]. *)
Definition is_cat (k : pystr) (v : json) : bool :=
  match v with
  | JStr s => bool_decide (s = k)
  | _ => false
  end.

(** The glyph of each status code, as the legend has it. *)
Definition STATUS_GLYPH : list (pystr * pystr) := [
  (lit "exec", lit "🟡");
  (lit "ok", lit "🟢");
  (lit "contingencia", lit "🔵");
  (lit "abend", lit "🔴");
  (lit "nao_comecou", lit "⚪");
  (lit "aguardando", lit "⚫");
  (lit "sem_exec", lit "⚪")
].

Fixpoint assoc (k : pystr) (l : list (pystr * pystr)) : option pystr :=
  match l with
  | [] => None
  | (k', v) :: l' => if bool_decide (k' = k) then Some v else assoc k l'
  end.

(** The fixed list of the categories, in its order, and the lines of the
    legend, as a reader of the report sees them. *)
Definition SPEC_CATEGORIES : list pystr := [
  lit "Rotativos";
  lit "Parcelados";
  lit "Modelos";
  lit "Gestão PJ e Alto Risco";
  lit "Semanal"
].

Definition SPEC_LEGEND : list pystr := [
  lit "Legenda:";
  lit "🟡 Em execução | 🟢 Finalizado | 🔵 Contingência | 🔴 Abend | ⚪ Não começou/Sem execução | ⚫ Aguardando condição";
  lit "⚪/🔵 em “Fim de jogo” = não validado / validado"
].

(** The report in the words of the specification: the glyph of the
    mapping or the neutral one, the name, the note in parentheses when
    there is one; one section per category of the fixed list, with a
    placeholder when it has no row; the legend at the end. *)
Definition spec_glyph (st : json) : pystr :=
  match st with
  | JStr s => default (lit "⚪") (assoc s STATUS_GLYPH)
  | _ => lit "⚪"
  end.

Definition spec_line (r : PreencherMalhas.row) : pystr :=
  let '(cat, nome, st, fim, obs) := r in
  spec_glyph st ++ lit " " ++ nome
  ++ (if bool_decide (obs = []) then [] else lit "  (" ++ obs ++ lit ")").

Definition spec_section (rows : list PreencherMalhas.row) (cat : pystr)
  : list pystr :=
  let lines := spec_line <$> filter (fun r => is_cat cat (row_cat r) = true) rows in
  [cat ++ lit ":" ++ [10%N]]
  ++ (if bool_decide (lines = []) then [lit "- (sem itens)"]
      else (fun x => lit "- " ++ x) <$> lines)
  ++ [[]].

Definition spec_report (date : pystr) (rows : list PreencherMalhas.row)
  : pystr :=
  join [10%N]
    ([lit "Boa noite." ++ [10%N];
      lit "Acompanhamento Malhas" ++ [10%N];
      lit "Odate: " ++ date ++ [10%N]]
     ++ flat_map (spec_section rows) SPEC_CATEGORIES
     ++ SPEC_LEGEND).

(** The groups of [build_whatsapp_report] when every key [k] holds the
    lines [f k]. *)
Definition groups_of (ks : list pystr) (f : pystr -> list pystr)
  : list (json * list pystr) :=
  (fun k => (JStr k, f k)) <$> ks.

(** The lines of the rows of a category, in the order of the rows. *)
Definition lines_of (rows : list PreencherMalhas.row) (k : pystr)
  : list pystr :=
  (fun r => PreencherMalhas.report_line r.1.1.1.2 r.1.1.2 r.2)
    <$> filter (fun r => is_cat k (row_cat r) = true) rows.

(** *** Runs *)

(** The world after more events on the console. *)
Definition say (w : world) (evs : list event) : world :=
  World (files w) (console w ++ evs) (stdin w) (clock w).

(** The temporary paths of the two [save_json], and the text of a
    document. *)
Definition update_tmp (ROOT : path) : path := ROOT ++ [lit "malhas.tmp"].

Definition preencher_tmp (CWD : path) : path := CWD ++ [lit "malhas.json.tmp"].

Definition preencher_store (CWD : path) : path := CWD ++ [lit "malhas.json"].

Definition document (codec : json_codec) (data : json) : pystr :=
  concat (json_dumps codec data).


(** The files after a whole save of [data]. *)
Definition saved (codec : json_codec) (tmp store : path) (data : json)
    (fs : gmap path node) : gmap path node :=
  <[store := File (document codec data)]> (delete tmp fs).

(** A computation that leaves the files as they are; one that, when it
    raises, leaves them as they are but for the temporary file; one that
    leaves them as they are but for the temporary file, or as a whole
    save of some [data] leaves them. *)
Definition keeps_files {A} (m : M A) : Prop :=
  ∀ w, files (m w).2 = files w.




(** *** More notions *)

(** Every code point of [s] is whitespace. *)
Definition blank (s : pystr) : Prop := Forall (fun c => isspace c = true) s.

(** The operation [c] has the sort key [k]. *)
Definition has_key (unicode_upper : N -> pystr) (k : sort_key) (c : json)
  : bool :=
  match UpdateStatus.catalogo_key unicode_upper c with
  | Ok k' => bool_decide (k' = k)
  | Raise _ => false
  end.

(** The object of a day of the store, [data["dias"][day]]; and a store
    whose [dias], when it has one, is an object. *)
Definition day_of (data day : json) : res json :=
  dias ← py_getitem data (str "dias");
  py_getitem dias day.

Definition dias_ok (data : json) : bool :=
  is_obj data
  && match field "dias" data with
     | Some (JObj _) | None => true
     | Some _ => false
     end.

(** The records [main] computes for a store and a payload: the two
    loops of the reconciliation. *)
Definition final_itens (unicode_upper : N -> pystr) (data payload : json)
  : res (list json) :=
  raw_itens ← py_get payload (str "itens") (JArr []) ≫= py_iter;
  incoming ← res_foldl (UpdateStatus.incoming_step unicode_upper) ∅ raw_itens;
  catalogo_sorted ← py_get data (str "catalogo_malhas") (JArr [])
                      ≫= UpdateStatus.sort_catalogo unicode_upper;
  res_map (UpdateStatus.final_item unicode_upper incoming) catalogo_sorted.

(** The object of a day after the reconciliation, from the object [o] it
    was. *)
Definition merged_day (updatedAt : json) (itens : list json) (o : pydict)
  : json :=
  JObj (dict_set (str "itens") (JArr itens)
          (dict_set (str "updatedAt") updatedAt o)).

(** The number of hyphens of a [str]. *)
Definition hyphens (s : pystr) : nat := length (filter (fun c => c = 45%N) s).

(** The prompt of [prompt_date], and what the console shows for the
    lines [bads] that were refused before a line was accepted. *)
Definition date_prompt (dflt : json) : list fpart :=
  [T (lit "Data (YYYY-MM-DD) ["); V dflt; T (lit "]: ")].

Definition refused (prompt msg : list fpart) (bads : list pystr)
  : list event :=
  flat_map (fun _ => [EPrompt prompt; EPrint msg]) bads.

(** The operation [c] has the id [i], a [str]. *)
Definition has_id (i : pystr) (c : json) : bool :=
  match field "id" c with
  | Some (JStr j) => bool_decide (j = i)
  | _ => false
  end.

(** An operation with a [str] as id. *)
Definition str_id (c : json) : bool :=
  is_obj c && match field "id" c with Some (JStr _) => true | _ => false end.

(** The value under a [str] key of an object. *)
Definition key_of (k : pystr) (o : json) : option json :=
  match o with
  | JObj d => dict_lookup (JStr k) d
  | _ => None
  end.

(** The items of the object of a day; a day whose [itens], when it has
    the key, is a list. *)
Definition day_list (dia_obj : json) : list json :=
  match field "itens" dia_obj with
  | Some (JArr l) => l
  | _ => []
  end.

Definition itens_ok (dia_obj : json) : bool :=
  match field "itens" dia_obj with
  | Some (JArr _) | None => true
  | Some _ => false
  end.

(** The item [it] has an id equal to [mid]. *)
Definition same_id (mid it : json) : bool :=
  match field "id" it with
  | Some v => py_eq v mid
  | None => false
  end.

(** The keys of an item that the loop of [main] assigns. *)
Definition FILLED : list pystr := [lit "status"; lit "fim_de_jogo"; lit "nota"].

(** The item the loop of [main] works on for the id [mid]: the position
    [itmap] has for it in the items [l], or else a new item that is added
    at the end of [l] and to [itmap]. *)
Definition fill_slot (mid : json) (itmap : list (json * nat)) (l : list json)
  : nat * list json * list (json * nat) :=
  match dict_lookup mid itmap with
  | Some i => (i, l, itmap)
  | None => (length l, l ++ [PreencherMalhas.new_item mid],
             dict_set mid (length l) itmap)
  end.

(** The items of [l'] are those of [l], at their positions and with the
    keys that are not in [FILLED] as they were, and then more. *)
Definition keeps_items (l l' : list json) : Prop :=
  ∀ i it, l !! i = Some it →
    ∃ it', l' !! i = Some it' ∧ ∀ k, k ∉ FILLED → key_of k it' = key_of k it.

(** Every position that [itmap] holds is the position of an item of the
    day with that id. *)
Definition itmap_ok (dia_obj : json) (itmap : list (json * nat)) : Prop :=
  ∀ mid i, dict_lookup mid itmap = Some i →
    ∃ it, day_list dia_obj !! i = Some it ∧ same_id mid it = true.

(** The operation [c] has an id, and [it] is an item with that id. *)
Definition item_for (c it : json) : Prop :=
  ∃ mid, field "id" c = Some mid ∧ same_id mid it = true.

(** A store whose days, when it has any, are in an object, each with a
    list of items or none. *)
Definition days_ok (data : json) : bool :=
  is_obj data
  && match field "dias" data with
     | Some (JObj ds) => forallb (fun kv => itens_ok kv.2) ds
     | Some _ => false
     | None => true
     end.

(** The items of a day of the store, none when the store has not the
    day. *)
Definition day_items (data dia : json) : list json :=
  match day_of data dia with
  | Ok o => day_list o
  | Raise _ => []
  end.

(** ** Examples *)

(** A table of upper-casing that maps every code point above ASCII to
    itself. *)
Definition upper_id : N -> pystr := fun c => [c].

Definition ex_day : json := str "2026-01-10".
Definition ex_clock : pystr := lit "2026-01-10T22:00:00".

Definition ex_malha (id nome categoria : string) : json := JObj [
  (str "id", str id); (str "nome", str nome); (str "categoria", str categoria)
].

Definition ex_store (catalogo : list json) : json := JObj [
  (str "catalogo_malhas", JArr catalogo); (str "dias", JObj [])
].

Definition ex_payload (itens : list json) : json := JObj [
  (str "date", ex_day); (str "itens", JArr itens)
].

Definition ex_item (nome status : string) : json := JObj [
  (str "nome", str nome); (str "status", str status)
].

(** Rows of a report: one finished operation, one with a status that is
    no code and with a note; and a row of the category ["-"]. *)
Definition ex_rows : list PreencherMalhas.row := [
  (str "Rotativos", lit "ORIGENS", str "ok", true, []);
  (str "Semanal", lit "STATUS MQ", str "parado", false, lit "atrasado")
].

Definition ex_row_dash : PreencherMalhas.row :=
  (str "-", lit "X1", str "ok", false, []).

(** A catalog out of order: a category that is not in the list, a name
    that is not in the list of its category, two categories of the
    list. *)
Definition ex_catalogo : list json := [
  ex_malha "z" "Outra" "Extras";
  ex_malha "p" "Consignado" "Parcelados";
  ex_malha "n" "Nova" "Rotativos";
  ex_malha "c" "cma" "Rotativos"
].


Definition ex_root : path := [lit "/"; lit "repo"].
Definition ex_arg : pystr := lit "updates/2026-01-10.json".
Definition ex_update : path := [lit "/"; lit "repo"; lit "updates"; lit "2026-01-10.json"].



(** A codec that reads [S] as a store and [P] as an update payload, and
    a world with the two files. *)
Definition ex_codec_ok : json_codec := JsonCodec
  (fun t => if bool_decide (t = lit "S")
            then Some (ex_store [ex_malha "a" "FOO" "Rotativos"])
            else if bool_decide (t = lit "P")
            then Some (ex_payload [ex_item "foo" "ok"])
            else None)
  (fun _ => [lit "["; lit "]"]).

Definition ex_world_ok : world :=
  World (<[ex_update := File (lit "P")]>
           (<[UpdateStatus.MALHAS_JSON ex_root := File (lit "S")]> ∅))
    [] [] ex_clock.

(** A session of preencher_malhas.py on the store that [ex_codec_ok]
    reads: the default day, then the status [2], [s] and a note for the
    one operation of the catalog. *)
Definition ex_session : world :=
  World (<[preencher_store ex_root := File (lit "S")]> ∅) []
    [lit ""; lit "2"; lit "s"; lit "obs"] ex_clock.


(** The catalog and the item of the example of the specification. *)
Definition ex_foo : json := ex_malha "a" "FOO" "Rotativos".
Definition ex_foo_item : json := JObj [
  (str "nome", str "foo"); (str "status", str "ok");
  (str "fim_de_jogo", JBool true)
].

(** Steps of the [res] monad. *)
Ltac res_simpl := cbn [mbind res_bind mret res_ret].
Tactic Notation "res_simpl" "in" hyp(H) :=
  cbn [mbind res_bind mret res_ret] in H.

Lemma PAT_eq : PAT = [84;72;51;32;8211;32;79;89]%N.
Proof. reflexivity. Qed.
Lemma REP_eq : REP = [84;72;51;32;45;32;79;89]%N.
Proof. reflexivity. Qed.

Lemma replace_go_skip old new k s :
  replace_go old new k s = replace_go old new 0 (drop k s).
Proof.
  revert k; induction s as [|c s IH]; intros [|k]; simpl; done.
Qed.

Lemma starts_with_app p s : starts_with p s = true ↔ ∃ r, s = p ++ r.
Proof.
  revert s; induction p as [|a p IH]; intros s; simpl.
  - split; eauto.
  - destruct s as [|b s]; simpl.
    + split; [done | by intros [r ?]].
    + rewrite andb_true_iff, N.eqb_eq, IH. split.
      * intros [-> [r ->]]. eauto.
      * intros [r [= -> ->]]. eauto.
Qed.

Lemma th3_nil : th3 [] = [].
Proof. reflexivity. Qed.

Lemma th3_match r : th3 (PAT ++ r) = REP ++ th3 r.
Proof.
  unfold th3. rewrite PAT_eq. cbn [replace app].
  cbn [replace_go starts_with N.eqb Pos.eqb andb length Nat.sub].
  rewrite replace_go_skip. rewrite REP_eq. reflexivity.
Qed.

Lemma th3_miss c s :
  starts_with PAT (c :: s) = false → th3 (c :: s) = c :: th3 s.
Proof.
  unfold th3. rewrite PAT_eq. intros H. cbn [replace replace_go].
  by rewrite H.
Qed.

Lemma th3_ind (P : pystr → pystr → Prop) :
  P [] [] →
  (∀ r, P r (th3 r) → P (PAT ++ r) (REP ++ th3 r)) →
  (∀ c s, starts_with PAT (c :: s) = false → P s (th3 s) → P (c :: s) (c :: th3 s)) →
  ∀ s, P s (th3 s).
Proof.
  intros H0 H1 H2 s.
  remember (length s) as n eqn:Hn. revert s Hn.
  induction n as [n IH] using lt_wf_ind. intros s Hn.
  destruct s as [|c s]; [done|].
  destruct (starts_with PAT (c :: s)) eqn:Hs.
  - apply starts_with_app in Hs as [r Hr]. rewrite Hr, th3_match.
    apply H1, (IH (length r)); [|done].
    rewrite Hn, Hr, length_app, PAT_eq. simpl. lia.
  - rewrite th3_miss by done. apply H2; [done|].
    apply (IH (length s)); [|done]. rewrite Hn. simpl. lia.
Qed.

Lemma th3_no_occ_id s : no_occ s = true → th3 s = s.
Proof.
  induction s as [|c s IH]; [done|].
  cbn [no_occ]. rewrite andb_true_iff, negb_true_iff. intros [H1 H2].
  rewrite th3_miss by done. by rewrite IH.
Qed.

Lemma th3_no_occ s : no_occ (th3 s) = true.
Proof.
  cut (no_occ (th3 s) = true ∧
       ∀ k, 1 ≤ k → starts_with (drop k PAT) (th3 s) = true →
            starts_with (drop k PAT) s = true); [tauto|].
  apply (th3_ind (fun s o => no_occ o = true ∧
       ∀ k, 1 ≤ k → starts_with (drop k PAT) o = true →
            starts_with (drop k PAT) s = true)).
  - split; [done|]. done.
  - intros r [IH1 IH2]. split.
    + rewrite REP_eq, PAT_eq in *. exact IH1.
    + intros k Hk. rewrite REP_eq, PAT_eq.
      do 8 (destruct k as [|k]; [first [lia | done]|]).
      cbn [drop]. by rewrite drop_nil.
  - intros c r Hc [IH1 IH2]. split.
    + cbn [no_occ]. rewrite IH1, andb_true_r, negb_true_iff.
      destruct (starts_with PAT (c :: th3 r)) eqn:E; [|done].
      rewrite PAT_eq in E, Hc. cbn [starts_with] in E, Hc.
      apply andb_true_iff in E as [E1 E2].
      rewrite E1 in Hc. cbn [andb] in Hc.
      specialize (IH2 1 ltac:(lia)). rewrite PAT_eq in IH2.
      cbn [drop] in IH2. cbn [starts_with] in IH2. rewrite IH2 in Hc; done.
    + intros k Hk. specialize (IH2 (S k) ltac:(lia)).
      rewrite PAT_eq in *.
      do 8 (destruct k as [|k]; [first [lia | cbn [drop starts_with] in *;
         rewrite !andb_true_iff; intros [? ?]; split; [done|]; by apply IH2 | done]|]).
      cbn [drop]. by rewrite drop_nil.
Qed.

Lemma th3_idem s : th3 (th3 s) = th3 s.
Proof. apply th3_no_occ_id, th3_no_occ. Qed.

Lemma split_ws_words s : Forall word (split_ws s).
Proof.
  induction s as [|c s IH]; [constructor|].
  cbn [split_ws]. destruct (isspace c) eqn:Hc; [done|].
  destruct s as [|d s]; [repeat constructor; done|].
  destruct (isspace d) eqn:Hd.
  - constructor; [|done]. split; [done|]. by constructor.
  - destruct (split_ws (d :: s)) as [|w ws]; [repeat constructor; done|].
    inversion IH as [|?? [Hw1 Hw2] Hws]; subst.
    constructor; [|done]. split; [done|]. by constructor.
Qed.

Lemma split_ws_chars (P : N → Prop) s :
  Forall P s → Forall (Forall P) (split_ws s).
Proof.
  induction s as [|c s IH]; [constructor|].
  intros H. inversion H as [|?? Hc Hs]; subst. specialize (IH Hs).
  cbn [split_ws]. destruct (isspace c); [done|].
  destruct s as [|d s]; [repeat constructor; done|].
  destruct (isspace d).
  - constructor; [|done]. by constructor.
  - destruct (split_ws (d :: s)) as [|w ws]; [repeat constructor; done|].
    inversion IH; subst. constructor; [|done]. by constructor.
Qed.

Lemma join_cons sep w ws :
  ws ≠ [] → join sep (w :: ws) = w ++ sep ++ join sep ws.
Proof. by destruct ws. Qed.

Lemma join_chars (P : N → Prop) sep ws :
  Forall P sep → Forall (Forall P) ws → Forall P (join sep ws).
Proof.
  intros Hsep. induction 1 as [|w ws Hw Hws IH]; [constructor|].
  destruct ws as [|w' ws']; [done|].
  rewrite join_cons by done. rewrite !Forall_app. auto.
Qed.

Lemma sp_ok_word b w r :
  word w → sp_ok b (w ++ r) = sp_ok false r.
Proof.
  intros [Hne Hw]. revert b. induction Hw as [|c w Hc Hw IH]; [done|].
  intros b. cbn [app sp_ok]. rewrite Hc.
  destruct w as [|d w]; [done|]. by apply IH.
Qed.

Lemma join_sp_ok ws :
  Forall word ws → ws ≠ [] → sp_ok true (join (lit " ") ws) = true.
Proof.
  induction 1 as [|w ws Hw Hws IH]; [done|]. intros _.
  destruct ws as [|w' ws'].
  - cbn [join]. by rewrite <-(app_nil_r w), sp_ok_word.
  - rewrite join_cons by done. rewrite sp_ok_word by done.
    change (lit " ") with [32%N]. cbn [app sp_ok isspace].
    by apply IH.
Qed.

Lemma join_spaced ws : Forall word ws → spaced (join (lit " ") ws) = true.
Proof.
  intros H. destruct ws as [|w ws]; [done|].
  pose proof (join_sp_ok _ H ltac:(done)) as Hok.
  unfold spaced. by destruct (join (lit " ") (w :: ws)).
Qed.

Lemma sp_ok_nonspace b c s :
  isspace c = false → sp_ok b (c :: s) = sp_ok false s.
Proof. intros H. cbn [sp_ok]. by rewrite H. Qed.

Lemma sp_ok_true_inv s :
  sp_ok true s = true →
  ∃ c s', s = c :: s' ∧ isspace c = false ∧ sp_ok false s' = true.
Proof.
  destruct s as [|c s]; [done|]. cbn [sp_ok].
  destruct (isspace c) eqn:Hc; [by rewrite andb_false_r|]. eauto.
Qed.

Lemma sp_ok_join_split s :
  sp_ok true s = true →
  join (lit " ") (split_ws s) = s ∧ split_ws s ≠ [].
Proof.
  remember (length s) as n eqn:Hn. revert s Hn.
  induction n as [n IH] using lt_wf_ind. intros s Hn Hs.
  apply sp_ok_true_inv in Hs as (c & s' & -> & Hc & Hs').
  cbn [split_ws]. rewrite Hc.
  destruct s' as [|d s'']; [done|].
  destruct (isspace d) eqn:Hd.
  - cbn [sp_ok] in Hs'. rewrite Hd in Hs'.
    rewrite !andb_true_iff, N.eqb_eq in Hs'. destruct Hs' as [[-> _] Hs''].
    cbn [split_ws]. rewrite Hd.
    destruct (IH (length s'') ltac:(subst n; simpl; lia) s'' eq_refl Hs'')
      as [IH1 IH2].
    split; [|done]. rewrite join_cons by done. by rewrite IH1.
  - rewrite (sp_ok_nonspace false) in Hs' by done.
    rewrite <-(sp_ok_nonspace true d) in Hs' by done.
    destruct (IH (length (d :: s'')) ltac:(subst n; simpl; lia) (d :: s'') eq_refl Hs')
      as [IH1 IH2].
    destruct (split_ws (d :: s'')) as [|w ws]; [done|]. split; [|done].
    destruct ws as [|w' ws']; cbn [join] in *; by rewrite <-IH1.
Qed.

Lemma spaced_join_split s :
  spaced s = true → join (lit " ") (split_ws s) = s.
Proof.
  destruct s as [|c s]; [done|]. intros H. by apply sp_ok_join_split.
Qed.

Lemma sp_ok_last b s c : sp_ok b (s ++ [c]) = true → isspace c = false.
Proof.
  revert b. induction s as [|d s IH]; intros b; cbn [app sp_ok].
  - destruct (isspace c); [|done]. by rewrite andb_false_r.
  - destruct (isspace d); [|by apply IH].
    rewrite andb_true_iff. intros [_ ?]. by eapply IH.
Qed.

Lemma spaced_strip s : spaced s = true → strip s = s.
Proof.
  destruct s as [|c s]; [done|]. unfold spaced. intros H.
  pose proof H as H'. apply sp_ok_true_inv in H' as (c' & s' & [= <- <-] & Hc & _).
  unfold strip, rstrip. cbn [lstrip]. rewrite Hc.
  destruct (rev (c :: s)) as [|e r] eqn:Hr.
  { apply (f_equal (@rev N)) in Hr. by rewrite rev_involutive in Hr. }
  assert (c :: s = rev r ++ [e]) as Hs.
  { by rewrite <-(rev_involutive (c :: s)), Hr. }
  rewrite Hs in H. apply sp_ok_last in H.
  cbn [lstrip]. rewrite H. by rewrite Hs.
Qed.

Lemma sp_ok_th3 b s : sp_ok b s = true → sp_ok b (th3 s) = true.
Proof.
  revert b.
  apply (th3_ind (fun s o => ∀ b, sp_ok b s = true → sp_ok b o = true)).
  - done.
  - intros r IH b. rewrite PAT_eq, REP_eq. cbn. apply IH.
  - intros c r _ IH b. cbn [sp_ok].
    destruct (isspace c); [|by apply IH].
    rewrite !andb_true_iff. intros [? ?]. split; [done|]. by apply IH.
Qed.

Lemma spaced_th3 s : spaced s = true → spaced (th3 s) = true.
Proof.
  destruct s as [|c s]; [done|]. unfold spaced at 1. intros H.
  apply sp_ok_th3 in H. unfold spaced. by destruct (th3 (c :: s)).
Qed.

Lemma th3_chars (P : N → Prop) s :
  Forall P REP → Forall P s → Forall P (th3 s).
Proof.
  intros HR. apply (th3_ind (fun s o => Forall P s → Forall P o)).
  - done.
  - intros r IH. rewrite !Forall_app. intros [_ ?]. auto.
  - intros c r _ IH H. inversion H; subst. constructor; auto.
Qed.

Section UpperFacts.
Variable unicode_upper : N → pystr.
Hypothesis unicode_upper_fixed :
  ∀ c d, (128 ≤ c)%N → d ∈ unicode_upper c → upper_cp unicode_upper d = [d].

Lemma upper_cp_fixed c d :
  d ∈ upper_cp unicode_upper c → upper_cp unicode_upper d = [d].
Proof.
  unfold upper_cp at 1.
  destruct (c <? 128)%N eqn:Hlt.
  - apply N.ltb_lt in Hlt.
    destruct ((97 <=? c) && (c <=? 122))%N eqn:Hlow.
    + apply andb_true_iff in Hlow as [H1 H2].
      apply N.leb_le in H1, H2.
      intros ->%list_elem_of_singleton. unfold upper_cp.
      replace (c - 32 <? 128)%N with true by (symmetry; apply N.ltb_lt; lia).
      replace ((97 <=? c - 32) && (c - 32 <=? 122))%N with false; [done|].
      symmetry. apply andb_false_iff. left. apply N.leb_gt. lia.
    + intros ->%list_elem_of_singleton. unfold upper_cp.
      replace (c <? 128)%N with true by (symmetry; apply N.ltb_lt; lia).
      by rewrite Hlow.
  - apply N.ltb_ge in Hlt. by apply unicode_upper_fixed.
Qed.

Lemma upper_chars_fixed s :
  Forall (fun d => upper_cp unicode_upper d = [d]) (upper unicode_upper s).
Proof.
  unfold upper. induction s as [|c s IH]; [constructor|].
  cbn [flat_map]. apply Forall_app. split; [|done].
  apply Forall_forall. intros d Hd. by eapply upper_cp_fixed.
Qed.

Lemma upper_fixed_id s :
  Forall (fun d => upper_cp unicode_upper d = [d]) s → upper unicode_upper s = s.
Proof.
  unfold upper. induction 1 as [|c s Hc Hs IH]; [done|].
  cbn [flat_map]. by rewrite Hc, IH.
Qed.

Lemma norm_str_idempotent s :
  norm_str unicode_upper (norm_str unicode_upper s) = norm_str unicode_upper s.
Proof.
  unfold norm_str at 2.
  set (t := join (lit " ") (split_ws (upper unicode_upper (strip s)))).
  change (replace (lit "TH3 – OY") (lit "TH3 - OY") t) with (th3 t).
  assert (spaced (th3 t) = true) as Hsp.
  { apply spaced_th3, join_spaced, split_ws_words. }
  assert (Forall (fun d => upper_cp unicode_upper d = [d]) (th3 t)) as Hfix.
  { apply th3_chars.
    - rewrite REP_eq. repeat constructor.
    - apply join_chars; [repeat constructor|].
      apply split_ws_chars, upper_chars_fixed. }
  unfold norm_str. rewrite spaced_strip by done.
  rewrite upper_fixed_id by done. rewrite spaced_join_split by done.
  apply th3_idem.
Qed.

End UpperFacts.

(** ** Facts on the [res] monad *)

Lemma res_bind_ok {A B} (m : res A) (f : A → res B) b :
  m ≫= f = Ok b ↔ ∃ a, m = Ok a ∧ f a = Ok b.
Proof.
  destruct m as [a|e]; cbn.
  - split; [eauto|]. by intros (a' & [= <-] & ?).
  - split; [done|]. by intros (? & ? & _).
Qed.

Lemma res_map_ok {A B} (f : A → res B) l ys :
  res_map f l = Ok ys ↔ Forall2 (fun x y => f x = Ok y) l ys.
Proof.
  revert ys. induction l as [|x l IH]; intros ys; cbn [res_map].
  - split; [intros [= <-]; constructor | by inversion 1].
  - rewrite res_bind_ok. split.
    + intros (y & Hy & H). apply res_bind_ok in H as (ys' & Hys & [= <-]).
      constructor; [done|]. by apply IH.
    + inversion 1 as [|???? Hy Hys]; subst. exists y. split; [done|].
      apply res_bind_ok. eexists. split; [by apply IH|done].
Qed.

Lemma res_map_total {A B} (f : A → res B) l :
  Forall (fun x => ∃ y, f x = Ok y) l → ∃ ys, res_map f l = Ok ys.
Proof.
  induction 1 as [|x l [y Hy] _ [ys Hys]]; [by eexists|].
  exists (y :: ys). cbn [res_map]. by rewrite Hy, Hys.
Qed.

(** ** The stable sort *)

Section SortFacts.
Context {A K : Type} (lt : K → K → bool).
Hypothesis lt_asym : ∀ a b, lt a b = true → lt b a = false.
Hypothesis lt_neg_trans :
  ∀ a b c, lt b a = false → lt c b = false → lt c a = false.

Lemma insert_by_perm (x : K * A) l : insert_by lt x l ≡ₚ x :: l.
Proof.
  induction l as [|y l IH]; [done|]. cbn [insert_by].
  destruct (lt y.1 x.1); [|done]. rewrite IH. apply Permutation_swap.
Qed.

Lemma sort_decorated_perm (l : list (K * A)) : sort_decorated lt l ≡ₚ l.
Proof.
  induction l as [|x l IH]; [done|]. cbn [sort_decorated foldr].
  rewrite insert_by_perm. by constructor.
Qed.

Lemma insert_by_sorted (x : K * A) l :
  StronglySorted (key_le lt) l → StronglySorted (key_le lt) (insert_by lt x l).
Proof.
  induction 1 as [|y l Hl IH Hy]; cbn [insert_by].
  - repeat constructor.
  - destruct (lt y.1 x.1) eqn:Hyx.
    + constructor; [done|]. rewrite insert_by_perm. constructor; [|done].
      unfold key_le. by apply lt_asym.
    + constructor; [by constructor|]. constructor; [done|].
      eapply Forall_impl; [exact Hy|]. intros z Hz. unfold key_le in *.
      by eapply lt_neg_trans.
Qed.

Lemma sort_decorated_sorted (l : list (K * A)) : StronglySorted (key_le lt) (sort_decorated lt l).
Proof.
  induction l as [|x l IH]; [constructor|]. by apply insert_by_sorted.
Qed.

Lemma StronglySorted_lookup (R : K * A → K * A → Prop) l i j x y :
  StronglySorted R l → i < j → l !! i = Some x → l !! j = Some y → R x y.
Proof.
  intros Hl. revert i j. induction Hl as [|z l Hl IH Hz]; intros i j Hij Hi Hj.
  - done.
  - destruct j as [|j]; [lia|]. destruct i as [|i].
    + cbn in Hi, Hj. injection Hi as ->.
      rewrite Forall_forall in Hz. apply Hz. by eapply list_elem_of_lookup_2.
    + cbn in Hi, Hj. apply (IH i j); [lia|done..].
Qed.

(** What [sorted] returns: the elements of the list, and an element
    whose key is smaller stands before. *)
Lemma py_sorted_spec (key : A → res K) l out :
  (∀ a, lt a a = false) →
  py_sorted lt key l = Ok out →
  out ≡ₚ l ∧
  ∀ p q x y, out !! p = Some x → out !! q = Some y →
    ∃ kx ky, key x = Ok kx ∧ key y = Ok ky ∧ (lt kx ky = true → p < q).
Proof.
  intros lt_irrefl. unfold py_sorted. rewrite res_bind_ok.
  intros (ks & Hks & [= <-]).
  apply res_map_ok in Hks.
  assert (ks.*2 = l ∧ Forall (fun kx => key kx.2 = Ok kx.1) ks) as [Hl Hkeys].
  { clear -Hks. induction Hks as [|x kx l ks H _ [IH1 IH2]]; [done|].
    apply res_bind_ok in H as (k & Hk & [= <-]). cbn. split; [by f_equal|].
    by constructor. }
  pose proof (sort_decorated_perm ks) as Hperm.
  pose proof (sort_decorated_sorted ks) as Hsorted.
  split; [by rewrite Hperm, Hl|].
  intros p q x y Hp Hq.
  rewrite list_lookup_fmap in Hp, Hq.
  destruct (sort_decorated lt ks !! p) as [[kx x']|] eqn:Ep; [|done].
  destruct (sort_decorated lt ks !! q) as [[ky y']|] eqn:Eq; [|done].
  cbn in Hp, Hq. injection Hp as ->. injection Hq as ->.
  rewrite <-Hperm in Hkeys. rewrite Forall_forall in Hkeys.
  exists kx, ky. split; [|split].
  - apply (Hkeys (kx, x)). by eapply list_elem_of_lookup_2.
  - apply (Hkeys (ky, y)). by eapply list_elem_of_lookup_2.
  - intros Hlt. destruct (decide (p < q)) as [|Hge]; [done|].
    destruct (decide (p = q)) as [->|Hne].
    + rewrite Ep in Eq. injection Eq as -> ->. by rewrite lt_irrefl in Hlt.
    + assert (q < p) as Hqp by lia.
      pose proof (StronglySorted_lookup _ _ _ _ _ _ Hsorted Hqp Eq Ep) as H.
      unfold key_le in H. cbn in H. by rewrite H in Hlt.
Qed.

Lemma py_sorted_total (key : A → res K) l :
  Forall (fun x => ∃ k, key x = Ok k) l → ∃ out, py_sorted lt key l = Ok out.
Proof.
  intros H. unfold py_sorted.
  destruct (res_map_total (fun x => k ← key x; Ok (k, x)) l) as [ks Hks].
  { eapply Forall_impl; [exact H|]. intros x [k Hk]. exists (k, x).
    by rewrite Hk. }
  rewrite Hks. by eexists.
Qed.

End SortFacts.

(** The order of the sort keys. *)
Lemma str_lt_irrefl a : str_lt a a = false.
Proof.
  induction a as [|x a IH]; [done|]. cbn.
  by rewrite N.ltb_irrefl, N.eqb_refl, IH.
Qed.

Lemma str_lt_asym a b : str_lt a b = true → str_lt b a = false.
Proof.
  revert b. induction a as [|x a IH]; intros [|y b]; cbn; try done.
  rewrite orb_true_iff, andb_true_iff, N.ltb_lt, N.eqb_eq.
  intros [Hlt|[-> Hlt]].
  - apply orb_false_iff. split; [apply N.ltb_ge; lia|].
    apply andb_false_iff. left. apply N.eqb_neq. lia.
  - rewrite N.ltb_irrefl, N.eqb_refl. cbn. by apply IH.
Qed.

Lemma str_lt_neg_trans a b c :
  str_lt b a = false → str_lt c b = false → str_lt c a = false.
Proof.
  revert b c. induction a as [|x a IH]; intros [|y b] [|z c]; cbn; try done.
  rewrite !orb_false_iff, !andb_false_iff, !N.ltb_ge, !N.eqb_neq.
  intros [H1 H2] [H3 H4]. split; [lia|].
  destruct (decide (z = x)) as [->|]; [|by left]. right.
  assert (y = x) as -> by lia.
  destruct H2 as [|H2]; [done|]. destruct H4 as [|H4]; [done|]. by eapply IH.
Qed.

Lemma key_lt_irrefl a : key_lt a a = false.
Proof.
  destruct a as [[a1 a2] a3]. cbn.
  by rewrite !Z.ltb_irrefl, !Z.eqb_refl, str_lt_irrefl.
Qed.

Lemma key_lt_true a1 a2 a3 b1 b2 b3 :
  key_lt (a1, a2, a3) (b1, b2, b3) = true ↔
  (a1 < b1 ∨ a1 = b1 ∧ (a2 < b2 ∨ a2 = b2 ∧ str_lt a3 b3 = true))%Z.
Proof.
  cbn. rewrite !orb_true_iff, !andb_true_iff, !orb_true_iff, !andb_true_iff,
    !Z.ltb_lt, !Z.eqb_eq. done.
Qed.

Lemma key_lt_asym a b : key_lt a b = true → key_lt b a = false.
Proof.
  destruct a as [[a1 a2] a3], b as [[b1 b2] b3]. rewrite key_lt_true.
  intros H. apply not_true_is_false. rewrite key_lt_true.
  intros H'. destruct H as [?|[-> [?|[-> H]]]], H' as [?|[? [?|[? H']]]];
    try lia. apply str_lt_asym in H. congruence.
Qed.

Lemma key_lt_neg_trans a b c :
  key_lt b a = false → key_lt c b = false → key_lt c a = false.
Proof.
  destruct a as [[a1 a2] a3], b as [[b1 b2] b3], c as [[c1 c2] c3].
  intros H1 H2. apply not_true_is_false. intros H3.
  apply not_true_iff_false in H1, H2. rewrite key_lt_true in *.
  destruct (str_lt b3 a3) eqn:E1; [|destruct (str_lt c3 b3) eqn:E2].
  - apply H1. destruct H3 as [?|[-> [?|[-> ?]]]].
    + destruct (decide (b1 < a1)%Z); [by left|]. exfalso. apply H2. lia.
    + destruct (decide (b1 < a1)%Z); [by left|].
      destruct (decide (b1 = a1)) as [->|]; [|exfalso; apply H2; lia].
      destruct (decide (b2 < a2)%Z); [lia|].
      exfalso. apply H2. lia.
    + destruct (decide (b1 < a1)%Z); [by left|].
      destruct (decide (b1 = a1)) as [->|]; [|exfalso; apply H2; lia].
      destruct (decide (b2 < a2)%Z); [lia|].
      destruct (decide (b2 = a2)) as [->|]; [|exfalso; apply H2; lia].
      right. split; [done|]. right. done.
  - apply H2. destruct H3 as [?|[-> [?|[-> ?]]]].
    + destruct (decide (c1 < b1)%Z); [by left|]. exfalso. apply H1. lia.
    + destruct (decide (a1 < b1)%Z); [by left|].
      destruct (decide (a1 = b1)) as [->|]; [|exfalso; apply H1; lia].
      destruct (decide (c2 < b2)%Z); [lia|]. exfalso. apply H1. lia.
    + destruct (decide (a1 < b1)%Z); [by left|].
      destruct (decide (a1 = b1)) as [->|]; [|exfalso; apply H1; lia].
      destruct (decide (a2 < b2)%Z); [lia|].
      destruct (decide (a2 = b2)) as [->|]; [|exfalso; apply H1; lia].
      right. split; [done|]. right. done.
  - pose proof (str_lt_neg_trans _ _ _ E1 E2) as E3.
    destruct H3 as [?|[-> [?|[-> ?]]]]; [| |congruence].
    + destruct (decide (b1 < a1)%Z); [apply H1; by left|].
      apply H2. lia.
    + destruct (decide (b1 < a1)%Z); [apply H1; by left|].
      destruct (decide (b1 = a1)) as [->|]; [|apply H2; lia].
      destruct (decide (b2 < a2)%Z); [apply H1; lia|]. apply H2. lia.
Qed.

(** ** Values *)

Lemma py_eq_str s v : py_eq (JStr s) v = true ↔ v = JStr s.
Proof.
  destruct v; cbn; try (split; [done|by intros [=]]).
  rewrite bool_decide_eq_true. split; [by intros ->|by intros [= ->]].
Qed.

Lemma py_eq_str_r s v : py_eq v (JStr s) = true ↔ v = JStr s.
Proof.
  destruct v; cbn; try (split; [done|by intros [=]]).
  rewrite bool_decide_eq_true. split; [by intros ->|by intros [= ->]].
Qed.

Lemma py_eq_refl k : hashable k = true → py_eq k k = true.
Proof.
  destruct k; cbn; try done; intros _.
  - by apply bool_decide_eq_true.
  - apply Z.eqb_refl.
  - by apply bool_decide_eq_true.
Qed.

Lemma list_index_cases x l :
  (∃ i, list_index x l = Ok (Z.of_nat i) ∧ i < length l
        ∧ ∃ y, l !! i = Some y ∧ py_eq y x = true)
  ∨ (list_index x l = Raise ValueError ∧ Forall (fun y => py_eq y x = false) l).
Proof.
  induction l as [|y l IH]; [by right|]. cbn [list_index].
  destruct (py_eq y x) eqn:E.
  - left. exists 0. cbn. split; [done|]. split; [lia|]. eauto.
  - destruct IH as [(i & -> & Hi & z & Hz & Hzx)|[-> Hl]].
    + left. exists (S i). cbn. split; [f_equal; lia|]. split; [lia|]. eauto.
    + right. split; [done|]. by constructor.
Qed.

Lemma list_index_str_hit (ns : list pystr) n i :
  NoDup ns → ns !! i = Some n →
  list_index (JStr n) (JStr <$> ns) = Ok (Z.of_nat i).
Proof.
  intros Hnd. revert i. induction Hnd as [|m ns Hm Hnd IH]; intros i Hi; [done|].
  cbn [fmap list_fmap list_index].
  destruct i as [|i].
  - injection Hi as ->. cbn. by rewrite bool_decide_true.
  - cbn in Hi. cbn [py_eq]. rewrite bool_decide_false.
    + change (list_fmap _ _ JStr ns) with (JStr <$> ns).
      rewrite (IH i Hi). cbn. f_equal. lia.
    + intros ->. apply Hm. by eapply list_elem_of_lookup_2.
Qed.

Lemma list_index_str_miss (ns : list pystr) v :
  v ∉ (JStr <$> ns) → list_index v (JStr <$> ns) = Raise ValueError.
Proof.
  intros Hv. destruct (list_index_cases v (JStr <$> ns))
    as [(i & _ & _ & y & Hy & Hyv)|[H _]]; [|done].
  exfalso. apply Hv. rewrite list_lookup_fmap in Hy.
  destruct (ns !! i) as [m|] eqn:E; [|done]. injection Hy as <-.
  apply py_eq_str in Hyv as ->. apply list_elem_of_fmap. exists m. split; [done|].
  by eapply list_elem_of_lookup_2.
Qed.

(** ** The two fixed lists *)

Import UpdateStatus.

Lemma ORDEM_CATEGORIAS_strs :
  ORDEM_CATEGORIAS = JStr <$> str_values ORDEM_CATEGORIAS
  ∧ NoDup (str_values ORDEM_CATEGORIAS)
  ∧ length ORDEM_CATEGORIAS = 5.
Proof.
  split; [reflexivity|]. split; [|reflexivity].
  apply (bool_decide_unpack _). by vm_compute.
Qed.

Lemma ORDEM_MALHAS_get cat :
  hashable cat = true →
  ∃ ns, py_get ORDEM_MALHAS cat (JArr []) = Ok (JArr (JStr <$> ns))
        ∧ NoDup ns ∧ (Z.of_nat (length ns) < 9999)%Z.
Proof.
  intros Hc. unfold py_get, ORDEM_MALHAS. rewrite Hc. cbn [dict_lookup].
  repeat match goal with
  | |- context [if py_eq ?a ?b then _ else _] => destruct (py_eq a b)
  end; cbn [default from_option id];
  match goal with
  | |- ∃ ns, Ok (JArr ?l) = _ ∧ _ => exists (str_values l)
  end; (split; [reflexivity|]); (split; [|by vm_compute]);
  apply (bool_decide_unpack _); by vm_compute.
Qed.

Lemma cat_order_known cat i :
  ORDEM_CATEGORIAS !! i = Some cat → cat_order cat = Ok (Z.of_nat i).
Proof.
  destruct ORDEM_CATEGORIAS_strs as (Heq & Hnd & _). unfold cat_order.
  rewrite Heq at 1. rewrite list_lookup_fmap.
  destruct (str_values ORDEM_CATEGORIAS !! i) as [n|] eqn:E; [|done].
  intros [= <-]. rewrite Heq. by rewrite (list_index_str_hit _ _ i).
Qed.

Lemma cat_order_unknown cat :
  cat ∉ ORDEM_CATEGORIAS → cat_order cat = Ok 999%Z.
Proof.
  destruct ORDEM_CATEGORIAS_strs as (Heq & _ & _). unfold cat_order.
  rewrite Heq. intros H. by rewrite list_index_str_miss.
Qed.

Lemma cat_order_total cat : ∃ k, cat_order cat = Ok k.
Proof.
  unfold cat_order.
  destruct (list_index_cases cat ORDEM_CATEGORIAS) as [(i & -> & _)|[-> _]];
    by eexists.
Qed.

Section SortCatalogo.
Variable unicode_upper : N → pystr.
Local Abbreviation norm := (norm unicode_upper).

Lemma norm_str_ok s : norm (JStr s) = Ok (norm_str unicode_upper s).
Proof. unfold UpdateStatus.norm, norm_value, py_or. cbn. by destruct s. Qed.

Lemma norm_text v :
  opt_text v = true → ∀ dflt, is_str dflt = true →
  ∃ n, norm (default dflt v) = Ok n.
Proof.
  intros Hv dflt Hd. destruct v as [[]|]; try done; cbn.
  - destruct dflt; try done. by eexists.
  - rewrite norm_str_ok. by eexists.
  - destruct dflt; try done. rewrite norm_str_ok. by eexists.
Qed.

Lemma malha_order_known cat nome n ns i :
  norm nome = Ok n →
  py_get ORDEM_MALHAS cat (JArr []) = Ok (JArr (JStr <$> ns)) →
  NoDup ns → ns !! i = Some n →
  malha_order unicode_upper cat nome = Ok (Z.of_nat i).
Proof.
  intros Hn Hget Hnd Hi. unfold malha_order. rewrite Hn. res_simpl.
  rewrite Hget. res_simpl. by rewrite (list_index_str_hit _ _ i).
Qed.

Lemma malha_order_unknown cat nome n ns :
  norm nome = Ok n →
  py_get ORDEM_MALHAS cat (JArr []) = Ok (JArr (JStr <$> ns)) →
  JStr n ∉ (JStr <$> ns) →
  malha_order unicode_upper cat nome = Ok 9999%Z.
Proof.
  intros Hn Hget Hi. unfold malha_order. rewrite Hn. res_simpl.
  rewrite Hget. res_simpl. by rewrite list_index_str_miss.
Qed.

Lemma wf_malha_key c :
  wf_malha c = true → ∃ k, catalogo_key unicode_upper c = Ok k.
Proof.
  unfold wf_malha. rewrite !andb_true_iff. intros [[[Hobj _] Hnome] Hcat].
  destruct c as [| | | | |d]; try done. unfold field in *.
  unfold catalogo_key, py_get.
  assert (∀ k, hashable (str k) = true) as Hstr by done. rewrite !Hstr.
  set (cat := default (str "") (dict_lookup (str "categoria") d)).
  set (nome := default (str "") (dict_lookup (str "nome") d)).
  destruct (cat_order_total cat) as [k1 Hk1].
  destruct (norm_text _ Hnome (str "") eq_refl) as [n Hn].
  fold nome in Hn.
  assert (hashable cat = true) as Hh.
  { subst cat. by destruct (dict_lookup (str "categoria") d) as [[]|]. }
  destruct (ORDEM_MALHAS_get cat Hh) as (ns & Hget & Hnd & Hlen).
  assert (∃ k2, malha_order unicode_upper cat nome = Ok k2) as [k2 Hk2].
  { unfold malha_order. rewrite Hn. res_simpl. rewrite Hget. res_simpl.
    destruct (list_index_cases (JStr n) (JStr <$> ns))
      as [(i & -> & _)|[-> _]]; by eexists. }
  res_simpl. rewrite Hk1. res_simpl. rewrite Hk2. res_simpl. rewrite Hn.
  by eexists.
Qed.

Lemma catalogo_key_inv c k1 k2 k3 :
  catalogo_key unicode_upper c = Ok (k1, k2, k3) →
  ∃ cat nome,
    py_get c (str "categoria") (str "") = Ok cat ∧
    py_get c (str "nome") (str "") = Ok nome ∧
    cat_order cat = Ok k1 ∧
    malha_order unicode_upper cat nome = Ok k2 ∧
    norm nome = Ok k3.
Proof.
  unfold catalogo_key. rewrite res_bind_ok. intros (k1' & H1 & H).
  apply res_bind_ok in H1 as (cat & Hcat & Hk1).
  apply res_bind_ok in H as (cat' & Hcat' & H).
  rewrite Hcat in Hcat'. injection Hcat' as <-.
  apply res_bind_ok in H as (k2' & H2 & H).
  apply res_bind_ok in H2 as (nome & Hnome & Hk2).
  apply res_bind_ok in H as (k3' & H3 & [= -> -> ->]).
  apply res_bind_ok in H3 as (nome' & Hnome' & Hk3).
  rewrite Hnome in Hnome'. injection Hnome' as <-. eauto 10.
Qed.

End SortCatalogo.

Lemma sort_catalogo_total (unicode_upper : N → pystr) (catalogo : json) :
  wf_catalogo catalogo = true →
  ∃ out, sort_catalogo unicode_upper catalogo = Ok out.
Proof.
  destruct catalogo as [| | | |cs|]; try done. cbn [wf_catalogo].
  intros Hwf. unfold sort_catalogo. cbn [py_iter]. res_simpl.
  apply py_sorted_total. apply Forall_forall. intros c Hc.
  apply wf_malha_key. rewrite forallb_forall in Hwf. apply Hwf.
  by apply list_elem_of_In.
Qed.

Lemma sort_catalogo_perm (unicode_upper : N → pystr) catalogo cs out :
  py_iter catalogo = Ok cs →
  sort_catalogo unicode_upper catalogo = Ok out → out ≡ₚ cs.
Proof.
  intros Hcs. unfold sort_catalogo. rewrite Hcs. res_simpl. intros Hsort.
  by destruct (py_sorted_spec key_lt key_lt_asym key_lt_neg_trans _ _ _
                 key_lt_irrefl Hsort).
Qed.

(** C4. [sort_catalogo] returns the operations of the catalog in an order
    where the categories follow the fixed list, the categories that are
    not in it come last, and within a category the names follow the list
    of the category, the names that are not in it come last, by
    normalised name.  Both scripts have the same [sort_catalogo]. *)
Theorem sort_catalogo_order (unicode_upper : N → pystr) (catalogo : json) :
  PreencherMalhas.sort_catalogo unicode_upper catalogo
    = sort_catalogo unicode_upper catalogo ∧
  (wf_catalogo catalogo = true →
   ∃ out, sort_catalogo unicode_upper catalogo = Ok out) ∧
  ∀ cs out,
    py_iter catalogo = Ok cs →
    sort_catalogo unicode_upper catalogo = Ok out →
    out ≡ₚ cs ∧
    ∀ p q x y, out !! p = Some x → out !! q = Some y →
      ∃ cx cy nx ny,
        categoria_of x = Ok cx ∧ categoria_of y = Ok cy ∧
        nome_of unicode_upper x = Ok nx ∧ nome_of unicode_upper y = Ok ny ∧
        (∀ i j, ORDEM_CATEGORIAS !! i = Some cx →
                ORDEM_CATEGORIAS !! j = Some cy → i < j → p < q) ∧
        (cx ∈ ORDEM_CATEGORIAS → cy ∉ ORDEM_CATEGORIAS → p < q) ∧
        (cx = cy → ∀ names,
           py_get ORDEM_MALHAS cx (JArr []) = Ok (JArr names) →
           (∀ i j, names !! i = Some (JStr nx) →
                   names !! j = Some (JStr ny) → i < j → p < q) ∧
           (JStr nx ∈ names → JStr ny ∉ names → p < q) ∧
           (JStr nx ∉ names → JStr ny ∉ names →
            str_lt nx ny = true → p < q)).
Proof.
  split; [reflexivity|]. split; [apply sort_catalogo_total|].
  - intros cs out Hcs. unfold sort_catalogo. rewrite Hcs. res_simpl.
    intros Hsort.
    destruct (py_sorted_spec key_lt key_lt_asym key_lt_neg_trans _ _ _
                key_lt_irrefl Hsort) as [Hperm Hord].
    split; [done|]. intros p q x y Hp Hq.
    destruct (Hord p q x y Hp Hq) as ([[x1 x2] x3] & [[y1 y2] y3] & Hx & Hy & Hlt).
    apply catalogo_key_inv in Hx as (cx & rx & Hcx & Hrx & Hx1 & Hx2 & Hx3).
    apply catalogo_key_inv in Hy as (cy & ry & Hcy & Hry & Hy1 & Hy2 & Hy3).
    rewrite key_lt_true in Hlt.
    exists cx, cy, x3, y3. unfold categoria_of, nome_of.
    rewrite Hcx, Hcy, Hrx, Hry. res_simpl.
    repeat split; try done.
    + intros i j Hi Hj Hij. apply Hlt. left.
      rewrite (cat_order_known _ _ Hi) in Hx1.
      rewrite (cat_order_known _ _ Hj) in Hy1.
      injection Hx1 as <-. injection Hy1 as <-. lia.
    + intros Hin Hnin. apply Hlt. left.
      apply list_elem_of_lookup in Hin as [i Hi].
      pose proof (lookup_lt_Some _ _ _ Hi) as Hlen.
      destruct ORDEM_CATEGORIAS_strs as (_ & _ & Hfive).
      rewrite (cat_order_known _ _ Hi) in Hx1.
      rewrite (cat_order_unknown _ Hnin) in Hy1.
      injection Hx1 as <-. injection Hy1 as <-. lia.
    + intros i j Hi Hj Hij. apply Hlt. right. subst cy.
      rewrite Hx1 in Hy1. injection Hy1 as <-. split; [done|]. left.
      assert (hashable cx = true) as Hh.
      { unfold py_get, ORDEM_MALHAS in H0. by destruct (hashable cx). }
      destruct (ORDEM_MALHAS_get cx Hh) as (ns & Hget & Hnd & Hlen).
      rewrite Hget in H0. injection H0 as <-.
      rewrite list_lookup_fmap in Hi, Hj.
      destruct (ns !! i) as [ni|] eqn:Ei; [|done].
      destruct (ns !! j) as [nj|] eqn:Ej; [|done].
      injection Hi as ->. injection Hj as ->.
      rewrite (malha_order_known _ _ _ _ _ _ Hx3 Hget Hnd Ei) in Hx2.
      rewrite (malha_order_known _ _ _ _ _ _ Hy3 Hget Hnd Ej) in Hy2.
      injection Hx2 as <-. injection Hy2 as <-. lia.
    + intros Hin Hnin. apply Hlt. right. subst cy.
      rewrite Hx1 in Hy1. injection Hy1 as <-. split; [done|]. left.
      assert (hashable cx = true) as Hh.
      { unfold py_get, ORDEM_MALHAS in H0. by destruct (hashable cx). }
      destruct (ORDEM_MALHAS_get cx Hh) as (ns & Hget & Hnd & Hlen).
      rewrite Hget in H0. injection H0 as <-.
      apply list_elem_of_lookup in Hin as [i Hi].
      pose proof (lookup_lt_Some _ _ _ Hi) as Hilen.
      rewrite length_fmap in Hilen.
      rewrite list_lookup_fmap in Hi.
      destruct (ns !! i) as [ni|] eqn:Ei; [|done]. injection Hi as ->.
      rewrite (malha_order_known _ _ _ _ _ _ Hx3 Hget Hnd Ei) in Hx2.
      rewrite (malha_order_unknown _ _ _ _ _ Hy3 Hget Hnin) in Hy2.
      injection Hx2 as <-. injection Hy2 as <-. lia.
    + intros Hnx Hny Hstr. apply Hlt. right. subst cy.
      rewrite Hx1 in Hy1. injection Hy1 as <-. split; [done|]. right.
      assert (hashable cx = true) as Hh.
      { unfold py_get, ORDEM_MALHAS in H0. by destruct (hashable cx). }
      destruct (ORDEM_MALHAS_get cx Hh) as (ns & Hget & Hnd & Hlen).
      rewrite Hget in H0. injection H0 as <-.
      rewrite (malha_order_unknown _ _ _ _ _ Hx3 Hget Hnx) in Hx2.
      rewrite (malha_order_unknown _ _ _ _ _ Hy3 Hget Hny) in Hy2.
      injection Hx2 as <-. injection Hy2 as <-. done.
Qed.

Lemma sort_catalogo_order_witness :
  ∃ out,
    sort_catalogo upper_id (JArr ex_catalogo) = Ok out ∧
    out ≡ₚ ex_catalogo ∧
    ids out = [Some (str "c"); Some (str "n"); Some (str "p"); Some (str "z")] ∧
    ∀ p q,
      out !! p = Some (ex_malha "n" "Nova" "Rotativos") →
      out !! q = Some (ex_malha "p" "Consignado" "Parcelados") → p < q.
Proof.
  destruct (sort_catalogo_order upper_id (JArr ex_catalogo))
    as (_ & Htotal & Horder).
  destruct (Htotal eq_refl) as [out Hout].
  destruct (Horder ex_catalogo out eq_refl Hout) as [Hperm Hpos].
  exists out. split; [exact Hout|]. split; [exact Hperm|].
  split.
  - revert Hout. vm_compute. intros [= <-]. reflexivity.
  - intros p q Hp Hq.
    destruct (Hpos p q _ _ Hp Hq)
      as (cx & cy & nx & ny & Hcx & Hcy & _ & _ & Hcat & _).
    vm_compute in Hcx, Hcy. injection Hcx as <-. injection Hcy as <-.
    apply (Hcat 0 1); [reflexivity|reflexivity|lia].
Defined.

(** ** Objects *)

Lemma dict_lookup_set_eq {V} k (v : V) d :
  py_eq k k = true → dict_lookup k (dict_set k v d) = Some v.
Proof.
  intros Hk. induction d as [|[k' v'] d IH]; cbn.
  - by rewrite Hk.
  - destruct (py_eq k' k) eqn:E; cbn; by rewrite E.
Qed.

Lemma dict_lookup_set_str {V} a b (v : V) d :
  a ≠ b →
  dict_lookup (JStr b) (dict_set (JStr a) v d) = dict_lookup (JStr b) d.
Proof.
  intros Hab. induction d as [|[k' v'] d IH]; cbn.
  - by rewrite bool_decide_false.
  - destruct (py_eq k' (JStr a)) eqn:E; cbn.
    + apply py_eq_str_r in E as ->. cbn. by rewrite bool_decide_false.
    + by rewrite IH.
Qed.

Lemma seq_index_lt n i k : seq_index n i = Ok k → k < n.
Proof.
  unfold seq_index.
  destruct ((0 <=? i) && (i <? Z.of_nat n))%Z eqn:E1.
  - apply andb_true_iff in E1 as [?%Z.leb_le ?%Z.ltb_lt]. intros [= <-]. lia.
  - destruct ((- Z.of_nat n <=? i) && (i <? 0))%Z eqn:E2; [|done].
    apply andb_true_iff in E2 as [?%Z.leb_le ?%Z.ltb_lt]. intros [= <-]. lia.
Qed.

(** Reading a key after its assignment. *)
Lemma py_getitem_setitem o k v o' :
  py_setitem o k v = Ok o' → py_getitem o' k = Ok v.
Proof.
  destruct o as [| | | |l|d]; try done; cbn.
  - destruct (as_index k) as [i|] eqn:Ek; [|done]. cbn.
    destruct (seq_index (length l) i) as [n|] eqn:En; [|done]. cbn.
    intros [= <-]. cbn. rewrite Ek, length_insert, En. cbn.
    rewrite list_lookup_insert_eq; [done|]. by eapply seq_index_lt.
  - destruct (hashable k) eqn:Hk; [|done]. intros [= <-]. cbn. rewrite Hk.
    by rewrite dict_lookup_set_eq by by apply py_eq_refl.
Qed.

Lemma py_setitem_str_obj o (k : string) v o' :
  py_setitem o (str k) v = Ok o' →
  ∃ d, o = JObj d ∧ o' = JObj (dict_set (str k) v d).
Proof.
  destruct o as [| | | |l|d]; try done; cbn.
  intros [= <-]. eauto.
Qed.

Lemma field_set_ne a b v d :
  lit a ≠ lit b → field b (JObj (dict_set (str a) v d)) = field b (JObj d).
Proof. intros H. unfold field, str. by apply dict_lookup_set_str. Qed.

Lemma res_foldl_ok {A S} (f : S → A → res S) s l s' :
  res_foldl f s l = Ok s' →
  ∀ (P : S → Prop), P s → (∀ s x s', f s x = Ok s' → P s → P s') → P s'.
Proof.
  revert s. induction l as [|x l IH]; intros s; cbn.
  - intros [= <-]. auto.
  - rewrite res_bind_ok. intros (s1 & H1 & H2) P Hs Hstep.
    eapply IH; eauto.
Qed.

(** ** The first loop of [main]: [incoming] *)

Section Incoming.
Variable unicode_upper : N → pystr.
Local Abbreviation incoming_entry := (incoming_entry unicode_upper).
Local Abbreviation incoming_step := (incoming_step unicode_upper).

Lemma incoming_fold l inc inc' :
  res_foldl incoming_step inc l = Ok inc' ↔
  ∃ es, res_map incoming_entry l = Ok es ∧ inc' = foldl incoming_put inc es.
Proof.
  revert inc. induction l as [|x l IH]; intros inc; cbn [res_foldl res_map].
  - split; [intros [= <-]; by exists []|]. by intros (es & [= <-] & ->).
  - rewrite res_bind_ok. split.
    + intros (inc1 & H1 & H2). unfold UpdateStatus.incoming_step in H1.
      apply res_bind_ok in H1 as (e & He & [= <-]).
      apply IH in H2 as (es & Hes & ->). exists (e :: es).
      by rewrite He, Hes.
    + intros (es & Hes & ->).
      apply res_bind_ok in Hes as (e & He & Hes).
      apply res_bind_ok in Hes as (es' & Hes' & [= <-]).
      exists (incoming_put inc e). split.
      * unfold UpdateStatus.incoming_step. by rewrite He.
      * apply IH. eauto.
Qed.

Lemma incoming_lookup es inc n :
  foldl incoming_put inc es !! n =
    match last_entry n es with Some f => Some f | None => inc !! n end.
Proof.
  revert inc. induction es as [|e es IH]; intros inc; [done|].
  cbn [foldl last_entry]. rewrite IH.
  destruct (last_entry n es); [done|].
  destruct e as [[m f]|]; [|done]. cbn [incoming_put].
  case_bool_decide; subst.
  - by rewrite lookup_insert_eq.
  - by rewrite lookup_insert_ne.
Qed.

Lemma last_entry_app n es1 e es2 f :
  e = Some (n, f) →
  (∀ e' f', e' ∈ es2 → e' ≠ Some (n, f')) →
  last_entry n (es1 ++ e :: es2) = Some f.
Proof.
  intros -> Hes2. induction es1 as [|e1 es1 IH]; cbn.
  - assert (last_entry n es2 = None) as ->.
    { induction es2 as [|e2 es2 IH2]; [done|]. cbn.
      rewrite IH2 by (intros; apply Hes2; by right).
      destruct e2 as [[m f2]|]; [|done]. case_bool_decide; [|done]. subst.
      exfalso. eapply Hes2; [by left|done]. }
    by rewrite bool_decide_true.
  - cbn in IH. by rewrite IH.
Qed.

Lemma last_entry_none n es :
  (∀ e f, e ∈ es → e ≠ Some (n, f)) → last_entry n es = None.
Proof.
  induction es as [|e es IH]; [done|]. intros H. cbn.
  rewrite IH by (intros; apply H; by right).
  destruct e as [[m f]|]; [|done]. case_bool_decide; [|done]. subst.
  exfalso. eapply H; [by left|done].
Qed.

Lemma last_entry_elem n es f :
  last_entry n es = Some f → Some (n, f) ∈ es.
Proof.
  induction es as [|e es IH]; [done|]. cbn.
  destruct (last_entry n es) as [f'|].
  - intros [= ->]. right. by apply IH.
  - destruct e as [[m f']|]; [|done]. case_bool_decide; [|done].
    intros [= ->]. subst. by left.
Qed.

(** With no key twice, the order of the entries does not matter. *)
Lemma last_entry_nodup n es f :
  NoDup (omap id es).*1 → Some (n, f) ∈ es → last_entry n es = Some f.
Proof.
  induction es as [|e es IH]; [by intros _ ?%elem_of_nil|].
  intros Hnd Hin. cbn.
  destruct e as [[m g]|]; cbn in Hnd.
  - apply NoDup_cons in Hnd as [Hm Hnd].
    apply elem_of_cons in Hin as [[= -> ->]|Hin].
    + rewrite last_entry_none; [by rewrite bool_decide_true|].
      intros e f' He ->. apply Hm. apply list_elem_of_fmap.
      exists (m, f'). split; [done|]. apply list_elem_of_omap.
      exists (Some (m, f')). done.
    + by rewrite IH.
  - apply elem_of_cons in Hin as [|Hin]; [done|]. by rewrite IH.
Qed.

Lemma incoming_perm es1 es2 :
  es1 ≡ₚ es2 → NoDup (omap id es1).*1 →
  foldl incoming_put ∅ es1 = foldl incoming_put ∅ es2.
Proof.
  intros Hperm Hnd. apply map_eq. intros n. rewrite !incoming_lookup.
  assert (NoDup (omap id es2).*1) as Hnd2 by by rewrite <-Hperm.
  destruct (last_entry n es1) as [f|] eqn:E1.
  - apply last_entry_elem in E1. rewrite Hperm in E1.
    by rewrite (last_entry_nodup _ _ _ Hnd2 E1).
  - destruct (last_entry n es2) as [f|] eqn:E2; [|done].
    apply last_entry_elem in E2. rewrite <-Hperm in E2.
    rewrite (last_entry_nodup _ _ _ Hnd E2) in E1. done.
Qed.

Lemma res_map_perm {A B} (f : A → res B) l1 l2 ys1 :
  l1 ≡ₚ l2 → res_map f l1 = Ok ys1 →
  ∃ ys2, res_map f l2 = Ok ys2 ∧ ys1 ≡ₚ ys2.
Proof.
  intros Hperm. revert ys1.
  induction Hperm as [|x l1 l2 _ IH|x y l|l1 l2 l3 _ IH1 _ IH2]; intros ys1.
  - intros [= <-]. by exists [].
  - cbn. rewrite res_bind_ok. intros (y & Hy & H).
    apply res_bind_ok in H as (ys & Hys & [= <-]).
    destruct (IH _ Hys) as (ys2 & -> & Hp). exists (y :: ys2).
    rewrite Hy. cbn. split; [done|]. by constructor.
  - cbn. rewrite res_bind_ok. intros (y' & Hy' & H).
    apply res_bind_ok in H as (ys & H & [= <-]).
    apply res_bind_ok in H as (x' & Hx' & H).
    apply res_bind_ok in H as (zs & Hzs & [= <-]).
    exists (x' :: y' :: zs). rewrite Hx', Hy'. cbn. rewrite Hzs. cbn.
    split; [done|]. apply Permutation_swap.
  - intros H1. destruct (IH1 _ H1) as (ys2 & H2 & Hp12).
    destruct (IH2 _ H2) as (ys3 & H3 & Hp23). exists ys3. split; [done|].
    by etrans.
Qed.

End Incoming.

(** ** The reconciliation *)

Lemma lit_dias_catalogo : lit "dias" ≠ lit "catalogo_malhas".
Proof. by vm_compute. Qed.

Lemma hashable_str k : hashable (str k) = true.
Proof. done. Qed.

Lemma py_getitem_field (k : string) o v :
  py_getitem o (str k) = Ok v → field k o = Some v.
Proof.
  destruct o as [| | |s|l|d]; try done.
  - unfold py_getitem, field. rewrite hashable_str.
    by destruct (dict_lookup (str k) d) as [w|]; intros [= ->].
Qed.

Lemma py_get_field (k : string) o dflt v :
  py_get o (str k) dflt = Ok v → is_obj o = true ∧ v = default dflt (field k o).
Proof.
  destruct o as [| | | | |d]; try done. unfold py_get, field.
  rewrite hashable_str. by intros [= <-].
Qed.

Lemma py_get_obj (k : string) d dflt :
  py_get (JObj d) (str k) dflt = Ok (default dflt (field k (JObj d))).
Proof. unfold py_get, field. by rewrite hashable_str. Qed.

Lemma ensure_day_inv data day data1 :
  ensure_day data day = Ok data1 →
  is_obj data = true ∧ is_obj data1 = true ∧
  field "catalogo_malhas" data1 = field "catalogo_malhas" data.
Proof.
  unfold ensure_day. intros H.
  apply res_bind_ok in H as (data0 & Hdef & H).
  apply res_bind_ok in H as (dias & Hdias & H).
  apply res_bind_ok in H as (present & Hin & H).
  destruct data as [| | | | |d]; try done.
  assert (is_obj data0 = true ∧ field "catalogo_malhas" data0
            = field "catalogo_malhas" (JObj d)) as [Hobj0 Hcat0].
  { unfold py_setdefault in Hdef. rewrite hashable_str in Hdef.
    destruct (dict_lookup (str "dias") d); injection Hdef as <-; [done|].
    split; [done|]. apply field_set_ne, lit_dias_catalogo. }
  destruct present.
  - injection H as <-. done.
  - apply res_bind_ok in H as (dias1 & Hset & H).
    apply py_setitem_str_obj in H as (d1 & -> & ->).
    split; [done|]. split; [done|]. rewrite <-Hcat0.
    apply field_set_ne, lit_dias_catalogo.
Qed.

Section Reconcile.
Variable unicode_upper : N → pystr.
Local Abbreviation norm := (norm unicode_upper).
Local Abbreviation malha_name := (malha_name unicode_upper).
Local Abbreviation merge_day := (merge_day unicode_upper).
Local Abbreviation final_item := (final_item unicode_upper).
Local Abbreviation incoming_entry := (incoming_entry unicode_upper).
Local Abbreviation sort_catalogo := (sort_catalogo unicode_upper).

Lemma final_item_inv inc c it :
  final_item inc c = Ok it →
  ∃ cid nome,
    field "id" c = Some cid ∧ malha_name c = Ok nome ∧
    it = match inc !! nome with
         | Some f => filled_item cid f
         | None => default_item cid
         end ∧
    field "id" it = Some cid.
Proof.
  unfold UpdateStatus.final_item. intros H.
  apply res_bind_ok in H as (cid & Hcid & H).
  apply res_bind_ok in H as (nome & Hnome & H).
  exists cid, nome. unfold malha_name. rewrite Hcid. res_simpl.
  split; [by apply py_getitem_field|]. split; [done|].
  destruct (inc !! nome); injection H as <-; (split; [done|]);
    unfold field, filled_item, default_item; cbn [dict_lookup];
    by rewrite py_eq_refl.
Qed.

(** What a successful [merge_day] went through. *)
Lemma merge_day_inv data payload day clock data' :
  merge_day data payload day clock = Ok data' →
  ∃ cs sorted its es itens,
    catalogo_of data = Ok cs ∧
    (py_get data (str "catalogo_malhas") (JArr []) ≫= sort_catalogo) = Ok sorted ∧
    sorted ≡ₚ cs ∧
    itens_of payload = Ok its ∧
    res_map incoming_entry its = Ok es ∧
    res_map (final_item (foldl incoming_put ∅ es)) sorted = Ok itens ∧
    day_itens data' day = Ok itens.
Proof.
  unfold UpdateStatus.merge_day. intros H.
  apply res_bind_ok in H as (data1 & Hens & H).
  apply res_bind_ok in H as (dias & Hdias & H).
  apply res_bind_ok in H as (dia0 & Hdia0 & H).
  apply res_bind_ok in H as (upd & Hupd & H).
  apply res_bind_ok in H as (dia1 & Hdia1 & H).
  apply res_bind_ok in H as (its & Hits & H).
  apply res_bind_ok in H as (inc & Hinc & H).
  apply res_bind_ok in H as (sorted & Hsort & H).
  apply res_bind_ok in H as (itens & Hitens & H).
  apply res_bind_ok in H as (dia2 & Hdia2 & H).
  apply res_bind_ok in H as (dias' & Hdias' & H).
  apply ensure_day_inv in Hens as (Hobj & Hobj1 & Hcat).
  destruct data as [| | | | |d]; try done.
  destruct data1 as [| | | | |d1]; try done.
  rewrite py_get_obj in Hsort. rewrite Hcat in Hsort. res_simpl in Hsort.
  pose proof Hsort as Hsort'. unfold UpdateStatus.sort_catalogo in Hsort'.
  apply res_bind_ok in Hsort' as (cs & Hcs & Hsorted).
  pose proof (sort_catalogo_perm _ _ _ _ Hcs Hsort) as Hperm.
  apply incoming_fold in Hinc as (es & Hes & ->).
  exists cs, sorted, its, es, itens.
  split. { unfold catalogo_of. rewrite py_get_obj. res_simpl. done. }
  split. { rewrite py_get_obj. res_simpl. done. }
  split; [done|]. split; [done|]. split; [done|]. split; [done|].
  unfold day_itens.
  rewrite (py_getitem_setitem _ _ _ _ H). res_simpl.
  rewrite (py_getitem_setitem _ _ _ _ Hdias'). res_simpl.
  rewrite (py_getitem_setitem _ _ _ _ Hdia2). res_simpl. done.
Qed.

(** *** A store and a payload of the documented shape are accepted *)

Lemma dict_lookup_elem {V} k (d : list (json * V)) v :
  dict_lookup k d = Some v → ∃ k', (k', v) ∈ d.
Proof.
  induction d as [|[k0 v0] d IH]; [done|]. cbn [dict_lookup].
  destruct (py_eq k0 k).
  - intros [= ->]. exists k0. by left.
  - intros [k' Hk']%IH. exists k'. by right.
Qed.

Lemma ensure_day_total data day :
  wf_store data = true → hashable day = true →
  ∃ data1 dias dobj,
    ensure_day data day = Ok (JObj data1) ∧
    py_getitem (JObj data1) (str "dias") = Ok (JObj dias) ∧
    py_getitem (JObj dias) day = Ok (JObj dobj).
Proof.
  unfold wf_store. rewrite !andb_true_iff. intros [[Hobj _] Hdias] Hday.
  destruct data as [| | | | |d]; try done. unfold field in Hdias.
  unfold ensure_day, py_setdefault. rewrite hashable_str.
  assert (∀ dias, py_eq day day = true →
    dict_lookup day (dict_set day empty_day dias) = Some empty_day) as Hnew.
  { intros. by apply dict_lookup_set_eq. }
  pose proof (py_eq_refl _ Hday) as Hrefl.
  pose proof (py_eq_refl _ (hashable_str "dias")) as Hrefl'.
  destruct (dict_lookup (str "dias") d) as [v|] eqn:Ed.
  - destruct v as [| | | | |dias]; try done. res_simpl.
    unfold py_getitem at 1. rewrite hashable_str, Ed. res_simpl.
    unfold py_contains. rewrite Hday. res_simpl.
    destruct (dict_lookup day dias) as [dobj|] eqn:Eday.
    + rewrite bool_decide_true by eauto.
      apply dict_lookup_elem in Eday as Hel. destruct Hel as [k' Hel].
      rewrite forallb_forall in Hdias.
      specialize (Hdias _ (proj1 (list_elem_of_In _ _) Hel)).
      apply andb_true_iff in Hdias as [_ Hdobj]. cbn in Hdobj.
      destruct dobj as [| | | | |dobj]; try done.
      exists d, dias, dobj. split; [done|].
      unfold py_getitem. by rewrite hashable_str, Ed, Hday, Eday.
    + rewrite bool_decide_false by (by intros [? ?]).
      unfold py_setitem. rewrite Hday, hashable_str. res_simpl.
      eexists _, _, _. split; [done|]. unfold py_getitem.
      rewrite hashable_str, Hday.
      rewrite dict_lookup_set_eq by done. split; [done|].
      by rewrite dict_lookup_set_eq.
  - res_simpl. unfold py_getitem at 1. rewrite hashable_str.
    rewrite dict_lookup_set_eq by done. res_simpl.
    unfold py_contains. rewrite Hday. res_simpl.
    rewrite bool_decide_false by (by intros [? ?]).
    unfold py_setitem. rewrite Hday, hashable_str. res_simpl.
    eexists _, _, _. split; [done|]. unfold py_getitem.
    rewrite hashable_str, Hday.
    rewrite dict_lookup_set_eq by done. split; [done|].
    by rewrite dict_lookup_set_eq.
Qed.

Lemma norm_opt_text v dflt :
  opt_text v = true → is_str dflt = true → ∃ n, norm (default dflt v) = Ok n.
Proof. intros. by apply norm_text. Qed.

Lemma wf_item_entry it :
  wf_item it = true → ∃ e, incoming_entry it = Ok e.
Proof.
  unfold wf_item. rewrite !andb_true_iff. intros [[[Hobj Hnome] Hst] Hnota].
  destruct it as [| | | | |d]; try done.
  unfold UpdateStatus.incoming_entry. rewrite !py_get_obj.
  destruct (norm_opt_text _ (str "") Hnome eq_refl) as [n Hn].
  res_simpl. rewrite Hn. res_simpl.
  destruct n as [|c n]; [by eexists|].
  unfold in_set.
  replace (hashable (default (str "sem_exec") (field "status" (JObj d))))
    with true by (by destruct (field "status" (JObj d))).
  res_simpl.
  destruct (field "nota" (JObj d)) as [[| | |s| |]|]; try done;
    unfold py_or, py_strip; cbn [default truthy];
    try destruct s; res_simpl; by eexists.
Qed.

Lemma wf_malha_final inc c :
  wf_malha c = true → ∃ it, final_item inc c = Ok it.
Proof.
  unfold wf_malha. rewrite !andb_true_iff. intros [[[Hobj Hid] Hnome] _].
  destruct c as [| | | | |d]; try done.
  destruct (field "id" (JObj d)) as [[| | |cid| |]|] eqn:Eid; try done.
  unfold UpdateStatus.final_item, py_getitem. rewrite hashable_str.
  unfold field in Eid. rewrite Eid. res_simpl. rewrite py_get_obj. res_simpl.
  destruct (norm_opt_text _ (JStr cid) Hnome eq_refl) as [n Hn].
  rewrite Hn. res_simpl. destruct (inc !! n); by eexists.
Qed.

Lemma forallb_Forall {A} (f : A → bool) l :
  forallb f l = true ↔ Forall (fun x => f x = true) l.
Proof.
  rewrite forallb_forall, Forall_forall.
  split; intros H x Hx; apply H; by apply list_elem_of_In.
Qed.

Lemma merge_day_total data payload day clock :
  wf_store data = true → wf_payload payload = true → hashable day = true →
  ∃ data', merge_day data payload day clock = Ok data'.
Proof.
  intros Hstore Hpay Hday.
  destruct (ensure_day_total _ _ Hstore Hday)
    as (d1 & dias & dobj & Hens & Hdias & Hdobj).
  pose proof (ensure_day_inv _ _ _ Hens) as (Hobj & _ & Hcat).
  unfold UpdateStatus.merge_day. rewrite Hens. res_simpl.
  rewrite Hdias. res_simpl. rewrite Hdobj. res_simpl.
  unfold wf_payload in Hpay. apply andb_true_iff in Hpay as [Hpobj Hits].
  destruct payload as [| | | | |p]; try done.
  rewrite !py_get_obj. res_simpl.
  unfold py_setitem at 1. rewrite hashable_str. res_simpl.
  (* the items of the payload *)
  assert (∃ its, py_iter (default (JArr []) (field "itens" (JObj p))) = Ok its
                 ∧ Forall (fun it => wf_item it = true) its)
    as (its & -> & Hwf).
  { destruct (field "itens" (JObj p)) as [[| | | |its|]|]; try done.
    - exists its. split; [done|]. by apply forallb_Forall.
    - by exists []. }
  res_simpl.
  destruct (res_map_total incoming_entry its) as [es Hes].
  { eapply Forall_impl; [exact Hwf|]. apply wf_item_entry. }
  pose proof (proj2 (incoming_fold unicode_upper its ∅ _)
                (ex_intro _ es (conj Hes eq_refl))) as Hinc.
  rewrite Hinc. res_simpl.
  (* the catalog *)
  rewrite Hcat.
  unfold wf_store in Hstore. rewrite !andb_true_iff in Hstore.
  destruct Hstore as [[_ Hcatwf] _].
  destruct data as [| | | | |d]; try done.
  assert (∃ sorted, sort_catalogo (default (JArr []) (field "catalogo_malhas" (JObj d)))
                      = Ok sorted
                    ∧ Forall (fun c => wf_malha c = true) sorted)
    as (sorted & -> & Hsorted).
  { destruct (field "catalogo_malhas" (JObj d)) as [catalogo|].
    - destruct (sort_catalogo_total unicode_upper catalogo Hcatwf)
        as [sorted Hs].
      exists sorted. split; [done|].
      destruct catalogo as [| | | |cs|]; try done.
      rewrite (sort_catalogo_perm unicode_upper (JArr cs) cs sorted eq_refl Hs).
      by apply forallb_Forall.
    - by exists []. }
  res_simpl.
  destruct (res_map_total (final_item (foldl incoming_put ∅ es)) sorted)
    as [itens ->].
  { eapply Forall_impl; [exact Hsorted|]. intros c. apply wf_malha_final. }
  res_simpl. unfold py_setitem. rewrite !hashable_str, Hday. res_simpl.
  by eexists.
Qed.

End Reconcile.

(** ** The records of the reconciliation *)

Lemma existsb_py_eq_str s (l : list pystr) :
  existsb (py_eq (JStr s)) (JStr <$> l) = bool_decide (s ∈ l).
Proof.
  induction l as [|x l IH]; [done|]. cbn [fmap list_fmap existsb py_eq].
  change (list_fmap _ _ JStr l) with (JStr <$> l). rewrite IH.
  apply eq_true_iff_eq.
  rewrite orb_true_iff, !bool_decide_eq_true, elem_of_cons. done.
Qed.

Lemma is_status_code_spec st :
  existsb (py_eq st) VALID_STATUS = is_status_code st.
Proof.
  change VALID_STATUS with (JStr <$> STATUS_CODES).
  destruct st as [| | |s| |]; try reflexivity.
  apply existsb_py_eq_str.
Qed.

Lemma res_map_app_inv {A B} (f : A → res B) l1 l2 ys :
  res_map f (l1 ++ l2) = Ok ys →
  ∃ ys1 ys2, ys = ys1 ++ ys2 ∧ res_map f l1 = Ok ys1 ∧ res_map f l2 = Ok ys2.
Proof.
  rewrite res_map_ok. intros (ys1 & ys2 & H1 & H2 & ->)%Forall2_app_inv_l.
  exists ys1, ys2. by rewrite !res_map_ok.
Qed.

Section Records.
Variable unicode_upper : N → pystr.
Local Abbreviation norm := (norm unicode_upper).
Local Abbreviation merge_day := (merge_day unicode_upper).
Local Abbreviation final_item := (final_item unicode_upper).
Local Abbreviation incoming_entry := (incoming_entry unicode_upper).
Local Abbreviation sort_catalogo := (sort_catalogo unicode_upper).
Local Abbreviation malha_name := (malha_name unicode_upper).
Local Abbreviation item_name := (item_name unicode_upper).

(** The entry of an item: nothing under an empty name, or the fields the
    specification asks for. *)
Lemma incoming_entry_inv it e :
  incoming_entry it = Ok e →
  ∃ n, item_name it = Ok n ∧
       match e with
       | None => n = []
       | Some (m, f) =>
           m = n ∧ n ≠ [] ∧ ∀ cid, filled_item cid f = expected_record cid it
       end.
Proof.
  unfold UpdateStatus.incoming_entry, item_name. intros H.
  apply res_bind_ok in H as (n & Hn & H). exists n. split; [done|].
  destruct n as [|c n]; [by injection H as <-|].
  apply res_bind_ok in Hn as (nome & Hnome & _).
  apply py_get_field in Hnome as [Hobj _].
  destruct it as [| | | | |d]; try done. clear Hobj.
  rewrite !py_get_obj in H. res_simpl in H.
  apply res_bind_ok in H as (valid & Hvalid & H).
  apply res_bind_ok in H as (nota & Hnota & [= <-]).
  split; [done|]. split; [done|]. intros cid.
  unfold filled_item, expected_record. cbn [f_status f_ultimo_job
    f_termino_real f_fim_de_jogo f_nota].
  repeat match goal with
  | |- context [dict_lookup (str ?k) d] =>
      change (dict_lookup (str k) d) with (field k (JObj d))
  end.
  assert ((if valid then default (str "sem_exec") (field "status" (JObj d))
           else str "sem_exec") = expected_status (JObj d)) as ->.
  { unfold in_set in Hvalid. unfold expected_status.
    destruct (field "status" (JObj d)) as [st|]; cbn [default id] in *.
    - revert Hvalid. destruct (hashable st); [|done]. intros [= <-].
      by rewrite <- is_status_code_spec.
    - by destruct valid. }
  assert (∀ v, py_or (default (str "-") v) (str "-") = or_dash v) as Hdash.
  { intros [x|]; [done|]. reflexivity. }
  rewrite !Hdash.
  assert (truthy (default (JBool false) (field "fim_de_jogo" (JObj d)))
          = expected_fim (JObj d)) as ->.
  { unfold expected_fim. by destruct (field "fim_de_jogo" (JObj d)). }
  assert (nota = expected_nota (JObj d)) as ->; [|done].
  unfold expected_nota. unfold py_or, py_strip in Hnota.
  revert Hnota. change (str "") with (JStr []).
  destruct (field "nota" (JObj d)) as [[|b|z|s|l|o]|];
    cbn [default id py_or truthy py_strip].
  all: try destruct b; try destruct (negb _); try destruct s;
    try destruct l; try destruct o; by intros [= <-].
Qed.

(** The last item of a name decides. *)
Lemma last_entry_of_last_item its es l1 it l2 nome :
  res_map incoming_entry its = Ok es →
  its = l1 ++ it :: l2 →
  item_name it = Ok nome → nome ≠ [] →
  Forall (fun x => item_name x ≠ Ok nome) l2 →
  ∃ f, last_entry nome es = Some f
       ∧ ∀ cid, filled_item cid f = expected_record cid it.
Proof.
  intros Hes -> Hname Hne Hl2.
  apply res_map_app_inv in Hes as (es1 & es' & -> & _ & Hes').
  cbn [res_map] in Hes'. apply res_bind_ok in Hes' as (e & He & Hes').
  apply res_bind_ok in Hes' as (es2 & Hes2 & [= <-]).
  apply incoming_entry_inv in He as (n & Hn & He).
  rewrite Hname in Hn. injection Hn as <-.
  destruct e as [[m f]|]; [|done]. destruct He as (-> & _ & Hf).
  exists f. split; [|done]. apply last_entry_app; [done|].
  intros e' f' He' ->. apply res_map_ok in Hes2.
  apply list_elem_of_lookup in He' as [i Hi].
  destruct (Forall2_lookup_r _ _ _ _ _ Hes2 Hi) as (x & Hx & Hxe).
  apply incoming_entry_inv in Hxe as (n & Hn & -> & _).
  rewrite Forall_forall in Hl2. eapply Hl2; [|done].
  by eapply list_elem_of_lookup_2.
Qed.

Lemma last_entry_no_item its es nome :
  res_map incoming_entry its = Ok es →
  nome = [] ∨ Forall (fun x => item_name x ≠ Ok nome) its →
  last_entry nome es = None.
Proof.
  intros Hes Hno. apply last_entry_none. intros e f He ->.
  apply res_map_ok in Hes. apply list_elem_of_lookup in He as [i Hi].
  destruct (Forall2_lookup_r _ _ _ _ _ Hes Hi) as (x & Hx & Hxe).
  apply incoming_entry_inv in Hxe as (n & Hn & -> & Hne & _).
  destruct Hno as [->|Hno]; [done|].
  rewrite Forall_forall in Hno. eapply Hno; [|done].
  by eapply list_elem_of_lookup_2.
Qed.

(** Every record is the one of the last item of the name of its
    operation, or the default one. *)
Lemma merge_day_records data payload day clock data' :
  merge_day data payload day clock = Ok data' →
  ∃ cs sorted its itens,
    catalogo_of data = Ok cs ∧
    (py_get data (str "catalogo_malhas") (JArr []) ≫= sort_catalogo) = Ok sorted ∧
    sorted ≡ₚ cs ∧
    itens_of payload = Ok its ∧
    day_itens data' day = Ok itens ∧
    Forall2 (fun c rec =>
      ∃ cid nome,
        field "id" c = Some cid ∧ field "id" rec = Some cid ∧
        malha_name c = Ok nome ∧
        (∀ l1 it l2,
           its = l1 ++ it :: l2 → item_name it = Ok nome → nome ≠ [] →
           Forall (fun x => item_name x ≠ Ok nome) l2 →
           rec = expected_record cid it) ∧
        (nome = [] ∨ Forall (fun x => item_name x ≠ Ok nome) its →
         rec = default_item cid)) sorted itens.
Proof.
  intros H. apply merge_day_inv in H
    as (cs & sorted & its & es & itens & Hcs & Hsort & Hperm & Hits & Hes
        & Hfinal & Hday).
  exists cs, sorted, its, itens. do 5 (split; [done|]).
  apply res_map_ok in Hfinal. eapply Forall2_impl; [exact Hfinal|].
  intros c rec Hrec. apply final_item_inv in Hrec as (cid & nome & Hid & Hname & Hrec & Hrid).
  exists cid, nome. do 3 (split; [done|]).
  rewrite incoming_lookup, lookup_empty in Hrec. split.
  - intros l1 it l2 Hl Hit Hne Hl2.
    destruct (last_entry_of_last_item _ _ _ _ _ _ Hes Hl Hit Hne Hl2)
      as (f & Hf & Hexp).
    rewrite Hf in Hrec. by rewrite <-Hexp.
  - intros Hno. by rewrite (last_entry_no_item _ _ _ Hes Hno) in Hrec.
Qed.

End Records.

(** ** The reconciliation as a whole *)

Section Claims.
Variable unicode_upper : N → pystr.
Local Abbreviation norm := (norm unicode_upper).
Local Abbreviation merge_day := (merge_day unicode_upper).
Local Abbreviation final_item := (final_item unicode_upper).
Local Abbreviation incoming_entry := (incoming_entry unicode_upper).
Local Abbreviation incoming_step := (incoming_step unicode_upper).
Local Abbreviation sort_catalogo := (sort_catalogo unicode_upper).
Local Abbreviation malha_name := (malha_name unicode_upper).
Local Abbreviation item_name := (item_name unicode_upper).
Local Abbreviation incoming_of := (incoming_of unicode_upper).
Local Abbreviation reconciled := (reconciled unicode_upper).

(** The payload counts through its [updatedAt] and through [incoming]
    only. *)
Lemma merge_day_payload data p1 p2 day clock its1 its2 :
  py_get p1 (str "updatedAt") JNull = py_get p2 (str "updatedAt") JNull →
  itens_of p1 = Ok its1 → itens_of p2 = Ok its2 →
  res_foldl incoming_step ∅ its1 = res_foldl incoming_step ∅ its2 →
  merge_day data p1 day clock = merge_day data p2 day clock.
Proof.
  unfold itens_of, UpdateStatus.merge_day. intros Hupd H1 H2 Hinc.
  destruct (ensure_day data day) as [d1|]; [|done]. res_simpl.
  destruct (py_getitem d1 (str "dias")) as [dias|]; [|done]. res_simpl.
  destruct (py_getitem dias day) as [dia|]; [|done]. res_simpl.
  rewrite Hupd.
  destruct (py_get p2 (str "updatedAt") JNull) as [upd|]; [|done]. res_simpl.
  destruct (py_setitem dia _ _) as [dia1|]; [|done]. res_simpl.
  rewrite H1, H2. res_simpl. by rewrite Hinc.
Qed.

Lemma reconciled_ok data payload day clock itens :
  reconciled data payload day clock = Ok itens ↔
  ∃ data', merge_day data payload day clock = Ok data'
           ∧ day_itens data' day = Ok itens.
Proof. unfold reconciled. apply res_bind_ok. Qed.

(** Every record has the six keys. *)
Lemma final_item_keys inc c rec :
  final_item inc c = Ok rec → record_keys rec = RECORD_KEYS.
Proof.
  intros (cid & nome & _ & _ & -> & _)%final_item_inv.
  by destruct (inc !! nome).
Qed.

Lemma merge_day_ids data payload day clock data' cs :
  merge_day data payload day clock = Ok data' →
  catalogo_of data = Ok cs →
  ∃ sorted itens,
    (py_get data (str "catalogo_malhas") (JArr []) ≫= sort_catalogo) = Ok sorted ∧
    sorted ≡ₚ cs ∧
    day_itens data' day = Ok itens ∧
    ids itens = ids sorted ∧
    Forall (fun rec => is_Some (field "id" rec)) itens ∧
    Forall (fun rec => record_keys rec = RECORD_KEYS) itens.
Proof.
  intros H Hcs. apply merge_day_inv in H
    as (cs' & sorted & its & es & itens & Hcs' & Hsort & Hperm & Hits & Hes
        & Hfinal & Hday).
  rewrite Hcs in Hcs'. injection Hcs' as <-.
  exists sorted, itens. do 3 (split; [done|]).
  apply res_map_ok in Hfinal. unfold ids.
  clear -Hfinal. induction Hfinal as [|c rec sorted itens Hrec _ IH];
    [by repeat split|].
  destruct IH as (IH1 & IH2 & IH3).
  pose proof (final_item_keys _ _ _ Hrec) as Hkeys.
  apply final_item_inv in Hrec as (cid & nome & Hid & _ & _ & Hrid).
  cbn [fmap list_fmap]. split; [|split].
  - f_equal; [congruence|done].
  - constructor; [by rewrite Hrid|done].
  - by constructor.
Qed.

(** The names under which the entries of [incoming] are filed are the
    names of the items that are not empty. *)
Lemma entries_names its es names :
  res_map incoming_entry its = Ok es →
  res_map item_name its = Ok names →
  (omap id es).*1 = filter (fun n => n ≠ []) names.
Proof.
  rewrite !res_map_ok. intros Hes. revert names.
  induction Hes as [|it e its es He _ IH]; intros names Hn;
    inversion Hn as [|? n ? names' Hname Hnames]; subst; [done|].
  apply incoming_entry_inv in He as (n' & Hn' & He).
  rewrite Hname in Hn'. injection Hn' as <-.
  destruct e as [[m f]|].
  - destruct He as (-> & Hne & _). cbn [omap list_omap id fmap list_fmap fst].
    rewrite filter_cons_True by done. f_equal. by apply IH.
  - subst n. cbn [omap list_omap id]. rewrite filter_cons_False by naive_solver.
    by apply IH.
Qed.

(** With no name twice, the order of the items does not matter. *)
Lemma merge_day_perm data p1 p2 day clock its1 its2 names data' :
  py_get p1 (str "updatedAt") JNull = py_get p2 (str "updatedAt") JNull →
  itens_of p1 = Ok its1 → itens_of p2 = Ok its2 → its1 ≡ₚ its2 →
  res_map item_name its1 = Ok names → NoDup (filter (fun n => n ≠ []) names) →
  merge_day data p1 day clock = Ok data' →
  merge_day data p2 day clock = Ok data'.
Proof.
  intros Hupd H1 H2 Hperm Hnames Hnd Hm.
  rewrite <-(merge_day_payload data p1 p2 day clock its1 its2); try done.
  pose proof Hm as (cs & sorted & its & es1 & itens & _ & _ & _ & Hits & Hes1
                    & _)%merge_day_inv.
  rewrite H1 in Hits. injection Hits as <-.
  destruct (res_map_perm incoming_entry _ _ _ Hperm Hes1) as (es2 & Hes2 & Hp).
  pose proof (proj2 (incoming_fold unicode_upper its1 ∅ _)
                (ex_intro _ es1 (conj Hes1 eq_refl))) as ->.
  pose proof (proj2 (incoming_fold unicode_upper its2 ∅ _)
                (ex_intro _ es2 (conj Hes2 eq_refl))) as ->.
  f_equal. apply incoming_perm; [done|].
  by rewrite (entries_names _ _ _ Hes1 Hnames).
Qed.

(** The last entry of a key, over a concatenation. *)
Lemma last_entry_cat n es1 es2 :
  last_entry n (es1 ++ es2) =
    match last_entry n es2 with
    | Some f => Some f
    | None => last_entry n es1
    end.
Proof.
  induction es1 as [|e es1 IH]; cbn [app last_entry].
  - by destruct (last_entry n es2).
  - rewrite IH. by destruct (last_entry n es2).
Qed.

(** An item that an item of the same name follows leaves no trace in
    [incoming]. *)
Lemma incoming_drop_earlier l1 it1 l2 it2 l3 nome inc :
  item_name it1 = Ok nome → item_name it2 = Ok nome →
  res_foldl incoming_step ∅ (l1 ++ it1 :: l2 ++ it2 :: l3) = Ok inc →
  res_foldl incoming_step ∅ (l1 ++ l2 ++ it2 :: l3) = Ok inc.
Proof.
  intros Hn1 Hn2 (es & Hes & ->)%incoming_fold. apply incoming_fold.
  apply res_map_app_inv in Hes as (es1 & es' & -> & Hes1 & Hes').
  cbn [res_map] in Hes'. apply res_bind_ok in Hes' as (e1 & He1 & Hes').
  apply res_bind_ok in Hes' as (es'' & Hes'' & [= <-]).
  apply res_map_app_inv in Hes'' as (es2 & es3' & -> & Hes2 & Hes3').
  pose proof Hes3' as Hes3''.
  cbn [res_map] in Hes3'. apply res_bind_ok in Hes3' as (e2 & He2 & Hes3').
  apply res_bind_ok in Hes3' as (es3 & Hes3 & [= <-]).
  exists (es1 ++ es2 ++ e2 :: es3). split.
  - apply res_map_ok. apply Forall2_app; [by apply res_map_ok|].
    apply Forall2_app; by apply res_map_ok.
  - apply map_eq. intros n. rewrite !incoming_lookup, !lookup_empty.
    rewrite !last_entry_cat. cbn [last_entry]. rewrite !last_entry_cat.
    cbn [last_entry].
    destruct (last_entry n es3) as [f3|]; [done|].
    apply incoming_entry_inv in He1 as (n1 & Hn1' & He1).
    apply incoming_entry_inv in He2 as (n2 & Hn2' & He2).
    rewrite Hn1 in Hn1'. injection Hn1' as <-.
    rewrite Hn2 in Hn2'. injection Hn2' as <-.
    destruct e1 as [[m1 f1]|]; [destruct He1 as (-> & Hne & _)|];
      (destruct e2 as [[m2 f2]|]; [destruct He2 as (-> & _ & _)|]);
      try done; repeat case_bool_decide;
      destruct (last_entry n es2); try done; by destruct (last_entry n es1).
Qed.

(** When a name has an entry in [incoming]. *)
Lemma incoming_hit its inc nome :
  res_foldl incoming_step ∅ its = Ok inc →
  Exists (fun it => item_name it = Ok nome) its →
  inc !! nome = None ↔ nome = [].
Proof.
  intros (es & Hes & ->)%incoming_fold Hex.
  rewrite incoming_lookup, lookup_empty. split.
  - intros Hnone. destruct (decide (nome = [])) as [|Hne]; [done|]. exfalso.
    apply Exists_exists in Hex as (it & Hit & Hname).
    apply list_elem_of_lookup in Hit as [i Hi]. apply res_map_ok in Hes.
    destruct (Forall2_lookup_l _ _ _ _ _ Hes Hi) as (e & He & Hite).
    apply incoming_entry_inv in Hite as (n & Hn & Hite).
    rewrite Hname in Hn. injection Hn as <-.
    destruct e as [[m f]|]; [|done]. destruct Hite as (-> & _ & _).
    destruct (last_entry nome es) as [g|] eqn:E; [done|].
    assert (Some (nome, f) ∈ es) as Hin by by eapply list_elem_of_lookup_2.
    apply list_elem_of_split in Hin as (a & b & ->).
    rewrite last_entry_cat in E. cbn [last_entry] in E.
    rewrite bool_decide_true in E by done.
    by destruct (last_entry nome b).
  - intros ->. destruct (last_entry [] es) as [f|] eqn:E; [|done].
    apply last_entry_elem in E. apply list_elem_of_lookup in E as [i Hi].
    apply res_map_ok in Hes.
    destruct (Forall2_lookup_r _ _ _ _ _ Hes Hi) as (x & _ & Hx).
    apply incoming_entry_inv in Hx as (n & _ & <- & Hne & _). done.
Qed.

End Claims.

(** ** The claims on the reconciliation *)

(** C1. For every catalog of N operations with unique ids and every
    update payload, one with no item included, the reconciliation of
    [update_status.py] returns, and the day then holds exactly N records:
    one per id of the catalog, no id missing and none twice, each record
    with the six keys of a status record. *)
Theorem reconciliation_covers_catalog (unicode_upper : N → pystr)
    data payload day clock cs :
  wf_store data = true → wf_payload payload = true → hashable day = true →
  catalogo_of data = Ok cs → NoDup (ids cs) →
  ∃ itens,
    reconciled unicode_upper data payload day clock = Ok itens ∧
    length itens = length cs ∧
    ids itens ≡ₚ ids cs ∧
    NoDup (ids itens) ∧
    Forall (fun rec => is_Some (field "id" rec)) itens ∧
    Forall (fun rec => record_keys rec = RECORD_KEYS) itens.
Proof.
  intros Hstore Hpay Hday Hcs Hnd.
  destruct (merge_day_total unicode_upper data payload day clock Hstore Hpay Hday)
    as [data' Hm].
  destruct (merge_day_ids unicode_upper _ _ _ _ _ _ Hm Hcs)
    as (sorted & itens & _ & Hperm & Hitens & Hids & Hsome & Hkeys).
  assert (ids itens ≡ₚ ids cs) as Hp.
  { rewrite Hids. unfold ids. by apply fmap_Permutation. }
  exists itens. split; [apply reconciled_ok; eauto|].
  split. { apply Permutation_length in Hp. unfold ids in Hp.
           by rewrite !length_fmap in Hp. }
  split; [done|]. split; [by rewrite Hp|]. done.
Qed.

Lemma reconciliation_covers_catalog_witness :
  ∃ itens,
    reconciled upper_id (ex_store [ex_foo; ex_malha "b" "BAR" "Modelos"])
      (ex_payload []) ex_day ex_clock = Ok itens ∧
    length itens = 2 ∧
    ids itens ≡ₚ [Some (str "a"); Some (str "b")] ∧
    NoDup (ids itens) ∧
    Forall (fun rec => is_Some (field "id" rec)) itens ∧
    Forall (fun rec => record_keys rec = RECORD_KEYS) itens.
Proof.
  apply (reconciliation_covers_catalog upper_id
           (ex_store [ex_foo; ex_malha "b" "BAR" "Modelos"])
           (ex_payload []) ex_day ex_clock
           [ex_foo; ex_malha "b" "BAR" "Modelos"]);
    [reflexivity|reflexivity|reflexivity|reflexivity|].
  vm_compute.
  repeat (constructor;
          [rewrite ?elem_of_cons, ?elem_of_nil; intuition discriminate|]).
  constructor.
Defined.

(** C2, as it stands, fails on an operation and an item whose names both
    normalise to the empty string: the names match, the item is skipped
    and the record is the default one. *)
Lemma matching_empty_name_not_used :
  ¬ (∀ (unicode_upper : N → pystr) data payload day clock data'
       cs its itens c it rec cid nome,
       merge_day unicode_upper data payload day clock = Ok data' →
       catalogo_of data = Ok cs → itens_of payload = Ok its →
       day_itens data' day = Ok itens →
       c ∈ cs → it ∈ its → rec ∈ itens →
       field "id" c = Some cid → field "id" rec = Some cid →
       malha_name unicode_upper c = Ok nome →
       item_name unicode_upper it = Ok nome →
       rec = expected_record cid it).
Proof.
  intros H.
  specialize (H upper_id (ex_store [ex_malha "a" "" "Rotativos"])
                (ex_payload [ex_item "" "ok"]) ex_day ex_clock
                _ _ _ _ (ex_malha "a" "" "Rotativos") (ex_item "" "ok")
                (default_item (str "a")) (str "a") []
                ltac:(vm_compute; reflexivity) eq_refl eq_refl
                ltac:(vm_compute; reflexivity)).
  vm_compute in H.
  specialize (H ltac:(by left) ltac:(by left) ltac:(by left)
                eq_refl eq_refl eq_refl eq_refl).
  discriminate H.
Qed.

(** C2, amended. After a reconciliation, the record of every operation of
    the catalog, taken in the order of [sort_catalogo], carries the id of
    the operation and: when the normalised name of the operation is not
    empty and is the normalised name of an item of the payload, the
    fields of the last such item, with the status ["sem_exec"] unless it
    is one of the seven codes, ["-"] for a blank [ultimo_job] or
    [termino_real], [fim_de_jogo] as a boolean and [nota] trimmed; when
    the normalised name is empty or is that of no item, the default
    record.  For the catalog [{id:"a", nome:"FOO",
    categoria:"Rotativos"}] and the item [{nome:"foo", status:"ok",
    fim_de_jogo:true}] the record of ["a"] has status ["ok"],
    fim_de_jogo true, ultimo_job ["-"] and an empty nota. *)
Theorem reconciliation_records (unicode_upper : N → pystr)
    data payload day clock data' :
  merge_day unicode_upper data payload day clock = Ok data' →
  (∃ cs sorted its itens,
     catalogo_of data = Ok cs ∧
     catalogo_sorted unicode_upper data = Ok sorted ∧
     sorted ≡ₚ cs ∧
     itens_of payload = Ok its ∧
     day_itens data' day = Ok itens ∧
     Forall2 (record_of unicode_upper its) sorted itens) ∧
  reconciled unicode_upper (ex_store [ex_foo]) (ex_payload [ex_foo_item])
    ex_day clock
  = Ok [JObj [(str "id", str "a"); (str "status", str "ok");
              (str "ultimo_job", str "-"); (str "termino_real", str "-");
              (str "fim_de_jogo", JBool true); (str "nota", str "")]].
Proof.
  intros H. split; [exact (merge_day_records _ _ _ _ _ _ H)|].
  vm_compute. reflexivity.
Qed.

Lemma reconciliation_records_witness :
  ∃ data' itens,
    merge_day upper_id (ex_store [ex_foo])
      (ex_payload [ex_item "foo" "abend"; ex_foo_item]) ex_day ex_clock
    = Ok data' ∧
    day_itens data' ex_day = Ok itens ∧
    Forall2 (record_of upper_id [ex_item "foo" "abend"; ex_foo_item])
      [ex_foo] itens.
Proof.
  eexists. eexists. split; [vm_compute; reflexivity|].
  split; [vm_compute; reflexivity|].
  destruct (reconciliation_records upper_id (ex_store [ex_foo])
              (ex_payload [ex_item "foo" "abend"; ex_foo_item]) ex_day ex_clock
              _ ltac:(vm_compute; reflexivity))
    as [(cs & sorted & its & itens & _ & Hsorted & _ & Hits & Hitens & Hrec) _].
  vm_compute in Hsorted, Hits, Hitens.
  injection Hsorted as <-. injection Hits as <-. injection Hitens as <-.
  exact Hrec.
Defined.

(** C3, as it stands, fails on a payload with two items of the same name:
    the record is the one of the item that comes last. *)
Lemma duplicate_names_order_sensitive :
  ¬ (∀ (unicode_upper : N → pystr) data p1 p2 day clock its1 its2,
       py_get p1 (str "updatedAt") JNull = py_get p2 (str "updatedAt") JNull →
       itens_of p1 = Ok its1 → itens_of p2 = Ok its2 → its1 ≡ₚ its2 →
       reconciled unicode_upper data p1 day clock
       = reconciled unicode_upper data p2 day clock).
Proof.
  intros H.
  specialize (H upper_id (ex_store [ex_foo])
                (ex_payload [ex_item "foo" "ok"; ex_item "foo" "abend"])
                (ex_payload [ex_item "foo" "abend"; ex_item "foo" "ok"])
                ex_day ex_clock _ _ eq_refl eq_refl eq_refl
                (Permutation_swap _ _ _)).
  vm_compute in H. discriminate H.
Qed.

(** C3, amended. When no two items of the payload have the same
    non-empty normalised name, a payload with the same [updatedAt] and
    the same items in another order is reconciled to the same store; and
    for every payload the records of the day come in the order of
    [sort_catalogo] on the catalog. *)
Theorem reconciliation_order_insensitive (unicode_upper : N → pystr)
    data day clock :
  (∀ p1 p2 its1 its2 names data',
     py_get p1 (str "updatedAt") JNull = py_get p2 (str "updatedAt") JNull →
     itens_of p1 = Ok its1 → itens_of p2 = Ok its2 → its1 ≡ₚ its2 →
     res_map (item_name unicode_upper) its1 = Ok names →
     NoDup (filter (fun n => n ≠ []) names) →
     merge_day unicode_upper data p1 day clock = Ok data' →
     merge_day unicode_upper data p2 day clock = Ok data') ∧
  (∀ payload data',
     merge_day unicode_upper data payload day clock = Ok data' →
     ∃ sorted itens,
       catalogo_sorted unicode_upper data = Ok sorted ∧
       day_itens data' day = Ok itens ∧
       ids itens = ids sorted).
Proof.
  split.
  - intros p1 p2 its1 its2 names data'. apply merge_day_perm.
  - intros payload data' Hm.
    pose proof Hm as (cs & _ & _ & _ & _ & Hcs & _)%merge_day_inv.
    destruct (merge_day_ids unicode_upper _ _ _ _ _ _ Hm Hcs)
      as (sorted & itens & Hsorted & _ & Hitens & Hids & _).
    by exists sorted, itens.
Qed.

Lemma reconciliation_order_insensitive_witness :
  ∃ data',
    merge_day upper_id (ex_store [ex_foo; ex_malha "b" "BAR" "Modelos"])
      (ex_payload [ex_item "bar" "abend"; ex_item "foo" "ok"]) ex_day ex_clock
    = Ok data' ∧
    merge_day upper_id (ex_store [ex_foo; ex_malha "b" "BAR" "Modelos"])
      (ex_payload [ex_item "foo" "ok"; ex_item "bar" "abend"]) ex_day ex_clock
    = Ok data' ∧
    ∃ sorted itens,
      catalogo_sorted upper_id
        (ex_store [ex_foo; ex_malha "b" "BAR" "Modelos"]) = Ok sorted ∧
      day_itens data' ex_day = Ok itens ∧
      ids itens = ids sorted.
Proof.
  eexists. split; [vm_compute; reflexivity|].
  destruct (reconciliation_order_insensitive upper_id
              (ex_store [ex_foo; ex_malha "b" "BAR" "Modelos"])
              ex_day ex_clock) as [Hperm Hord].
  split.
  - eapply (Hperm (ex_payload [ex_item "bar" "abend"; ex_item "foo" "ok"])
                  (ex_payload [ex_item "foo" "ok"; ex_item "bar" "abend"])
                  _ _ [lit "BAR"; lit "FOO"]);
      [reflexivity|reflexivity|reflexivity|apply Permutation_swap
      |vm_compute; reflexivity| |vm_compute; reflexivity].
    vm_compute.
    repeat (constructor;
            [rewrite ?elem_of_cons, ?elem_of_nil; intuition discriminate|]).
    constructor.
  - apply (Hord (ex_payload [ex_item "bar" "abend"; ex_item "foo" "ok"])).
    vm_compute. reflexivity.
Defined.

(** C9. When two items of a payload have the same normalised name, the
    entry of that name in [incoming], which exists unless the name is
    empty, is the one of the last item of that name, and so is the record
    of an operation that finds it; the earlier item is discarded, the
    result being the one of the payload without it.  When no non-empty
    normalised name occurs twice, the order of the items does not
    matter. *)
Theorem last_duplicate_wins (unicode_upper : N → pystr) data day clock :
  (∀ payload data' l1 it1 l2 it2 l3 nome,
     merge_day unicode_upper data payload day clock = Ok data' →
     itens_of payload = Ok (l1 ++ it1 :: l2 ++ it2 :: l3) →
     item_name unicode_upper it1 = Ok nome →
     item_name unicode_upper it2 = Ok nome →
     Forall (fun x => item_name unicode_upper x ≠ Ok nome) l3 →
     ∃ inc sorted itens,
       incoming_of unicode_upper payload = Ok inc ∧
       (inc !! nome = None ↔ nome = []) ∧
       (∀ f cid, inc !! nome = Some f →
                 filled_item cid f = expected_record cid it2) ∧
       catalogo_sorted unicode_upper data = Ok sorted ∧
       day_itens data' day = Ok itens ∧
       Forall2 (fun c rec =>
         ∀ cid, field "id" c = Some cid →
                malha_name unicode_upper c = Ok nome →
                is_Some (inc !! nome) →
                rec = expected_record cid it2) sorted itens ∧
       (∀ payload',
          py_get payload' (str "updatedAt") JNull
          = py_get payload (str "updatedAt") JNull →
          itens_of payload' = Ok (l1 ++ l2 ++ it2 :: l3) →
          merge_day unicode_upper data payload' day clock = Ok data')) ∧
  (∀ p1 p2 its1 its2 names data',
     py_get p1 (str "updatedAt") JNull = py_get p2 (str "updatedAt") JNull →
     itens_of p1 = Ok its1 → itens_of p2 = Ok its2 → its1 ≡ₚ its2 →
     res_map (item_name unicode_upper) its1 = Ok names →
     NoDup (filter (fun n => n ≠ []) names) →
     merge_day unicode_upper data p1 day clock = Ok data' →
     merge_day unicode_upper data p2 day clock = Ok data').
Proof.
  split; [|intros p1 p2 its1 its2 names data'; apply merge_day_perm].
  intros payload data' l1 it1 l2 it2 l3 nome Hm Hits Hn1 Hn2 Hl3.
  pose proof (merge_day_records unicode_upper _ _ _ _ _ Hm)
    as (cs & sorted & its & itens & _ & Hsorted & _ & Hits' & Hitens & Hrec).
  rewrite Hits in Hits'. injection Hits' as <-.
  pose proof Hm as (_ & _ & its & es & _ & _ & _ & _ & Hits' & Hes & _)
                     %merge_day_inv.
  rewrite Hits in Hits'. injection Hits' as <-.
  pose proof (proj2 (incoming_fold unicode_upper _ ∅ _)
                (ex_intro _ es (conj Hes eq_refl))) as Hinc.
  assert (inc_hit : foldl incoming_put ∅ es !! nome = None ↔ nome = []).
  { apply (incoming_hit unicode_upper _ _ _ Hinc).
    apply Exists_app. right. by left. }
  assert (Hsplit : l1 ++ it1 :: l2 ++ it2 :: l3 = (l1 ++ it1 :: l2) ++ it2 :: l3)
    by by rewrite <-app_assoc.
  exists (foldl incoming_put ∅ es), sorted, itens.
  split. { unfold incoming_of. rewrite Hits. res_simpl. done. }
  split; [done|]. split; [|split; [done|split; [done|split]]].
  - intros f cid Hf.
    assert (nome ≠ []) as Hne.
    { intros Hn. apply inc_hit in Hn. by rewrite Hn in Hf. }
    destruct (last_entry_of_last_item unicode_upper _ _ _ _ _ _ Hes Hsplit
                Hn2 Hne Hl3) as (g & Hg & Hexp).
    rewrite incoming_lookup, Hg in Hf. injection Hf as <-. apply Hexp.
  - eapply Forall2_impl; [exact Hrec|].
    intros c rec (cid & nome' & Hid & _ & Hname & Hlast & _) cid' Hid' Hname'
      [f Hf].
    rewrite Hid in Hid'. injection Hid' as <-.
    rewrite Hname in Hname'. injection Hname' as ->.
    apply (Hlast _ _ _ Hsplit Hn2); [|done].
    intros Hn. apply inc_hit in Hn. by rewrite Hn in Hf.
  - intros payload' Hupd Hits'. rewrite <-Hm.
    apply (merge_day_payload unicode_upper _ _ _ _ _ _ _ Hupd Hits' Hits).
    rewrite Hinc.
    by apply (incoming_drop_earlier unicode_upper l1 it1 l2 it2 l3 nome).
Qed.

Lemma last_duplicate_wins_witness :
  ∃ data' itens,
    merge_day upper_id (ex_store [ex_foo])
      (ex_payload [ex_item "foo" "abend"; ex_item "Foo " "exec"; ex_foo_item])
      ex_day ex_clock = Ok data' ∧
    day_itens data' ex_day = Ok itens ∧
    Forall2 (fun c rec => rec = expected_record (str "a") ex_foo_item)
      [ex_foo] itens ∧
    merge_day upper_id (ex_store [ex_foo])
      (ex_payload [ex_item "Foo " "exec"; ex_foo_item]) ex_day ex_clock
    = Ok data'.
Proof.
  eexists. eexists. split; [vm_compute; reflexivity|].
  split; [vm_compute; reflexivity|].
  destruct (last_duplicate_wins upper_id (ex_store [ex_foo]) ex_day ex_clock)
    as [Hlast _].
  destruct (Hlast
              (ex_payload [ex_item "foo" "abend"; ex_item "Foo " "exec";
                           ex_foo_item])
              _ [] (ex_item "foo" "abend") [ex_item "Foo " "exec"]
              ex_foo_item [] (lit "FOO")
              ltac:(vm_compute; reflexivity) eq_refl
              ltac:(vm_compute; reflexivity) ltac:(vm_compute; reflexivity)
              ltac:(constructor))
    as (inc & sorted & itens & Hinc & Hhit & _ & Hsorted & Hitens & Hrec & Hdrop).
  vm_compute in Hsorted, Hitens.
  injection Hsorted as <-. injection Hitens as <-.
  assert (is_Some (inc !! lit "FOO")) as Hsome.
  { revert Hhit. destruct (inc !! lit "FOO") as [f|]; [by eexists|].
    intros Hhit. pose proof (proj1 Hhit eq_refl) as E.
    vm_compute in E. discriminate E. }
  split; [|apply Hdrop; reflexivity].
  inversion Hrec as [|c rec ? ? H1 Htl]; subst.
  inversion Htl; subst. constructor; [|constructor].
  apply H1; [reflexivity|vm_compute; reflexivity|exact Hsome].
Defined.

(** ** The report *)

Lemma res_foldl_app {A S} (f : S → A → res S) s l1 l2 :
  res_foldl f s (l1 ++ l2) = res_foldl f s l1 ≫= fun s' => res_foldl f s' l2.
Proof.
  revert s. induction l1 as [|x l1 IH]; intros s; [done|].
  cbn [app res_foldl]. destruct (f s x) as [s'|e]; [|done]. res_simpl.
  apply IH.
Qed.

Lemma groups_of_ext ks f g :
  (∀ k, k ∈ ks → f k = g k) → groups_of ks f = groups_of ks g.
Proof.
  intros H. unfold groups_of. apply list_eq. intros i.
  rewrite !list_lookup_fmap. destruct (ks !! i) as [k|] eqn:E; [|done].
  cbn. rewrite H; [done|]. by eapply list_elem_of_lookup_2.
Qed.

Lemma dict_lookup_groups_in ks f k :
  k ∈ ks → dict_lookup (JStr k) (groups_of ks f) = Some (f k).
Proof.
  unfold groups_of. induction ks as [|k' ks IH]; [by intros ?%elem_of_nil|].
  intros Hk. cbn [fmap list_fmap dict_lookup py_eq].
  case_bool_decide; [by subst|].
  apply elem_of_cons in Hk as [->|Hk]; [done|]. by apply IH.
Qed.

Lemma dict_lookup_groups_some ks f v x :
  dict_lookup v (groups_of ks f) = Some x →
  ∃ k, v = JStr k ∧ k ∈ ks ∧ x = f k.
Proof.
  unfold groups_of. induction ks as [|k' ks IH]; [done|].
  cbn [fmap list_fmap dict_lookup].
  destruct (py_eq (JStr k') v) eqn:E.
  - apply py_eq_str in E as ->. intros [= <-]. exists k'.
    split; [done|]. split; [by left|done].
  - intros (k & -> & Hk & ->)%IH. exists k. split; [done|].
    split; [by right|done].
Qed.

Lemma dict_set_groups ks f k x :
  NoDup ks → k ∈ ks →
  dict_set (JStr k) x (groups_of ks f)
  = groups_of ks (fun k' => if bool_decide (k' = k) then x else f k').
Proof.
  unfold groups_of. induction 1 as [|k' ks Hk' Hnd IH]; [by intros ?%elem_of_nil|].
  intros Hk. cbn [fmap list_fmap dict_set py_eq].
  case_bool_decide as E.
  - subst k'. f_equal. apply (groups_of_ext ks). intros k1 Hk1.
    rewrite bool_decide_false; [done|]. by intros ->.
  - f_equal. apply elem_of_cons in Hk as [->|Hk]; [done|]. by apply IH.
Qed.

Lemma lines_of_cons r rows k :
  lines_of (r :: rows) k
  = (if is_cat k (row_cat r)
     then [PreencherMalhas.report_line r.1.1.1.2 r.1.1.2 r.2] else [])
    ++ lines_of rows k.
Proof.
  unfold lines_of. destruct (is_cat k (row_cat r)) eqn:E.
  - by rewrite filter_cons_True by done.
  - rewrite filter_cons_False; [done|]. by rewrite E.
Qed.

(** One row, of a category that [groups] has. *)
Lemma groups_append_ok ks f r k :
  NoDup ks → k ∈ ks → row_cat r = JStr k →
  PreencherMalhas.groups_append (groups_of ks f) r
  = Ok (groups_of ks (fun k' => f k' ++ lines_of [r] k')).
Proof.
  intros Hnd Hk Hcat. destruct r as [[[[cat nome] st] fim] obs].
  cbn [row_cat fst] in Hcat. subst cat.
  unfold PreencherMalhas.groups_append. cbn [hashable].
  rewrite (dict_lookup_groups_in _ _ _ Hk).
  rewrite (dict_set_groups _ _ _ _ Hnd Hk). f_equal.
  apply groups_of_ext. intros k' Hk'. rewrite lines_of_cons.
  cbn [row_cat fst snd is_cat]. unfold lines_of. rewrite filter_nil.
  cbn [fmap list_fmap]. rewrite app_nil_r.
  rewrite (bool_decide_ext (k = k') (k' = k)) by naive_solver.
  case_bool_decide; [by subst|]. by rewrite app_nil_r.
Qed.

(** The loop over the rows, when every category is one of [groups]. *)
Lemma groups_fold_ok ks f rows :
  NoDup ks → Forall (fun r => row_cat r ∈ JStr <$> ks) rows →
  res_foldl PreencherMalhas.groups_append (groups_of ks f) rows
  = Ok (groups_of ks (fun k => f k ++ lines_of rows k)).
Proof.
  intros Hnd Hrows. revert f.
  induction Hrows as [|r rows Hr _ IH]; intros f.
  - cbn [res_foldl]. f_equal. apply groups_of_ext. intros k _.
    unfold lines_of. by rewrite filter_nil, app_nil_r.
  - apply list_elem_of_fmap in Hr as (k & Hcat & Hk).
    cbn [res_foldl]. rewrite (groups_append_ok _ _ _ _ Hnd Hk Hcat).
    res_simpl. rewrite IH. f_equal. apply groups_of_ext. intros k' _.
    rewrite (lines_of_cons r rows k'), (lines_of_cons r [] k').
    unfold lines_of at 1. rewrite filter_nil. cbn [fmap list_fmap].
    by rewrite app_nil_r, <-app_assoc.
Qed.

(** The loop over the rows, when a category is none of [groups]. *)
Lemma groups_fold_keyerror ks f rows :
  NoDup ks →
  Forall (fun r => hashable (row_cat r) = true) rows →
  Exists (fun r => row_cat r ∉ JStr <$> ks) rows →
  res_foldl PreencherMalhas.groups_append (groups_of ks f) rows
  = Raise KeyError.
Proof.
  intros Hnd Hhash. revert f.
  induction Hhash as [|r rows Hr _ IH]; intros f Hex; [by inversion Hex|].
  cbn [res_foldl].
  destruct (dict_lookup (row_cat r) (groups_of ks f)) as [x|] eqn:E.
  - apply dict_lookup_groups_some in E as (k & Hcat & Hk & _).
    rewrite (groups_append_ok _ _ _ _ Hnd Hk Hcat). res_simpl.
    apply IH. apply Exists_cons in Hex as [Hex|Hex]; [|done].
    exfalso. apply Hex. rewrite Hcat. by apply list_elem_of_fmap_2.
  - destruct r as [[[[cat nome] st] fim] obs]. cbn [row_cat fst] in *.
    unfold PreencherMalhas.groups_append. by rewrite Hr, E.
Qed.

(** *** A row *)

Lemma status_emoji_spec st : PreencherMalhas.status_emoji st = spec_glyph st.
Proof.
  unfold PreencherMalhas.status_emoji, PreencherMalhas.STATUS_MAP, spec_glyph,
    STATUS_GLYPH, str.
  destruct st as [|b|z|s|l|o]; try reflexivity.
  cbn [List.find fst snd py_eq assoc].
  repeat (case_bool_decide; [reflexivity|]). reflexivity.
Qed.

Lemma report_line_spec cat nome st fim obs :
  PreencherMalhas.report_line nome st obs = spec_line (cat, nome, st, fim, obs).
Proof.
  unfold PreencherMalhas.report_line, spec_line. rewrite status_emoji_spec.
  destruct obs as [|c obs].
  - rewrite bool_decide_true by done. by rewrite !app_nil_r.
  - rewrite bool_decide_false by done. by rewrite <-!app_assoc.
Qed.

Lemma lines_of_spec rows k :
  lines_of rows k
  = spec_line <$> filter (fun r => is_cat k (row_cat r) = true) rows.
Proof.
  unfold lines_of. apply list_fmap_ext. intros _ [[[[cat nome] st] fim] obs] _.
  apply report_line_spec.
Qed.

Lemma report_section_spec ks rows k :
  k ∈ ks →
  PreencherMalhas.report_section (groups_of ks (lines_of rows)) (JStr k)
  = spec_section rows k.
Proof.
  intros Hk. unfold PreencherMalhas.report_section, spec_section.
  rewrite (dict_lookup_groups_in _ _ _ Hk). cbn [default from_option id].
  rewrite <-lines_of_spec. f_equal. f_equal.
  destruct (lines_of rows k); [by rewrite bool_decide_true|].
  by rewrite bool_decide_false.
Qed.

Lemma report_sections_spec ks rows :
  flat_map (PreencherMalhas.report_section (groups_of ks (lines_of rows)))
    (JStr <$> ks)
  = flat_map (spec_section rows) ks.
Proof.
  assert (∀ l, l ⊆ ks →
    flat_map (PreencherMalhas.report_section (groups_of ks (lines_of rows)))
      (JStr <$> l) = flat_map (spec_section rows) l) as H.
  { induction l as [|k l IH]; intros Hl; [done|].
    cbn [fmap list_fmap flat_map]. rewrite report_section_spec.
    - f_equal. apply IH. set_solver.
    - set_solver. }
  by apply H.
Qed.

(** *** The date *)

Lemma split_on_no_sep sep s :
  Forall (fun c => c ≠ sep) s → split_on sep s = [s].
Proof.
  induction 1 as [|c s Hc _ IH]; [done|]. cbn [split_on].
  rewrite (proj2 (N.eqb_neq c sep) Hc). by rewrite IH.
Qed.

Lemma split_on_field sep s rest :
  Forall (fun c => c ≠ sep) s →
  split_on sep (s ++ sep :: rest) = s :: split_on sep rest.
Proof.
  induction 1 as [|c s Hc _ IH]; cbn [app split_on].
  - by rewrite N.eqb_refl.
  - rewrite (proj2 (N.eqb_neq c sep) Hc). by rewrite IH.
Qed.

Lemma br_date_iso y m d :
  no_hyphen y → no_hyphen m → no_hyphen d →
  PreencherMalhas.br_date (iso_date y m d)
  = Ok (d ++ lit "/" ++ m ++ lit "/" ++ y).
Proof.
  intros Hy Hm Hd. unfold PreencherMalhas.br_date, iso_date.
  change (lit "-") with [45%N]. cbn [app].
  rewrite (split_on_field _ _ _ Hy), (split_on_field _ _ _ Hm).
  by rewrite (split_on_no_sep _ _ Hd).
Qed.

Lemma preencher_categorias :
  PreencherMalhas.ORDEM_CATEGORIAS
    = JStr <$> str_values PreencherMalhas.ORDEM_CATEGORIAS
  ∧ NoDup (str_values PreencherMalhas.ORDEM_CATEGORIAS)
  ∧ length (str_values PreencherMalhas.ORDEM_CATEGORIAS) = 5.
Proof.
  split; [reflexivity|]. split; [|reflexivity].
  apply (bool_decide_unpack _). by vm_compute.
Qed.

(** The groups at the end of the loop of [build_whatsapp_report]. *)
Lemma build_groups :
  (fun c : json => (c, @nil pystr)) <$> PreencherMalhas.ORDEM_CATEGORIAS
  = groups_of (str_values PreencherMalhas.ORDEM_CATEGORIAS) (fun _ => []).
Proof.
  destruct preencher_categorias as (Heq & _). rewrite Heq at 1.
  unfold groups_of. by rewrite <-list_fmap_compose.
Qed.

Lemma assoc_none s (l : list (pystr * pystr)) :
  (∀ k g, (k, g) ∈ l → k ≠ s) → assoc s l = None.
Proof.
  induction l as [|[k g] l IH]; [done|]. intros H. cbn [assoc].
  rewrite bool_decide_false by (apply (H k g); by left).
  apply IH. intros k' g' Hin. apply (H k' g'). by right.
Qed.

Lemma br_date_no_keyerror dia : PreencherMalhas.br_date dia ≠ Raise KeyError.
Proof.
  unfold PreencherMalhas.br_date. destruct dia as [| | |s| |]; try done.
  by destruct (split_on 45 s) as [|y [|m [|d [|]]]].
Qed.

Lemma join_app sep l1 l2 :
  l1 ≠ [] → l2 ≠ [] → join sep (l1 ++ l2) = join sep l1 ++ sep ++ join sep l2.
Proof.
  intros H1 H2. induction l1 as [|w l1 IH]; [done|].
  destruct l1 as [|w' l1].
  - cbn [app]. by rewrite join_cons.
  - cbn [app] in *. rewrite join_cons by done. rewrite IH by done.
    rewrite (join_cons sep w (w' :: l1)) by done. by rewrite <-!app_assoc.
Qed.

(** C6. For a date written [y-m-d] and rows whose categories are all in
    the fixed list, [build_whatsapp_report] returns the report that the
    specification describes: the three lines of the head with the date as
    [d/m/y], then one section per category of the fixed list, in its
    order, with the line ["- (sem itens)"] when the category has no row
    and otherwise one line per row of the category, each made of the
    glyph of the status (the white circle for a status that has none),
    the name and, when it is not empty, the note in parentheses; then the
    three lines of the legend, which are the end of every report and show
    the glyph of every status.  The list of the code is the fixed list of
    five categories, and the glyphs of the code are those of the
    mapping. *)
Theorem report_layout y m d (rows : list PreencherMalhas.row) :
  no_hyphen y → no_hyphen m → no_hyphen d →
  Forall (fun r => row_cat r ∈ JStr <$> SPEC_CATEGORIES) rows →
  PreencherMalhas.build_whatsapp_report (iso_date y m d) rows
    = Ok (spec_report (d ++ lit "/" ++ m ++ lit "/" ++ y) rows)
  ∧ (∃ body, spec_report (d ++ lit "/" ++ m ++ lit "/" ++ y) rows
             = body ++ [10%N] ++ join [10%N] SPEC_LEGEND)
  ∧ (∀ k g, (k, g) ∈ STATUS_GLYPH →
            is_substring g (join [10%N] SPEC_LEGEND) = true)
  ∧ PreencherMalhas.ORDEM_CATEGORIAS = JStr <$> SPEC_CATEGORIES
  ∧ length SPEC_CATEGORIES = 5
  ∧ (∀ st, (∀ k g, (k, g) ∈ STATUS_GLYPH → st ≠ JStr k) →
           PreencherMalhas.status_emoji st = lit "⚪")
  ∧ (∀ k g, (k, g) ∈ STATUS_GLYPH → PreencherMalhas.status_emoji (JStr k) = g).
Proof.
  intros Hy Hm Hd Hrows.
  destruct preencher_categorias as (Heq & Hnd & Hlen).
  assert (str_values PreencherMalhas.ORDEM_CATEGORIAS = SPEC_CATEGORIES)
    as Hcats by reflexivity.
  assert (PreencherMalhas.LEGENDA = SPEC_LEGEND) as Hleg by reflexivity.
  rewrite Hcats in Heq, Hnd.
  split; [|split; [|split; [|split; [done|split; [done|split]]]]].
  - unfold PreencherMalhas.build_whatsapp_report, spec_report.
    rewrite build_groups, Hcats.
    rewrite (groups_fold_ok _ _ rows Hnd) by (by rewrite <-Heq).
    res_simpl. rewrite br_date_iso by done. res_simpl. cbn [app].
    rewrite Heq at 1. by rewrite report_sections_spec, Hleg.
  - unfold spec_report. eexists. rewrite app_assoc. by apply join_app.
  - intros k g Hin. unfold STATUS_GLYPH in Hin.
    repeat (apply elem_of_cons in Hin as [[= -> ->]|Hin];
            [vm_compute; reflexivity|]).
    by apply elem_of_nil in Hin.
  - intros st Hst. rewrite status_emoji_spec. unfold spec_glyph.
    destruct st as [| | |s| |]; try done.
    rewrite assoc_none; [done|]. intros k g Hin ->. by eapply Hst.
  - intros k g Hin. rewrite status_emoji_spec.
    unfold STATUS_GLYPH in Hin.
    repeat (apply elem_of_cons in Hin as [[= -> ->]|Hin]; [reflexivity|]).
    by apply elem_of_nil in Hin.
Qed.

Lemma report_layout_witness :
  PreencherMalhas.build_whatsapp_report (str "2026-01-10") ex_rows
  = Ok (lit "Boa noite.

Acompanhamento Malhas

Odate: 10/01/2026

Rotativos:

- 🟢 ORIGENS

Parcelados:

- (sem itens)

Modelos:

- (sem itens)

Gestão PJ e Alto Risco:

- (sem itens)

Semanal:

- ⚪ STATUS MQ  (atrasado)

Legenda:
🟡 Em execução | 🟢 Finalizado | 🔵 Contingência | 🔴 Abend | ⚪ Não começou/Sem execução | ⚫ Aguardando condição
⚪/🔵 em “Fim de jogo” = não validado / validado").
Proof.
  destruct (report_layout (lit "2026") (lit "01") (lit "10") ex_rows)
    as (Hrep & _).
  - apply Forall_forall. intros c Hc. vm_compute in Hc.
    repeat (apply elem_of_cons in Hc as [->|Hc]; [done|]).
    by apply elem_of_nil in Hc.
  - apply Forall_forall. intros c Hc. vm_compute in Hc.
    repeat (apply elem_of_cons in Hc as [->|Hc]; [done|]).
    by apply elem_of_nil in Hc.
  - apply Forall_forall. intros c Hc. vm_compute in Hc.
    repeat (apply elem_of_cons in Hc as [->|Hc]; [done|]).
    by apply elem_of_nil in Hc.
  - repeat constructor.
  - etrans; [exact Hrep|]. vm_compute. reflexivity.
Defined.

(** C10. [build_whatsapp_report] raises [KeyError] as soon as a row has a
    category, a [str] or another hashable value, that is not one of the
    five of the fixed list, whatever the date and the other rows; the
    category ["-"], which [main] gives the row of an item of the day
    whose id is not in the catalog, is such a category.  When every
    category is in the list, no [KeyError] is raised, and the report is
    returned when the date is written [y-m-d]. *)
Theorem report_unknown_category (unicode_upper : N → pystr) dia
    (rows : list PreencherMalhas.row) :
  (Forall (fun r => hashable (row_cat r) = true) rows →
   Exists (fun r => row_cat r ∉ PreencherMalhas.ORDEM_CATEGORIAS) rows →
   PreencherMalhas.build_whatsapp_report dia rows = Raise KeyError) ∧
  (Forall (fun r => row_cat r ∈ PreencherMalhas.ORDEM_CATEGORIAS) rows →
   PreencherMalhas.build_whatsapp_report dia rows ≠ Raise KeyError ∧
   ∀ y m d, dia = iso_date y m d → no_hyphen y → no_hyphen m → no_hyphen d →
            ∃ out, PreencherMalhas.build_whatsapp_report dia rows = Ok out) ∧
  (∀ cat_by_id it iid r,
     py_getitem it (str "id") = Ok iid →
     dict_lookup iid cat_by_id = None →
     PreencherMalhas.report_row unicode_upper cat_by_id it = Ok r →
     row_cat r = str "-" ∧ hashable (row_cat r) = true
     ∧ row_cat r ∉ PreencherMalhas.ORDEM_CATEGORIAS).
Proof.
  destruct preencher_categorias as (Heq & Hnd & Hlen).
  split; [|split].
  - intros Hhash Hex. unfold PreencherMalhas.build_whatsapp_report.
    rewrite build_groups.
    rewrite (groups_fold_keyerror _ _ rows Hnd Hhash); [done|exact Hex].
  - intros Hrows. unfold PreencherMalhas.build_whatsapp_report.
    rewrite build_groups.
    rewrite (groups_fold_ok _ _ rows Hnd) by exact Hrows. res_simpl. split.
    + pose proof (br_date_no_keyerror dia) as Hbr.
      by destruct (PreencherMalhas.br_date dia) as [date|[]].
    + intros y m d -> Hy Hm Hd. rewrite br_date_iso by done. res_simpl.
      by eexists.
  - intros cat_by_id it iid r Hid Hnone.
    unfold PreencherMalhas.report_row. rewrite Hid. res_simpl.
    destruct (hashable iid); [|done]. res_simpl. rewrite Hnone.
    cbn [default from_option id].
    change (py_get (JObj []) (str "categoria") (str "-")) with (Ok (str "-")).
    res_simpl. intros H.
    apply res_bind_ok in H as (nome & _ & H).
    apply res_bind_ok in H as (st & _ & H).
    apply res_bind_ok in H as (fim & _ & H).
    apply res_bind_ok in H as (nota & _ & H).
    apply res_bind_ok in H as (obs & _ & [= <-]).
    cbn [row_cat fst]. split; [done|]. split; [done|].
    rewrite Heq. intros (k & Hk & Hin)%list_elem_of_fmap.
    vm_compute in Hk. injection Hk as <-. vm_compute in Hin.
    repeat (apply elem_of_cons in Hin as [Hin|Hin]; [discriminate Hin|]).
    by apply elem_of_nil in Hin.
Qed.

Lemma report_unknown_category_witness :
  PreencherMalhas.build_whatsapp_report (str "2026-01-10")
    (ex_rows ++ [ex_row_dash]) = Raise KeyError
  ∧ (∃ out, PreencherMalhas.build_whatsapp_report (str "2026-01-10") ex_rows
            = Ok out)
  ∧ ∀ r,
      PreencherMalhas.report_row upper_id []
        (JObj [(str "id", str "x1"); (str "status", str "ok")]) = Ok r →
      row_cat r = str "-".
Proof.
  split; [|split].
  - apply (report_unknown_category upper_id).
    + repeat constructor.
    + apply Exists_app. right. left. cbn [row_cat ex_row_dash fst].
      destruct preencher_categorias as (Heq & _). rewrite Heq.
      intros (k & Hk & Hin)%list_elem_of_fmap.
      vm_compute in Hk. injection Hk as <-. vm_compute in Hin.
      repeat (apply elem_of_cons in Hin as [Hin|Hin]; [discriminate Hin|]).
      by apply elem_of_nil in Hin.
  - destruct (proj1 (proj2 (report_unknown_category upper_id
                              (str "2026-01-10") ex_rows))) as [_ Hok].
    + repeat constructor.
    + apply (Hok (lit "2026") (lit "01") (lit "10")); [reflexivity|..];
        apply Forall_forall; intros c Hc; vm_compute in Hc;
        repeat (apply elem_of_cons in Hc as [->|Hc]; [done|]);
        by apply elem_of_nil in Hc.
  - intros r Hr.
    apply (proj2 (proj2 (report_unknown_category upper_id JNull []))
             [] (JObj [(str "id", str "x1"); (str "status", str "ok")])
             (str "x1") r); [reflexivity|reflexivity|exact Hr].
Defined.

(** ** The normaliser is idempotent *)

Lemma norm_value_str unicode_upper s :
  norm_value unicode_upper (JStr s) = Ok (norm_str unicode_upper s).
Proof. unfold norm_value, py_or. cbn [truthy]. by destruct s. Qed.

(** C5. [norm] and [normalize_name], which are the same function, return
    on every string [s] the string that trimming, upper-casing, joining
    the words with single spaces and replacing ["TH3 – OY"] by
    ["TH3 - OY"] give, and return that string unchanged when they are
    applied to it.  The table of upper-casing above ASCII is the one of
    Unicode, where every code point of an upper-cased string is left
    unchanged by upper-casing. *)
Theorem norm_idempotent (unicode_upper : N → pystr) (s : pystr) :
  (∀ c d, (128 ≤ c)%N → d ∈ unicode_upper c →
          upper_cp unicode_upper d = [d]) →
  ∃ n,
    UpdateStatus.norm unicode_upper (JStr s) = Ok n ∧
    UpdateStatus.norm unicode_upper (JStr n) = Ok n ∧
    PreencherMalhas.normalize_name unicode_upper (JStr s) = Ok n ∧
    PreencherMalhas.normalize_name unicode_upper (JStr n) = Ok n ∧
    n = replace (lit "TH3 – OY") (lit "TH3 - OY")
          (join (lit " ") (split_ws (upper unicode_upper (strip s)))).
Proof.
  intros Hfix. exists (norm_str unicode_upper s).
  unfold UpdateStatus.norm, PreencherMalhas.normalize_name.
  rewrite !norm_value_str. rewrite (norm_str_idempotent _ Hfix).
  by repeat split.
Qed.

Lemma norm_idempotent_witness :
  ∃ n,
    UpdateStatus.norm upper_id (str "  th3 – oy   semanal ") = Ok n ∧
    UpdateStatus.norm upper_id (JStr n) = Ok n ∧
    n = lit "TH3 - OY SEMANAL".
Proof.
  destruct (norm_idempotent upper_id (lit "  th3 – oy   semanal "))
    as (n & H1 & H2 & _ & _ & Hn).
  - intros c d Hc ->%list_elem_of_singleton. unfold upper_cp.
    by rewrite (proj2 (N.ltb_ge c 128) Hc).
  - exists n. split; [exact H1|]. split; [exact H2|].
    rewrite Hn. vm_compute. reflexivity.
Defined.

(** ** Runs: what reaches the files *)

Lemma keeps_ret {A} (a : A) : keeps_files (mret a : M A).
Proof. by intros w. Qed.

Lemma keeps_lift {A} (r : res A) : keeps_files (lift r).
Proof. by intros w. Qed.

Lemma keeps_raise {A} e : keeps_files (raise e : M A).
Proof. by intros w. Qed.

Lemma keeps_print line : keeps_files (print line).
Proof. by intros w. Qed.

Lemma keeps_now : keeps_files now.
Proof. by intros w. Qed.

Lemma keeps_exists p : keeps_files (exists_file p).
Proof. by intros w. Qed.

Lemma keeps_input prompt : keeps_files (input prompt).
Proof. intros w. unfold input. by destruct (stdin w). Qed.

Lemma keeps_load codec p : keeps_files (load_json codec p).
Proof.
  intros w. unfold load_json. destruct (files w !! p) as [[t|]|]; [|done..].
  by destruct (json_loads codec t).
Qed.

Lemma keeps_bind {A B} (m : M A) (f : A → M B) :
  keeps_files m → (∀ a, keeps_files (f a)) → keeps_files (m ≫= f).
Proof.
  intros Hm Hf w. unfold mbind, M_bind. specialize (Hm w).
  destruct (m w) as [[a|e] w1]; cbn [snd] in *; [|done].
  by rewrite Hf.
Qed.

Lemma keeps_foldl {A S} (f : S → A → M S) s l :
  (∀ s x, keeps_files (f s x)) → keeps_files (M_foldl f s l).
Proof.
  intros Hf. revert s. induction l as [|x l IH]; intros s; cbn [M_foldl].
  - apply keeps_ret.
  - apply keeps_bind; [apply Hf|apply IH].
Qed.

Lemma keeps_input_loop {A} prompt (body : pystr → A + list fpart) :
  keeps_files (PreencherMalhas.input_loop prompt body).
Proof.
  intros w. unfold PreencherMalhas.input_loop.
  by destruct (PreencherMalhas.input_rounds _ _ _ _) as [[r rest] out].
Qed.








(** *** The calls of a save *)

Lemma fs_run_app ops1 ops2 fs :
  fs_run (ops1 ++ ops2) fs
  = match fs_run ops1 fs with
    | (Ok _, fs1) => fs_run ops2 fs1
    | (Raise e, fs1) => (Raise e, fs1)
    end.
Proof.
  revert fs. induction ops1 as [|op ops1 IH]; intros fs; [done|].
  cbn [app fs_run]. destruct (fs_step fs op) as [fs1|e]; [apply IH|done].
Qed.

Lemma fs_run_snoc ops op fs :
  fs_run (ops ++ [op]) fs
  = match fs_run ops fs with
    | (Ok _, fs1) =>
        match fs_step fs1 op with
        | Ok fs2 => (Ok (), fs2)
        | Raise e => (Raise e, fs1)
        end
    | (Raise e, fs1) => (Raise e, fs1)
    end.
Proof.
  rewrite fs_run_app. destruct (fs_run ops fs) as [[u|e] fs1]; [|done].
  cbn [fs_run]. by destruct (fs_step fs1 op).
Qed.







(** The text of the temporary file while the chunks are written. *)
Lemma fs_run_writes_ok tmp chunks fs text fs' :
  fs !! tmp = Some (File text) →
  fs_run (WriteChunk tmp <$> chunks) fs = (Ok (), fs') →
  fs' = <[tmp := File (text ++ concat chunks)]> fs.
Proof.
  revert fs text. induction chunks as [|c chunks IH]; intros fs text Htext.
  - cbn. intros [= <-]. by rewrite app_nil_r, insert_id.
  - cbn [fmap list_fmap fs_run fs_step].
    destruct (encodable c); [|done]. rewrite Htext. cbn [written].
    intros H. apply (IH _ (text ++ c)) in H; [|by rewrite lookup_insert_eq].
    rewrite H, insert_insert_eq. cbn [concat]. by rewrite app_assoc.
Qed.

(** A save that returns has put the whole document under the target and
    nothing under the temporary path. *)
Lemma save_ops_ok codec tmp target data fs fs' :
  tmp ≠ target →
  fs_run (save_ops codec tmp target data) fs = (Ok (), fs') →
  fs' = saved codec tmp target data fs.
Proof.
  intros Hne. unfold save_ops, saved. cbn [app fs_run].
  destruct (fs_step fs (OpenTrunc tmp)) as [fs1|] eqn:Hopen; [|done].
  assert (fs1 = <[tmp := File []]> fs) as ->.
  { cbn [fs_step] in Hopen.
    destruct (fs !! tmp) as [[t|]|]; try done; by injection Hopen as <-. }
  rewrite fs_run_snoc.
  destruct (fs_run (WriteChunk tmp <$> json_dumps codec data)
              (<[tmp := File []]> fs)) as [[u|e] fs2] eqn:Hw; [|done].
  destruct u.
  apply (fs_run_writes_ok tmp _ _ []) in Hw; [|by rewrite lookup_insert_eq].
  subst fs2. rewrite insert_insert_eq. cbn [app fs_step].
  rewrite lookup_insert_eq, lookup_insert_ne by done.
  destruct (fs !! target) as [[t|]|]; [|done|];
    intros [= <-]; by rewrite delete_insert_eq.
Qed.



(** *** The temporary paths *)

Lemma with_suffix_store ROOT :
  UpdateStatus.with_suffix (UpdateStatus.MALHAS_JSON ROOT) (lit ".tmp")
  = Ok (update_tmp ROOT).
Proof.
  unfold UpdateStatus.with_suffix, UpdateStatus.MALHAS_JSON, path_name,
    path_parent, update_tmp.
  rewrite last_last, removelast_last. reflexivity.
Qed.

Lemma update_tmp_ne ROOT : update_tmp ROOT ≠ UpdateStatus.MALHAS_JSON ROOT.
Proof.
  unfold update_tmp, UpdateStatus.MALHAS_JSON. intros H.
  apply app_inv_head in H. vm_compute in H. discriminate H.
Qed.


Lemma preencher_paths CWD :
  path_join CWD (PreencherMalhas.ARQUIVO_JSON ++ lit ".tmp") = preencher_tmp CWD
  ∧ path_join CWD PreencherMalhas.ARQUIVO_JSON = preencher_store CWD
  ∧ preencher_tmp CWD ≠ preencher_store CWD
  ∧ path_parent (preencher_tmp CWD) = path_parent (preencher_store CWD).
Proof.
  unfold preencher_tmp, preencher_store, path_parent.
  rewrite !removelast_last. split; [reflexivity|]. split; [reflexivity|].
  split; [|done]. intros H. apply app_inv_head in H.
  vm_compute in H. discriminate H.
Qed.

(** ** The two [main] *)

Ltac keeps_step :=
  lazymatch goal with
  | |- keeps_files (mbind _ _) => apply keeps_bind; [|intros ?]
  | |- keeps_files (mret _) => apply keeps_ret
  | |- keeps_files (lift _) => apply keeps_lift
  | |- keeps_files (raise _) => apply keeps_raise
  | |- keeps_files (print _) => apply keeps_print
  | |- keeps_files now => apply keeps_now
  | |- keeps_files (exists_file _) => apply keeps_exists
  | |- keeps_files (input _) => apply keeps_input
  | |- keeps_files (load_json _ _) => apply keeps_load
  | |- keeps_files (PreencherMalhas.input_loop _ _) =>
      apply keeps_input_loop
  | |- keeps_files (M_foldl _ _ _) => apply keeps_foldl; intros ? ?
  | |- keeps_files (if ?b then _ else _) => destruct b
  | |- keeps_files (match ?x with _ => _ end) => destruct x
  end.

Ltac keeps := solve [repeat keeps_step].

Lemma bind_run {A B} (m : M A) (f : A → M B) w :
  (m ≫= f) w
  = match m w with
    | (Ok a, w') => f a w'
    | (Raise e, w') => (Raise e, w')
    end.
Proof. reflexivity. Qed.

(** The result of the calls of a save, as a run. *)
Lemma run_ops_spec ops w :
  run_ops ops w
  = ((fs_run ops (files w)).1,
     World (fs_run ops (files w)).2 (console w) (stdin w) (clock w)).
Proof. unfold run_ops. by destruct (fs_run ops (files w)). Qed.

Lemma run_ops_keeps_console ops w :
  console (run_ops ops w).2 = console w ∧ stdin (run_ops ops w).2 = stdin w
  ∧ clock (run_ops ops w).2 = clock w.
Proof. by rewrite run_ops_spec. Qed.

Section Update.
Variable unicode_upper : N → pystr.
Variable codec : json_codec.
Variable ROOT : path.
Local Abbreviation main := (UpdateStatus.main unicode_upper codec ROOT).
Local Abbreviation store := (UpdateStatus.MALHAS_JSON ROOT).
Local Abbreviation save_json := (UpdateStatus.save_json codec).

Lemma update_save_run data w :
  save_json store data w
  = run_ops (save_ops codec (update_tmp ROOT) store data) w.
Proof.
  unfold UpdateStatus.save_json. rewrite with_suffix_store. reflexivity.
Qed.











End Update.

Section Preencher.
Variable unicode_upper : N → pystr.
Variable unicode_lower : pystr → pystr.
Variable strptime_ok : pystr → bool.
Variable codec : json_codec.
Variable CWD : path.
Local Abbreviation main :=
  (PreencherMalhas.main unicode_upper unicode_lower strptime_ok codec CWD).



Lemma keeps_prompt_status current_key :
  keeps_files (PreencherMalhas.prompt_status current_key).
Proof. unfold PreencherMalhas.prompt_status. keeps. Qed.

Lemma keeps_fill_step st c :
  keeps_files (PreencherMalhas.fill_step unicode_upper unicode_lower st c).
Proof.
  unfold PreencherMalhas.fill_step. destruct st as [dia_obj itmap].
  apply keeps_bind; [keeps|]. intros mid.
  apply keeps_bind; [keeps|]. intros cat.
  apply keeps_bind; [keeps|]. intros nome.
  apply keeps_bind; [keeps|]. intros [[dia1 itmap1] i].
  apply keeps_bind; [keeps|]. intros _.
  apply keeps_bind; [keeps|]. intros _.
  apply keeps_bind; [keeps|]. intros it.
  apply keeps_bind; [keeps|]. intros cur.
  apply keeps_bind; [apply keeps_prompt_status|]. intros new_status.
  apply keeps_bind; [keeps|]. intros dia2.
  apply keeps_bind; [keeps|]. intros it2.
  apply keeps_bind; [keeps|]. intros cur_fim.
  apply keeps_bind; [unfold PreencherMalhas.prompt_yesno; keeps|].
  intros new_fim.
  apply keeps_bind; [keeps|]. intros dia3.
  apply keeps_bind; [keeps|]. intros it3.
  apply keeps_bind; [keeps|]. intros cur_obs.
  apply keeps_bind; [keeps|]. intros obs.
  apply keeps_bind; [keeps|]. intros dia4.
  apply keeps_bind; [keeps|]. intros _. keeps.
Qed.

Lemma preencher_save_run data w :
  PreencherMalhas.save_json codec CWD PreencherMalhas.ARQUIVO_JSON data w
  = run_ops (save_ops codec (preencher_tmp CWD) (preencher_store CWD) data) w.
Proof.
  unfold PreencherMalhas.save_json.
  by destruct (preencher_paths CWD) as (-> & -> & _).
Qed.


End Preencher.

(** ** The claims on the runs *)





(** ** More on the normaliser *)

Lemma is_substring_no_occ s : is_substring PAT s = negb (no_occ s).
Proof.
  induction s as [|c s IH]; [reflexivity|].
  cbn [is_substring no_occ]. rewrite IH.
  by destruct (starts_with PAT (c :: s)), (no_occ s).
Qed.

Lemma norm_str_spaced unicode_upper s :
  spaced (norm_str unicode_upper s) = true.
Proof.
  unfold norm_str.
  change (replace (lit "TH3 – OY") (lit "TH3 - OY") ?t) with (th3 t).
  apply spaced_th3, join_spaced, split_ws_words.
Qed.

(** X1. The result of [norm], and of [normalize_name], on a [str] has no
    whitespace at its ends, has its words separated by single spaces, and
    does not contain ["TH3 – OY"]: [n.strip() == n],
    [" ".join(n.split()) == n] and ["TH3 – OY" not in n]. *)
Theorem norm_output_shape (unicode_upper : N → pystr) (s : pystr) :
  ∃ n,
    UpdateStatus.norm unicode_upper (JStr s) = Ok n ∧
    PreencherMalhas.normalize_name unicode_upper (JStr s) = Ok n ∧
    strip n = n ∧
    join (lit " ") (split_ws n) = n ∧
    is_substring (lit "TH3 – OY") n = false.
Proof.
  exists (norm_str unicode_upper s).
  unfold UpdateStatus.norm, PreencherMalhas.normalize_name.
  rewrite norm_value_str. do 2 (split; [done|]).
  pose proof (norm_str_spaced unicode_upper s) as Hsp.
  split; [by apply spaced_strip|]. split; [by apply spaced_join_split|].
  change (lit "TH3 – OY") with PAT. rewrite is_substring_no_occ.
  unfold norm_str.
  change (replace (lit "TH3 – OY") (lit "TH3 - OY") ?t) with (th3 t).
  by rewrite th3_no_occ.
Qed.

Lemma lstrip_blank ws s : blank ws → lstrip (ws ++ s) = lstrip s.
Proof.
  induction 1 as [|c ws Hc _ IH]; [done|]. cbn [app lstrip]. by rewrite Hc.
Qed.

Lemma lstrip_all_blank ws : blank ws → lstrip ws = [].
Proof.
  intros H. rewrite <-(app_nil_r ws). by rewrite lstrip_blank.
Qed.

Lemma lstrip_app_nonblank s t : lstrip s ≠ [] → lstrip (s ++ t) = lstrip s ++ t.
Proof.
  induction s as [|c s IH]; [done|]. cbn [app lstrip].
  destruct (isspace c); [apply IH|done].
Qed.

Lemma lstrip_nil_blank s : lstrip s = [] → blank s.
Proof.
  induction s as [|c s IH]; [constructor|]. cbn [lstrip].
  destruct (isspace c) eqn:Hc; [|done]. intros H. constructor; [done|by apply IH].
Qed.

Lemma blank_rev ws : blank ws → blank (rev ws).
Proof. unfold blank. intros H. by apply Forall_rev. Qed.

Lemma rstrip_blank s ws : blank ws → rstrip (s ++ ws) = rstrip s.
Proof.
  intros H. unfold rstrip. rewrite rev_app_distr.
  by rewrite lstrip_blank by by apply blank_rev.
Qed.

Lemma strip_blank_around ws1 s ws2 :
  blank ws1 → blank ws2 → strip (ws1 ++ s ++ ws2) = strip s.
Proof.
  intros H1 H2. unfold strip. rewrite lstrip_blank by done.
  destruct (lstrip s) as [|c t] eqn:E.
  - apply lstrip_nil_blank in E.
    rewrite lstrip_all_blank; [done|]. apply Forall_app. by split.
  - rewrite lstrip_app_nonblank by by rewrite E.
    rewrite E. by apply rstrip_blank.
Qed.

(** X2. [norm] and [normalize_name] ignore the whitespace around a name:
    a [str] with whitespace added before and after it has the same
    normal form; a [str] of whitespace only, like the empty one, has the
    empty normal form. *)
Theorem norm_ignores_outer_space (unicode_upper : N → pystr)
    (ws1 s ws2 : pystr) :
  blank ws1 → blank ws2 →
  UpdateStatus.norm unicode_upper (JStr (ws1 ++ s ++ ws2))
    = UpdateStatus.norm unicode_upper (JStr s) ∧
  PreencherMalhas.normalize_name unicode_upper (JStr (ws1 ++ s ++ ws2))
    = PreencherMalhas.normalize_name unicode_upper (JStr s) ∧
  UpdateStatus.norm unicode_upper (JStr ws1) = Ok [].
Proof.
  intros H1 H2.
  unfold UpdateStatus.norm, PreencherMalhas.normalize_name.
  rewrite !norm_value_str. unfold norm_str.
  rewrite strip_blank_around by done. do 2 (split; [done|]).
  assert (strip ws1 = []) as ->; [|reflexivity].
  unfold strip. by rewrite lstrip_all_blank.
Qed.

Lemma norm_ignores_outer_space_witness :
  UpdateStatus.norm upper_id (str "  cma pf ")
  = UpdateStatus.norm upper_id (str "cma pf")
  ∧ UpdateStatus.norm upper_id (str "   ") = Ok [].
Proof.
  destruct (norm_ignores_outer_space upper_id (lit "  ") (lit "cma pf") (lit " "))
    as (H & _ & _); [by repeat constructor..|].
  destruct (norm_ignores_outer_space upper_id (lit "   ") [] [])
    as (_ & _ & H0); [by repeat constructor..|].
  split; [exact H|exact H0].
Defined.

(** X3. [norm] and [normalize_name] on a value that is not a [str]: a
    false value ([None], [0], [False], an empty list or dict) is read as
    the empty [str] and gives the empty name; a true value has no
    [strip], and the call raises [AttributeError]. *)
Theorem norm_of_non_str (unicode_upper : N → pystr) (v : json) :
  is_str v = false →
  UpdateStatus.norm unicode_upper v
    = (if truthy v then Raise AttributeError else Ok []) ∧
  PreencherMalhas.normalize_name unicode_upper v
    = UpdateStatus.norm unicode_upper v.
Proof.
  intros Hv. split; [|reflexivity].
  unfold UpdateStatus.norm, norm_value, py_or.
  destruct v as [|b|z|s|l|o]; try done; cbn [truthy].
  - by destruct b.
  - by destruct (negb (z =? 0)%Z).
  - by destruct l.
  - by destruct o.
Qed.

Lemma norm_of_non_str_witness :
  UpdateStatus.norm upper_id JNull = Ok []
  ∧ UpdateStatus.norm upper_id (JNum 7) = Raise AttributeError.
Proof.
  split.
  - apply (norm_of_non_str upper_id JNull eq_refl).
  - apply (norm_of_non_str upper_id (JNum 7) eq_refl).
Defined.

(** ** More on the sort *)

Section SortMore.
Context {A K : Type} `{EqDecision K} (lt : K → K → bool).
Hypothesis lt_irrefl : ∀ a, lt a a = false.

(** A sorted list is left as it is. *)
Lemma sort_decorated_sorted_id (l : list (K * A)) :
  StronglySorted (key_le lt) l → sort_decorated lt l = l.
Proof.
  induction 1 as [|x l Hl IH Hx]; [done|].
  cbn [sort_decorated foldr]. fold (sort_decorated lt l). rewrite IH.
  destruct l as [|y l']; [done|]. cbn [insert_by].
  apply Forall_cons in Hx as [Hxy _]. unfold key_le in Hxy. by rewrite Hxy.
Qed.

(** The elements of one key keep their order. *)
Lemma insert_by_filter k (x : K * A) l :
  filter (fun y => y.1 = k) (insert_by lt x l)
  = filter (fun y => y.1 = k) (x :: l).
Proof.
  induction l as [|y l IH]; [done|]. cbn [insert_by].
  destruct (lt y.1 x.1) eqn:Hyx; [|done].
  rewrite filter_cons, IH.
  destruct (decide (y.1 = k)) as [Hy|Hy].
  - assert (x.1 ≠ k) as Hx.
    { intros Hx. rewrite Hy, Hx in Hyx. by rewrite lt_irrefl in Hyx. }
    rewrite (filter_cons_False _ x) by done.
    rewrite (filter_cons_False _ x) by done.
    by rewrite filter_cons_True by done.
  - rewrite !(filter_cons _ x). destruct (decide (x.1 = k)).
    + by rewrite (filter_cons_False _ y) by done.
    + by rewrite (filter_cons_False _ y) by done.
Qed.

Lemma sort_decorated_filter k (l : list (K * A)) :
  filter (fun y => y.1 = k) (sort_decorated lt l)
  = filter (fun y => y.1 = k) l.
Proof.
  induction l as [|x l IH]; [done|].
  cbn [sort_decorated foldr]. fold (sort_decorated lt l).
  rewrite insert_by_filter, !filter_cons. by rewrite IH.
Qed.

Lemma decorate_inv (key : A → res K) l ks :
  res_map (fun x => k ← key x; Ok (k, x)) l = Ok ks →
  ks.*2 = l ∧ Forall (fun kx => key kx.2 = Ok kx.1) ks.
Proof.
  rewrite res_map_ok.
  induction 1 as [|x kx l ks H _ [IH1 IH2]]; [done|].
  apply res_bind_ok in H as (k & Hk & [= <-]). cbn. split; [by f_equal|].
  by constructor.
Qed.

Lemma decorate_decorated (key : A → res K) (ks : list (K * A)) :
  Forall (fun kx => key kx.2 = Ok kx.1) ks →
  res_map (fun x => k ← key x; Ok (k, x)) ks.*2 = Ok ks.
Proof.
  induction 1 as [|[k x] ks H _ IH]; [done|].
  cbn [fmap list_fmap res_map snd]. cbn [fst snd] in H. rewrite H. res_simpl.
  change (list_fmap _ _ snd ks) with (ks.*2). rewrite IH. done.
Qed.

End SortMore.

Section SortCatalogoMore.
Variable unicode_upper : N → pystr.
Local Abbreviation sort_catalogo := (sort_catalogo unicode_upper).
Local Abbreviation catalogo_key := (catalogo_key unicode_upper).
Local Abbreviation has_key := (has_key unicode_upper).

Lemma sort_catalogo_inv catalogo out :
  sort_catalogo catalogo = Ok out →
  ∃ cs ks,
    py_iter catalogo = Ok cs ∧ ks.*2 = cs ∧
    Forall (fun kx => catalogo_key kx.2 = Ok kx.1) ks ∧
    out = (sort_decorated key_lt ks).*2.
Proof.
  unfold UpdateStatus.sort_catalogo, py_sorted. intros H.
  apply res_bind_ok in H as (cs & Hcs & H).
  apply res_bind_ok in H as (ks & Hks & [= <-]).
  apply decorate_inv in Hks as [Hl Hkeys]. by exists cs, ks.
Qed.

Lemma has_key_filter k (ks : list (sort_key * json)) :
  Forall (fun kx => catalogo_key kx.2 = Ok kx.1) ks →
  filter (fun c => has_key k c = true) ks.*2
  = (filter (fun kx => kx.1 = k) ks).*2.
Proof.
  induction 1 as [|[k' c] ks H _ IH]; [done|]. cbn [fst snd] in H.
  cbn [fmap list_fmap snd]. change (list_fmap _ _ snd ks) with (ks.*2).
  assert (has_key k c = bool_decide (k' = k)) as Hk.
  { unfold has_key. by rewrite H. }
  destruct (decide (k' = k)) as [->|Hne].
  - rewrite filter_cons_True by (rewrite Hk; by apply bool_decide_eq_true).
    rewrite (filter_cons_True _ (k, c)) by done. cbn [fmap list_fmap snd].
    by rewrite IH.
  - rewrite filter_cons_False
      by (rewrite Hk; by rewrite bool_decide_false by done).
    rewrite (filter_cons_False _ (k', c)) by done. by rewrite IH.
Qed.

End SortCatalogoMore.

(** X4. [sort_catalogo] of a catalog that is already in its order
    returns it unchanged: sorting twice is sorting once. *)
Theorem sort_catalogo_idempotent (unicode_upper : N → pystr) catalogo out :
  sort_catalogo unicode_upper catalogo = Ok out →
  sort_catalogo unicode_upper (JArr out) = Ok out ∧
  PreencherMalhas.sort_catalogo unicode_upper (JArr out) = Ok out.
Proof.
  intros (cs & ks & _ & _ & Hkeys & ->)%sort_catalogo_inv.
  assert (sort_catalogo unicode_upper (JArr (sort_decorated key_lt ks).*2)
          = Ok (sort_decorated key_lt ks).*2) as H; [|by split].
  unfold sort_catalogo, py_sorted. cbn [py_iter]. res_simpl.
  rewrite (decorate_decorated (catalogo_key unicode_upper)).
  - res_simpl. f_equal. f_equal. apply sort_decorated_sorted_id.
    apply sort_decorated_sorted; [apply key_lt_asym|apply key_lt_neg_trans].
  - by rewrite sort_decorated_perm.
Qed.

Lemma sort_catalogo_idempotent_witness :
  ∃ out,
    sort_catalogo upper_id (JArr ex_catalogo) = Ok out ∧
    sort_catalogo upper_id (JArr out) = Ok out.
Proof.
  eexists. split; [vm_compute; reflexivity|].
  apply (sort_catalogo_idempotent upper_id (JArr ex_catalogo)).
  vm_compute. reflexivity.
Defined.

(** X5. [sort_catalogo] is stable: the operations that have the same
    sort key (the same ranks of category and of name, and the same
    normalised name) come out in the order in which the catalog has
    them. *)
Theorem sort_catalogo_stable (unicode_upper : N → pystr) catalogo cs out
    (k : sort_key) :
  py_iter catalogo = Ok cs →
  sort_catalogo unicode_upper catalogo = Ok out →
  filter (fun c => has_key unicode_upper k c = true) out
  = filter (fun c => has_key unicode_upper k c = true) cs.
Proof.
  intros Hcs (cs' & ks & Hcs' & Hl & Hkeys & ->)%sort_catalogo_inv.
  rewrite Hcs in Hcs'. injection Hcs' as <-. subst cs.
  rewrite !has_key_filter; [|done|by rewrite sort_decorated_perm].
  f_equal. apply sort_decorated_filter, key_lt_irrefl.
Qed.

Lemma sort_catalogo_stable_witness :
  ∃ out,
    sort_catalogo upper_id
      (JArr [ex_malha "2" "cma" "Rotativos"; ex_malha "p" "RX" "Parcelados";
             ex_malha "1" "CMA " "Rotativos"]) = Ok out ∧
    filter (fun c => has_key upper_id (0, 3, lit "CMA")%Z c = true) out
    = [ex_malha "2" "cma" "Rotativos"; ex_malha "1" "CMA " "Rotativos"].
Proof.
  eexists. split; [vm_compute; reflexivity|].
  rewrite (sort_catalogo_stable upper_id
             (JArr [ex_malha "2" "cma" "Rotativos"; ex_malha "p" "RX" "Parcelados";
                    ex_malha "1" "CMA " "Rotativos"])
             [ex_malha "2" "cma" "Rotativos"; ex_malha "p" "RX" "Parcelados";
              ex_malha "1" "CMA " "Rotativos"] _ (0, 3, lit "CMA")%Z eq_refl).
  - vm_compute. reflexivity.
  - vm_compute. reflexivity.
Defined.

(** ** [ensure_day] *)

Lemma py_eq_str_refl s : py_eq (JStr s) (JStr s) = true.
Proof. cbn. by apply bool_decide_eq_true. Qed.

Lemma dict_set_same {V} k (v : V) d :
  dict_lookup k d = Some v → dict_set k v d = d.
Proof.
  induction d as [|[k' v'] d IH]; [done|]. cbn [dict_lookup dict_set].
  destruct (py_eq k' k); [by intros [= ->]|]. intros H. by rewrite IH.
Qed.

Lemma ensure_day_cases d s :
  UpdateStatus.ensure_day (JObj d) (JStr s) =
    match dict_lookup (str "dias") d with
    | Some (JObj dias) =>
        match dict_lookup (JStr s) dias with
        | Some _ => Ok (JObj d)
        | None =>
            Ok (JObj (dict_set (str "dias")
                        (JObj (dict_set (JStr s) UpdateStatus.empty_day dias)) d))
        end
    | None =>
        Ok (JObj (dict_set (str "dias") (JObj [(JStr s, UpdateStatus.empty_day)])
                    (dict_set (str "dias") (JObj []) d)))
    | Some _ => UpdateStatus.ensure_day (JObj d) (JStr s)
    end.
Proof.
  destruct (dict_lookup (str "dias") d) as [[| | | | |dias]|] eqn:Ed; try done.
  - unfold UpdateStatus.ensure_day, py_setdefault. rewrite hashable_str, Ed.
    res_simpl. unfold py_getitem. rewrite hashable_str, Ed. res_simpl.
    unfold py_contains. cbn [hashable]. res_simpl.
    destruct (dict_lookup (JStr s) dias) as [o|].
    + by rewrite bool_decide_true by eauto.
    + rewrite bool_decide_false by (by intros [? ?]).
      unfold py_setitem. cbn [hashable]. res_simpl. by rewrite hashable_str.
  - unfold UpdateStatus.ensure_day, py_setdefault. rewrite hashable_str, Ed.
    res_simpl. unfold py_getitem. rewrite hashable_str.
    rewrite dict_lookup_set_eq by apply py_eq_str_refl. res_simpl.
    unfold py_contains. cbn [hashable dict_lookup]. res_simpl.
    rewrite bool_decide_false by (by intros [? ?]).
    unfold py_setitem. cbn [hashable]. res_simpl. by rewrite hashable_str.
Qed.

Lemma day_of_obj d dias day :
  dict_lookup (str "dias") d = Some (JObj dias) →
  day_of (JObj d) (JStr day)
  = match dict_lookup (JStr day) dias with
    | Some o => Ok o
    | None => Raise KeyError
    end.
Proof.
  intros H. unfold day_of, py_getitem. rewrite hashable_str, H. res_simpl.
  done.
Qed.

Lemma day_of_no_dias d day :
  dict_lookup (str "dias") d = None → day_of (JObj d) day = Raise KeyError.
Proof. intros H. unfold day_of, py_getitem. by rewrite hashable_str, H. Qed.

(** [ensure_day] on a store whose [dias] is an object or is missing. *)
Lemma ensure_day_days (data : json) (s : pystr) :
  dias_ok data = true →
  ∃ data',
    UpdateStatus.ensure_day data (JStr s) = Ok data' ∧
    PreencherMalhas.ensure_day data (JStr s) = Ok data' ∧
    day_of data' (JStr s)
      = Ok (match day_of data (JStr s) with
            | Ok o => o
            | Raise _ => UpdateStatus.empty_day
            end) ∧
    (∀ s', s' ≠ s → day_of data' (JStr s') = day_of data (JStr s')) ∧
    (∀ k : string, lit k ≠ lit "dias" → field k data' = field k data) ∧
    UpdateStatus.ensure_day data' (JStr s) = Ok data'.
Proof.
  unfold dias_ok. intros [Hobj Hdias]%andb_true_iff.
  destruct data as [| | | | |d]; try done. unfold field in Hdias.
  change (PreencherMalhas.ensure_day (JObj d) (JStr s))
    with (UpdateStatus.ensure_day (JObj d) (JStr s)).
  rewrite (ensure_day_cases d s).
  destruct (dict_lookup (str "dias") d) as [[| | | | |dias]|] eqn:Ed; try done.
  - destruct (dict_lookup (JStr s) dias) as [o|] eqn:Es.
    + exists (JObj d). do 2 (split; [done|]).
      rewrite (day_of_obj _ _ _ Ed), Es. split; [done|]. split; [done|].
      split; [done|]. by rewrite ensure_day_cases, Ed, Es.
    + eexists. do 2 (split; [done|]).
      assert (dict_lookup (str "dias")
                (dict_set (str "dias")
                   (JObj (dict_set (JStr s) UpdateStatus.empty_day dias)) d)
              = Some (JObj (dict_set (JStr s) UpdateStatus.empty_day dias)))
        as Hnew by (apply dict_lookup_set_eq, py_eq_str_refl).
      rewrite (day_of_obj _ _ _ Hnew), (day_of_obj _ _ _ Ed), Es.
      rewrite dict_lookup_set_eq by apply py_eq_str_refl.
      split; [done|]. split; [|split].
      * intros s' Hs'. rewrite (day_of_obj _ _ _ Hnew), (day_of_obj _ _ _ Ed).
        by rewrite dict_lookup_set_str by done.
      * intros k Hk. by apply field_set_ne.
      * rewrite ensure_day_cases, Hnew.
        by rewrite dict_lookup_set_eq by apply py_eq_str_refl.
  - eexists. do 2 (split; [done|]).
    assert (dict_lookup (str "dias")
              (dict_set (str "dias") (JObj [(JStr s, UpdateStatus.empty_day)])
                 (dict_set (str "dias") (JObj []) d))
            = Some (JObj [(JStr s, UpdateStatus.empty_day)]))
      as Hnew by (apply dict_lookup_set_eq, py_eq_str_refl).
    rewrite (day_of_obj _ _ _ Hnew), (day_of_no_dias _ _ Ed).
    cbn [dict_lookup]. rewrite py_eq_str_refl.
    split; [done|]. split; [|split].
    * intros s' Hs'. rewrite (day_of_obj _ _ _ Hnew), (day_of_no_dias _ _ Ed).
      cbn [dict_lookup py_eq]. by rewrite bool_decide_false by done.
    * intros k Hk. rewrite field_set_ne by done. by apply field_set_ne.
    * rewrite ensure_day_cases, Hnew. cbn [dict_lookup].
      by rewrite py_eq_str_refl.
Qed.

(** X6. [ensure_day], on a store whose [dias] is an object or is missing
    and for a day that is a [str], returns; afterwards the day has an
    object, the one it had or [{"updatedAt": "", "itens": []}]; the
    other days and the other keys of the store are what they were; and a
    second call changes nothing.  The two scripts have the same
    [ensure_day]. *)
Theorem ensure_day_keeps_days (data : json) (s : pystr) :
  dias_ok data = true →
  ∃ data',
    UpdateStatus.ensure_day data (JStr s) = Ok data' ∧
    PreencherMalhas.ensure_day data (JStr s) = Ok data' ∧
    day_of data' (JStr s)
      = Ok (match day_of data (JStr s) with
            | Ok o => o
            | Raise _ => UpdateStatus.empty_day
            end) ∧
    (∀ s', s' ≠ s → day_of data' (JStr s') = day_of data (JStr s')) ∧
    (∀ k : string, lit k ≠ lit "dias" → field k data' = field k data) ∧
    UpdateStatus.ensure_day data' (JStr s) = Ok data'.
Proof.
  intros Hok.
  destruct (ensure_day_days data s Hok)
    as (data' & Hu & Hp & Hday & Hother & Hkeys & Hagain).
  exists data'. split; [exact Hu|]. split; [exact Hp|].
  split; [exact Hday|]. split; [exact Hother|]. split; [exact Hkeys|].
  exact Hagain.
Qed.

Lemma ensure_day_keeps_days_witness :
  ∃ data',
    UpdateStatus.ensure_day (ex_store [ex_foo]) ex_day = Ok data' ∧
    day_of data' ex_day = Ok UpdateStatus.empty_day ∧
    field "catalogo_malhas" data' = Some (JArr [ex_foo]).
Proof.
  destruct (ensure_day_keeps_days (ex_store [ex_foo]) (lit "2026-01-10") eq_refl)
    as (data' & H1 & _ & H2 & _ & H3 & _).
  exists data'. split; [exact H1|]. split; [exact H2|].
  rewrite (H3 "catalogo_malhas"%string); [reflexivity|].
  intros E. vm_compute in E. discriminate E.
Defined.

(** ** The store around the reconciled day *)

Lemma lit_updatedAt_itens : lit "updatedAt" ≠ lit "itens".
Proof. intros E. vm_compute in E. discriminate E. Qed.

Lemma py_getitem_str_ok o s v :
  py_getitem o (JStr s) = Ok v →
  ∃ d, o = JObj d ∧ dict_lookup (JStr s) d = Some v.
Proof.
  destruct o as [| | |t|l|d]; cbn; try (intros E; discriminate E).
  destruct (dict_lookup (JStr s) d) as [x|] eqn:E; [|done].
  intros [= <-]. eauto.
Qed.

Lemma py_setitem_str_ok o s v o' :
  py_setitem o (JStr s) v = Ok o' →
  ∃ d, o = JObj d ∧ o' = JObj (dict_set (JStr s) v d).
Proof.
  destruct o as [| | |t|l|d]; cbn; try (intros E; discriminate E).
  intros [= <-]. eauto.
Qed.

Section Shape.
Variable unicode_upper : N → pystr.
Local Abbreviation merge_day := (merge_day unicode_upper).
Local Abbreviation final_itens := (final_itens unicode_upper).

(** What a run of the reconciliation is made of. *)
Lemma merge_day_shape data payload s clock data' :
  merge_day data payload (JStr s) clock = Ok data' ↔
  ∃ d1 ds o upd itens,
    ensure_day data (JStr s) = Ok (JObj d1) ∧
    dict_lookup (str "dias") d1 = Some (JObj ds) ∧
    dict_lookup (JStr s) ds = Some (JObj o) ∧
    py_get payload (str "updatedAt") JNull = Ok upd ∧
    final_itens (JObj d1) payload = Ok itens ∧
    data' = JObj (dict_set (str "dias")
                    (JObj (dict_set (JStr s)
                             (merged_day (py_or upd (JStr clock)) itens o) ds))
                    d1).
Proof.
  unfold UpdateStatus.merge_day, final_itens, merged_day. split.
  - intros H.
    apply res_bind_ok in H as (data1 & Hens & H).
    apply res_bind_ok in H as (dias & Hdias & H).
    apply res_bind_ok in H as (dia0 & Hdia0 & H).
    apply res_bind_ok in H as (upd & Hupd & H).
    apply res_bind_ok in H as (dia1 & Hdia1 & H).
    apply res_bind_ok in H as (its & Hits & H).
    apply res_bind_ok in H as (inc & Hinc & H).
    apply res_bind_ok in H as (sorted & Hsort & H).
    apply res_bind_ok in H as (itens & Hitens & H).
    apply res_bind_ok in H as (dia2 & Hdia2 & H).
    apply res_bind_ok in H as (dias' & Hdias' & H).
    apply py_getitem_str_ok in Hdias as (d1 & -> & Hd1).
    apply py_getitem_str_ok in Hdia0 as (ds & -> & Hds).
    apply py_setitem_str_ok in Hdia1 as (o & -> & ->).
    apply py_setitem_str_ok in Hdia2 as (o' & [= <-] & ->).
    apply py_setitem_str_ok in Hdias' as (ds' & [= <-] & ->).
    apply py_setitem_str_ok in H as (d1' & [= <-] & ->).
    exists d1, ds, o, upd, itens. do 4 (split; [done|]). split; [|done].
    rewrite Hits. res_simpl. rewrite Hinc. res_simpl. rewrite Hsort.
    res_simpl. done.
  - intros (d1 & ds & o & upd & itens & Hens & Hd1 & Hds & Hupd & Hit & ->).
    rewrite Hens. res_simpl.
    assert (py_getitem (JObj d1) (str "dias") = Ok (JObj ds)) as ->
      by (unfold py_getitem; by rewrite hashable_str, Hd1).
    res_simpl.
    assert (py_getitem (JObj ds) (JStr s) = Ok (JObj o)) as ->
      by (unfold py_getitem; cbn [hashable]; by rewrite Hds).
    res_simpl. rewrite Hupd. res_simpl.
    assert (py_setitem (JObj o) (str "updatedAt") (py_or upd (JStr clock))
            = Ok (JObj (dict_set (str "updatedAt") (py_or upd (JStr clock)) o)))
      as -> by (unfold py_setitem; by rewrite hashable_str).
    res_simpl.
    apply res_bind_ok in Hit as (its & Hits & Hit).
    apply res_bind_ok in Hit as (inc & Hinc & Hit).
    apply res_bind_ok in Hit as (sorted & Hsort & Hit).
    rewrite Hits. res_simpl. rewrite Hinc. res_simpl. rewrite Hsort.
    res_simpl. rewrite Hit. res_simpl.
    unfold py_setitem. by rewrite !hashable_str.
Qed.

Lemma final_itens_catalog d1 d2 payload :
  dict_lookup (str "catalogo_malhas") d1 = dict_lookup (str "catalogo_malhas") d2 →
  final_itens (JObj d1) payload = final_itens (JObj d2) payload.
Proof.
  intros H. unfold final_itens, py_get. by rewrite hashable_str, H.
Qed.

End Shape.

(** A store that [ensure_day] and the two reads after it accept has an
    object, or nothing, under [dias]. *)
Lemma ensure_day_ok_dias data s d1 ds :
  ensure_day data (JStr s) = Ok (JObj d1) →
  dict_lookup (str "dias") d1 = Some (JObj ds) →
  dias_ok data = true.
Proof.
  intros Hens Hd1. pose proof (ensure_day_inv _ _ _ Hens) as (Hobj & _ & _).
  destruct data as [| | | | |d]; try done. unfold dias_ok. cbn [is_obj andb].
  unfold field. destruct (dict_lookup (str "dias") d) as [v|] eqn:Ed; [|done].
  destruct v as [|b|z|t|l|dias]; try done; exfalso;
    unfold ensure_day, py_setdefault in Hens;
    rewrite hashable_str, Ed in Hens; res_simpl in Hens;
    unfold py_getitem in Hens; rewrite hashable_str, Ed in Hens;
    res_simpl in Hens; try done.
  - cbn [py_contains] in Hens. res_simpl in Hens.
    destruct (is_substring s t); [|done].
    injection Hens as <-. by rewrite Ed in Hd1.
  - cbn [py_contains] in Hens. res_simpl in Hens.
    destruct (existsb (py_eq (JStr s)) l); [|done].
    injection Hens as <-. by rewrite Ed in Hd1.
Qed.

(** X7. The reconciliation of a day, a [str], changes nothing else in
    the store: the keys of the store other than [dias], the catalog among
    them, the other days, and the keys of the object of the day other
    than [updatedAt] and [itens] are what they were. *)
Theorem merge_day_frame (unicode_upper : N → pystr) data payload s clock data' :
  merge_day unicode_upper data payload (JStr s) clock = Ok data' →
  (∀ k : string, lit k ≠ lit "dias" → field k data' = field k data) ∧
  (∀ s', s' ≠ s → day_of data' (JStr s') = day_of data (JStr s')) ∧
  (∀ dia dia' (k : string),
     day_of data (JStr s) = Ok dia → day_of data' (JStr s) = Ok dia' →
     lit k ≠ lit "updatedAt" → lit k ≠ lit "itens" →
     field k dia' = field k dia).
Proof.
  intros (d1 & ds & o & upd & itens & Hens & Hd1 & Hds & Hupd & Hit & ->)
           %merge_day_shape.
  pose proof (ensure_day_ok_dias _ _ _ _ Hens Hd1) as Hok.
  destruct (ensure_day_days data s Hok)
    as (data1 & Hens' & _ & Hday & Hother & Hkeys & _).
  rewrite Hens in Hens'. injection Hens' as <-.
  set (dia2 := merged_day (py_or upd (JStr clock)) itens o).
  assert (dict_lookup (str "dias")
            (dict_set (str "dias") (JObj (dict_set (JStr s) dia2 ds)) d1)
          = Some (JObj (dict_set (JStr s) dia2 ds))) as Hnew
    by (apply dict_lookup_set_eq, py_eq_str_refl).
  split; [|split].
  - intros k Hk. rewrite <-(Hkeys k Hk). by apply field_set_ne.
  - intros s' Hs'. rewrite <-(Hother s' Hs').
    rewrite (day_of_obj _ _ _ Hnew), (day_of_obj _ _ _ Hd1).
    by rewrite dict_lookup_set_str by done.
  - intros dia dia' k Hdia Hdia' Hk1 Hk2.
    rewrite (day_of_obj _ _ _ Hnew) in Hdia'.
    rewrite dict_lookup_set_eq in Hdia' by apply py_eq_str_refl.
    injection Hdia' as <-.
    rewrite (day_of_obj _ _ _ Hd1), Hds in Hday. rewrite Hdia in Hday.
    injection Hday as <-. subst dia2. unfold merged_day.
    rewrite field_set_ne by (by apply not_eq_sym).
    by rewrite field_set_ne by (by apply not_eq_sym).
Qed.

Lemma merge_day_frame_witness :
  ∃ data',
    merge_day upper_id (ex_store [ex_foo]) (ex_payload [ex_foo_item])
      ex_day ex_clock = Ok data' ∧
    field "catalogo_malhas" data' = Some (JArr [ex_foo]) ∧
    day_of data' (str "2026-01-09") = Raise KeyError.
Proof.
  eexists. split; [vm_compute; reflexivity|].
  destruct (merge_day_frame upper_id (ex_store [ex_foo])
              (ex_payload [ex_foo_item]) (lit "2026-01-10") ex_clock _
              ltac:(vm_compute; reflexivity)) as (Hkeys & Hdays & _).
  split.
  - rewrite (Hkeys "catalogo_malhas"%string); [reflexivity|].
    intros E. vm_compute in E. discriminate E.
  - unfold str. rewrite (Hdays (lit "2026-01-09")); [reflexivity|].
    intros E. vm_compute in E. discriminate E.
Defined.

(** X8. After the reconciliation the day carries as [updatedAt] the
    [updatedAt] of the payload when the payload has one that is not empty,
    and otherwise the time of the run; and as [itens] the records of the
    run. *)
Theorem merge_day_updatedAt (unicode_upper : N → pystr)
    data payload s clock data' upd :
  merge_day unicode_upper data payload (JStr s) clock = Ok data' →
  py_get payload (str "updatedAt") JNull = Ok upd →
  ∃ dia itens,
    day_of data' (JStr s) = Ok dia ∧
    field "updatedAt" dia = Some (if truthy upd then upd else JStr clock) ∧
    day_itens data' (JStr s) = Ok itens ∧
    field "itens" dia = Some (JArr itens).
Proof.
  intros (d1 & ds & o & upd' & itens & Hens & Hd1 & Hds & Hupd & Hit & ->)
           %merge_day_shape Hupd'.
  rewrite Hupd in Hupd'. injection Hupd' as ->.
  set (dia2 := merged_day (py_or upd (JStr clock)) itens o).
  assert (dict_lookup (str "dias")
            (dict_set (str "dias") (JObj (dict_set (JStr s) dia2 ds)) d1)
          = Some (JObj (dict_set (JStr s) dia2 ds))) as Hnew
    by (apply dict_lookup_set_eq, py_eq_str_refl).
  assert (field "itens" dia2 = Some (JArr itens)) as Hitens.
  { unfold field, dia2, merged_day. apply dict_lookup_set_eq, py_eq_str_refl. }
  exists dia2, itens. split; [|split; [|split; [|done]]].
  - rewrite (day_of_obj _ _ _ Hnew).
    by rewrite dict_lookup_set_eq by apply py_eq_str_refl.
  - unfold dia2, merged_day. rewrite field_set_ne by apply not_eq_sym, lit_updatedAt_itens.
    unfold field. apply dict_lookup_set_eq, py_eq_str_refl.
  - unfold day_itens.
    assert (py_getitem
              (JObj (dict_set (str "dias") (JObj (dict_set (JStr s) dia2 ds)) d1))
              (str "dias") = Ok (JObj (dict_set (JStr s) dia2 ds))) as ->
      by (unfold py_getitem; by rewrite hashable_str, Hnew).
    res_simpl.
    assert (py_getitem (JObj (dict_set (JStr s) dia2 ds)) (JStr s) = Ok dia2)
      as -> by (unfold py_getitem; cbn [hashable];
                by rewrite dict_lookup_set_eq by apply py_eq_str_refl).
    res_simpl. unfold py_getitem, dia2, merged_day. rewrite hashable_str.
    by rewrite dict_lookup_set_eq by apply py_eq_str_refl.
Qed.

Lemma merge_day_updatedAt_witness :
  ∃ data' dia,
    merge_day upper_id (ex_store [ex_foo]) (ex_payload [ex_foo_item])
      ex_day ex_clock = Ok data' ∧
    day_of data' ex_day = Ok dia ∧
    field "updatedAt" dia = Some (JStr ex_clock).
Proof.
  eexists.
  destruct (merge_day_updatedAt upper_id (ex_store [ex_foo])
              (ex_payload [ex_foo_item]) (lit "2026-01-10") ex_clock _ JNull
              ltac:(vm_compute; reflexivity) eq_refl)
    as (dia & itens & Hdia & Hupd & _).
  exists dia. split; [vm_compute; reflexivity|]. split; [exact Hdia|exact Hupd].
Defined.

(** X9. Running the reconciliation again, on the store it returned and
    with the same payload, day and time, returns that store: the update is
    idempotent. *)
Theorem merge_day_idempotent (unicode_upper : N → pystr)
    data payload s clock data' :
  merge_day unicode_upper data payload (JStr s) clock = Ok data' →
  merge_day unicode_upper data' payload (JStr s) clock = Ok data'.
Proof.
  intros (d1 & ds & o & upd & itens & Hens & Hd1 & Hds & Hupd & Hit & ->)
           %merge_day_shape.
  set (dia2 := merged_day (py_or upd (JStr clock)) itens o).
  set (ds' := dict_set (JStr s) dia2 ds).
  set (d' := dict_set (str "dias") (JObj ds') d1).
  assert (dict_lookup (str "dias") d' = Some (JObj ds')) as Hnew
    by (apply dict_lookup_set_eq, py_eq_str_refl).
  assert (dict_lookup (JStr s) ds' = Some dia2) as Hs
    by (apply dict_lookup_set_eq, py_eq_str_refl).
  apply merge_day_shape.
  exists d', ds',
    (dict_set (str "itens") (JArr itens)
       (dict_set (str "updatedAt") (py_or upd (JStr clock)) o)),
    upd, itens.
  split. { rewrite ensure_day_cases, Hnew. by rewrite Hs. }
  split; [done|]. split; [done|]. split; [done|]. split.
  - rewrite <-Hit. apply final_itens_catalog.
    apply (field_set_ne "dias" "catalogo_malhas" (JObj ds') d1).
    apply lit_dias_catalogo.
  - unfold merged_day at 1.
    rewrite (dict_set_same (str "updatedAt")).
    + rewrite (dict_set_same (str "itens"))
        by (apply dict_lookup_set_eq, py_eq_str_refl).
      fold (merged_day (py_or upd (JStr clock)) itens o). fold dia2.
      rewrite (dict_set_same (JStr s) dia2 ds') by done.
      by rewrite (dict_set_same (str "dias") (JObj ds') d') by done.
    + pose proof (field_set_ne "itens" "updatedAt" (JArr itens)
                    (dict_set (str "updatedAt") (py_or upd (JStr clock)) o)
                    (not_eq_sym lit_updatedAt_itens)) as E.
      unfold field in E. rewrite E.
      apply dict_lookup_set_eq, py_eq_str_refl.
Qed.

Lemma merge_day_idempotent_witness :
  ∃ data',
    merge_day upper_id (ex_store [ex_foo]) (ex_payload [ex_foo_item])
      ex_day ex_clock = Ok data' ∧
    merge_day upper_id data' (ex_payload [ex_foo_item]) ex_day ex_clock
    = Ok data'.
Proof.
  eexists. split; [vm_compute; reflexivity|].
  apply (merge_day_idempotent upper_id (ex_store [ex_foo])
           (ex_payload [ex_foo_item]) (lit "2026-01-10") ex_clock).
  vm_compute. reflexivity.
Defined.

(** ** [split] on a separator, and [br_date] *)

Lemma split_on_nonempty sep s : split_on sep s ≠ [].
Proof.
  induction s as [|c s IH]; [done|]. cbn [split_on].
  destruct (c =? sep)%N; [done|]. by destruct (split_on sep s).
Qed.

(** [sep.join(s.split(sep)) == s] *)
Lemma join_split_on sep s : join [sep] (split_on sep s) = s.
Proof.
  induction s as [|c s IH]; [done|]. cbn [split_on].
  destruct (c =? sep)%N eqn:E.
  - apply N.eqb_eq in E as ->.
    rewrite join_cons by apply split_on_nonempty. by rewrite IH.
  - pose proof (split_on_nonempty sep s) as Hne.
    destruct (split_on sep s) as [|w ws]; [done|].
    destruct ws as [|w' ws'].
    + cbn [join] in *. by rewrite IH.
    + rewrite join_cons by done. rewrite join_cons in IH by done.
      cbn [app] in *. by f_equal.
Qed.

Lemma split_on_fields sep s :
  Forall (Forall (fun c => c ≠ sep)) (split_on sep s).
Proof.
  induction s as [|c s IH]; [by repeat constructor|]. cbn [split_on].
  destruct (c =? sep)%N eqn:E; [by constructor|].
  apply N.eqb_neq in E.
  destruct (split_on sep s) as [|w ws]; [by repeat constructor|].
  apply Forall_cons in IH as [Hw Hws]. constructor; [by constructor|done].
Qed.

Lemma split_on_length s :
  length (split_on 45 s) = S (hyphens s).
Proof.
  unfold hyphens. induction s as [|c s IH]; [done|]. cbn [split_on].
  destruct (c =? 45)%N eqn:E.
  - apply N.eqb_eq in E as ->. rewrite filter_cons_True by done.
    cbn [length]. by rewrite IH.
  - apply N.eqb_neq in E. rewrite filter_cons_False by done.
    pose proof (split_on_nonempty 45 s) as Hne.
    destruct (split_on 45 s) as [|w ws]; [done|]. by rewrite <-IH.
Qed.

(** X10. [br_date] returns exactly on the [str] that have two hyphens:
    the [str] is then [y-m-d] for three fields without hyphen, whatever
    they hold, and the result is [d/m/y]; with another number of hyphens
    the unpacking raises [ValueError], and a value that is not a [str]
    has no [split]. *)
Theorem br_date_spec (v : json) :
  (∀ s, v = JStr s → hyphens s = 2 →
        ∃ y m d,
          v = iso_date y m d ∧ no_hyphen y ∧ no_hyphen m ∧ no_hyphen d ∧
          PreencherMalhas.br_date v = Ok (d ++ lit "/" ++ m ++ lit "/" ++ y)) ∧
  (∀ s, v = JStr s → hyphens s ≠ 2 →
        PreencherMalhas.br_date v = Raise ValueError) ∧
  (is_str v = false → PreencherMalhas.br_date v = Raise AttributeError).
Proof.
  split; [|split].
  - intros s -> Hs.
    pose proof (split_on_length s) as Hlen.
    pose proof (join_split_on 45 s) as Hjoin.
    pose proof (split_on_fields 45 s) as Hf.
    destruct (split_on 45 s) as [|y [|m [|d [|x l]]]] eqn:E;
      cbn [length] in Hlen; try lia.
    apply Forall_cons in Hf as [Hy Hf]. apply Forall_cons in Hf as [Hm Hf].
    apply Forall_cons in Hf as [Hd _].
    exists y, m, d. split.
    { unfold iso_date. f_equal. by rewrite <-Hjoin. }
    do 3 (split; [done|]). unfold PreencherMalhas.br_date. by rewrite E.
  - intros s -> Hs. pose proof (split_on_length s) as Hlen.
    unfold PreencherMalhas.br_date.
    destruct (split_on 45 s) as [|y [|m [|d [|x l]]]]; cbn [length] in Hlen;
      try done. lia.
  - by destruct v.
Qed.

Lemma br_date_spec_witness :
  PreencherMalhas.br_date (str "2026-01-10") = Ok (lit "10/01/2026")
  ∧ PreencherMalhas.br_date (str "2026/01/10") = Raise ValueError
  ∧ PreencherMalhas.br_date JNull = Raise AttributeError.
Proof.
  split; [|split].
  - destruct (proj1 (br_date_spec (str "2026-01-10")) (lit "2026-01-10")
                eq_refl eq_refl) as (y & m & d & _ & _ & _ & _ & H).
    rewrite H. revert H. vm_compute. by intros [= ->].
  - apply (proj1 (proj2 (br_date_spec (str "2026/01/10"))) (lit "2026/01/10"));
      [reflexivity|]. vm_compute. lia.
  - apply (proj2 (proj2 (br_date_spec JNull))). reflexivity.
Defined.

(** ** The prompts *)

Section Rounds.
Context {A : Type} (prompt : list fpart) (body : pystr → A + list fpart).

(** The lines that are refused, then one that is accepted. *)
Lemma input_rounds_accept msg bads good a rest out :
  Forall (fun l => body l = inr msg) bads → body good = inl a →
  PreencherMalhas.input_rounds prompt body (bads ++ good :: rest) out
  = (Ok a, rest, out ++ refused prompt msg bads ++ [EPrompt prompt]).
Proof.
  intros Hbads Hgood. revert out.
  induction Hbads as [|l bads Hl _ IH]; intros out.
  - cbn [app PreencherMalhas.input_rounds refused flat_map]. by rewrite Hgood.
  - cbn [app PreencherMalhas.input_rounds]. rewrite Hl, IH.
    unfold refused. cbn [flat_map]. by rewrite <-!app_assoc.
Qed.

(** The lines that are refused, then the end of the input. *)
Lemma input_rounds_eof msg bads out :
  Forall (fun l => body l = inr msg) bads →
  PreencherMalhas.input_rounds prompt body bads out
  = (Raise EOFError, [], out ++ refused prompt msg bads ++ [EPrompt prompt]).
Proof.
  intros Hbads. revert out.
  induction Hbads as [|l bads Hl _ IH]; intros out; [done|].
  cbn [PreencherMalhas.input_rounds]. rewrite Hl, IH.
  unfold refused. cbn [flat_map]. by rewrite <-!app_assoc.
Qed.

(** A value that is returned was accepted, from a line of the input. *)
Lemma input_rounds_ok lines out a rest out' :
  PreencherMalhas.input_rounds prompt body lines out = (Ok a, rest, out') →
  ∃ bads l, lines = bads ++ l :: rest ∧ body l = inl a.
Proof.
  revert out. induction lines as [|l lines IH]; intros out; [done|].
  cbn [PreencherMalhas.input_rounds].
  destruct (body l) as [b|msg] eqn:E.
  - intros [= <- <- <-]. by exists [], l.
  - intros (bads & l' & -> & Hl')%IH. by exists (l :: bads), l'.
Qed.

Lemma input_loop_ok w a w' :
  PreencherMalhas.input_loop prompt body w = (Ok a, w') →
  files w' = files w ∧ clock w' = clock w ∧
  ∃ bads l, stdin w = bads ++ l :: stdin w' ∧ body l = inl a.
Proof.
  unfold PreencherMalhas.input_loop.
  destruct (PreencherMalhas.input_rounds prompt body (stdin w) (console w))
    as [[r rest] out] eqn:E.
  intros [= -> <-]. cbn [files clock stdin]. do 2 (split; [done|]).
  by apply input_rounds_ok in E.
Qed.

End Rounds.

(** X11. [prompt_date] asks again after every line that is neither blank
    nor accepted by [strptime], printing that the date is invalid, and
    returns at the first line that is blank, with the default, or
    accepted, with the line trimmed; it reads no further line.  When the
    input ends first, [input] raises [EOFError]. *)
Theorem prompt_date_loop (strptime_ok : pystr → bool) (dflt : json)
    (w : world) (bads : list pystr) :
  Forall (fun l => strip l ≠ [] ∧ strptime_ok (strip l) = false) bads →
  (∀ good rest,
     stdin w = bads ++ good :: rest →
     strip good = [] ∨ strptime_ok (strip good) = true →
     PreencherMalhas.prompt_date strptime_ok dflt w
     = (Ok (match strip good with [] => dflt | s => JStr s end),
        World (files w)
          (console w
           ++ refused (date_prompt dflt)
                [T (lit "Data inválida. Ex: 2026-01-10")] bads
           ++ [EPrompt (date_prompt dflt)])
          rest (clock w))) ∧
  (stdin w = bads →
   PreencherMalhas.prompt_date strptime_ok dflt w
   = (Raise EOFError,
      World (files w)
        (console w
         ++ refused (date_prompt dflt)
              [T (lit "Data inválida. Ex: 2026-01-10")] bads
         ++ [EPrompt (date_prompt dflt)])
        [] (clock w))).
Proof.
  intros Hbads.
  assert (Forall (fun l =>
            (fun l => match strip l with
                      | [] => inl dflt
                      | _ => if strptime_ok (strip l) then inl (JStr (strip l))
                             else inr [T (lit "Data inválida. Ex: 2026-01-10")]
                      end) l
            = inr [T (lit "Data inválida. Ex: 2026-01-10")]) bads) as Hb.
  { eapply Forall_impl; [exact Hbads|]. intros l [Hne Hno]. cbn beta.
    destruct (strip l); [done|]. by rewrite Hno. }
  split.
  - intros good rest Hin Hgood.
    unfold PreencherMalhas.prompt_date, PreencherMalhas.input_loop.
    rewrite Hin.
    erewrite (input_rounds_accept _ _ _ bads good); [reflexivity|exact Hb|].
    destruct (strip good) as [|c s]; [done|].
    destruct Hgood as [|Hgood]; [done|]. by rewrite Hgood.
  - intros Hin.
    unfold PreencherMalhas.prompt_date, PreencherMalhas.input_loop.
    rewrite Hin. by erewrite (input_rounds_eof _ _ _ bads).
Qed.

Lemma prompt_date_loop_witness :
  PreencherMalhas.prompt_date (fun s => bool_decide (length s = 10)) ex_day
    (World ∅ [] [lit "amanha"; lit " 2026-01-11 "; lit "x"] ex_clock)
  = (Ok (str "2026-01-11"),
     World ∅
       ([] ++ refused (date_prompt ex_day)
                [T (lit "Data inválida. Ex: 2026-01-10")] [lit "amanha"]
        ++ [EPrompt (date_prompt ex_day)])
       [lit "x"] ex_clock).
Proof.
  apply (proj1 (prompt_date_loop (fun s => bool_decide (length s = 10)) ex_day
                  (World ∅ [] [lit "amanha"; lit " 2026-01-11 "; lit "x"] ex_clock)
                  [lit "amanha"] ltac:(by repeat constructor))
           (lit " 2026-01-11 ") [lit "x"] eq_refl).
  right. reflexivity.
Defined.

Lemma status_choice s key emoji :
  dict_lookup (JStr s) PreencherMalhas.STATUS_MAP = Some (key, emoji) →
  (s = lit "0" ∧ key = JNull) ∨ is_status_code key = true.
Proof.
  unfold PreencherMalhas.STATUS_MAP, str. cbn [dict_lookup py_eq].
  repeat (case_bool_decide; [intros [= <- <-]; (by right) || (left; by subst)|]).
  done.
Qed.

Lemma print_run {A} line (k : M A) w :
  (print line ;; k) w = k (say w [EPrint line]).
Proof. reflexivity. Qed.

Lemma lift_run {A B} (r : res A) (k : A → M B) w :
  (lift r ≫= k) w
  = match r with Ok a => k a w | Raise e => (Raise e, w) end.
Proof. by destruct r. Qed.

Lemma say_files w evs : files (say w evs) = files w.
Proof. reflexivity. Qed.

Lemma say_clock w evs : clock (say w evs) = clock w.
Proof. reflexivity. Qed.

Lemma say_stdin w evs : stdin (say w evs) = stdin w.
Proof. reflexivity. Qed.

(** X12. The status [prompt_status] returns is the current one, which
    the choice [0] keeps, or one of the seven status codes; the files and
    the clock are not touched, and the lines read are a prefix of the
    input that ends with the accepted choice. *)
Theorem prompt_status_result (current_key : json) (w w' : world) (k : json) :
  PreencherMalhas.prompt_status current_key w = (Ok k, w') →
  (k = current_key ∨ is_status_code k = true) ∧
  files w' = files w ∧ clock w' = clock w ∧
  ∃ bads choice, stdin w = bads ++ choice :: stdin w'.
Proof.
  unfold PreencherMalhas.prompt_status. rewrite !print_run, lift_run.
  destruct (py_get PreencherMalhas.STATUS_LABEL current_key current_key)
    as [label|e]; [|done].
  intros (Hf & Hc & bads & l & Hin & Hl)%input_loop_ok.
  rewrite !say_files in Hf. rewrite !say_clock in Hc.
  rewrite !say_stdin in Hin. split; [|eauto].
  destruct (dict_lookup (JStr (strip l)) PreencherMalhas.STATUS_MAP)
    as [[key emoji]|] eqn:E; [|done].
  injection Hl as <-.
  apply status_choice in E as [[_ ->]|Hcode]; [by left|].
  right. by destruct key.
Qed.

Lemma prompt_status_result_witness :
  ∃ w',
    PreencherMalhas.prompt_status (str "exec")
      (World ∅ [] [lit "9"; lit " 4 "; lit "s"] ex_clock) = (Ok (str "abend"), w')
    ∧ stdin w' = [lit "s"].
Proof.
  eexists. split; [vm_compute; reflexivity|].
  destruct (prompt_status_result (str "exec")
              (World ∅ [] [lit "9"; lit " 4 "; lit "s"] ex_clock) _ (str "abend")
              ltac:(vm_compute; reflexivity)) as (_ & _ & _ & _).
  reflexivity.
Defined.

(** X13. [prompt_yesno] returns at the first line that, trimmed and in
    lower case, is empty, and then returns the default, or is [s] or
    [sim], and then returns true, or is [n], [nao] or [não], and then
    returns false; every line before it was none of these.  The files and
    the clock are not touched. *)
Theorem prompt_yesno_answer (unicode_lower : pystr → pystr) (msg : pystr)
    (dflt b : bool) (w w' : world) :
  PreencherMalhas.prompt_yesno unicode_lower msg dflt w = (Ok b, w') →
  files w' = files w ∧ clock w' = clock w ∧
  ∃ bads l,
    stdin w = bads ++ l :: stdin w' ∧
    let s := PreencherMalhas.lower unicode_lower (strip l) in
    (s = [] ∧ b = dflt)
    ∨ (s ∈ [lit "s"; lit "sim"] ∧ b = true)
    ∨ (s ∈ [lit "n"; lit "nao"; lit "não"] ∧ b = false).
Proof.
  unfold PreencherMalhas.prompt_yesno.
  intros (Hf & Hc & bads & l & Hin & Hl)%input_loop_ok.
  do 2 (split; [done|]). exists bads, l. split; [done|]. cbn zeta.
  destruct (PreencherMalhas.lower unicode_lower (strip l)) as [|c s] eqn:E.
  - left. injection Hl as <-. done.
  - right. case_bool_decide as Hyes.
    + left. injection Hl as <-. done.
    + case_bool_decide as Hno; [|done].
      right. injection Hl as <-. done.
Qed.

Lemma prompt_yesno_answer_witness :
  ∃ w',
    PreencherMalhas.prompt_yesno (fun s => s) (lit "Fim de jogo validado") false
      (World ∅ [] [lit "talvez"; lit " SIM "; lit "n"] ex_clock) = (Ok true, w')
    ∧ files w' = ∅ ∧ stdin w' = [lit "n"].
Proof.
  eexists. split; [vm_compute; reflexivity|].
  destruct (prompt_yesno_answer (fun s => s) (lit "Fim de jogo validado") false
              true (World ∅ [] [lit "talvez"; lit " SIM "; lit "n"] ex_clock) _
              ltac:(vm_compute; reflexivity)) as (Hf & _ & _).
  split; [exact Hf|reflexivity].
Defined.

(** ** [index_catalogo] and the order of the items of the day *)

Lemma res_foldl_snoc {A S} (f : S → A → res S) s l x :
  res_foldl f s (l ++ [x]) = res_foldl f s l ≫= fun s' => f s' x.
Proof.
  rewrite res_foldl_app. destruct (res_foldl f s l) as [s'|e]; [|done].
  res_simpl. cbn [res_foldl]. by destruct (f s' x).
Qed.

Lemma str_id_inv c :
  str_id c = true → ∃ d i, c = JObj d ∧ dict_lookup (str "id") d = Some (JStr i).
Proof.
  unfold str_id. intros [Hobj Hid]%andb_true_iff.
  destruct c as [| | | | |d]; try done. unfold field in Hid.
  destruct (dict_lookup (str "id") d) as [[| | |i| |]|] eqn:E; try done.
  by exists d, i.
Qed.

(** The loop of [index_catalogo] over operations with a [str] as id: the
    entry of an id is the last operation that has it. *)
Lemma index_fold cs :
  Forall (fun c => str_id c = true) cs →
  ∃ idx,
    res_foldl (fun idx c =>
        cid ← py_getitem c (str "id");
        if hashable cid then Ok (dict_set cid c idx) else Raise TypeError)
      [] cs = Ok idx ∧
    ∀ i, dict_lookup (JStr i) idx
         = last (filter (fun c => has_id i c = true) cs).
Proof.
  induction cs as [|c cs IH] using rev_ind; intros Hcs.
  - by exists [].
  - apply Forall_app in Hcs as [Hcs Hc]. apply Forall_cons in Hc as [Hc _].
    destruct (IH Hcs) as (idx & Hidx & Hlook).
    apply str_id_inv in Hc as (d & j & -> & Hj).
    exists (dict_set (JStr j) (JObj d) idx). split.
    + rewrite res_foldl_snoc, Hidx. res_simpl. unfold py_getitem.
      rewrite hashable_str, Hj. res_simpl. done.
    + intros i. rewrite filter_app, filter_cons, filter_nil.
      assert (has_id i (JObj d) = bool_decide (j = i)) as Hhas.
      { unfold has_id, field. by rewrite Hj. }
      rewrite Hhas. case_bool_decide as E.
      * subst i. rewrite decide_True by done. rewrite last_snoc.
        apply dict_lookup_set_eq, py_eq_str_refl.
      * rewrite decide_False by done. rewrite app_nil_r.
        rewrite dict_lookup_set_str by done. apply Hlook.
Qed.

Section Index.
Variable unicode_upper : N → pystr.
Local Abbreviation normalize_name :=
  (PreencherMalhas.normalize_name unicode_upper).
Local Abbreviation day_item_key :=
  (PreencherMalhas.day_item_key unicode_upper).

Lemma index_catalogo_inv data cs :
  catalogo_of data = Ok cs →
  PreencherMalhas.index_catalogo data
  = res_foldl (fun idx c =>
        cid ← py_getitem c (str "id");
        if hashable cid then Ok (dict_set cid c idx) else Raise TypeError)
      [] cs.
Proof.
  unfold catalogo_of, PreencherMalhas.index_catalogo. by intros ->.
Qed.

(** The two ranks and the name of [sort_catalogo], read as the last sort
    of [main] reads them. *)
Lemma cat_rank cat k1 :
  PreencherMalhas.cat_order cat = Ok k1 →
  (if existsb (py_eq cat) PreencherMalhas.ORDEM_CATEGORIAS
   then list_index cat PreencherMalhas.ORDEM_CATEGORIAS else Ok 999%Z) = Ok k1.
Proof.
  unfold PreencherMalhas.cat_order.
  destruct preencher_categorias as (Heq & _).
  destruct (list_index_cases cat PreencherMalhas.ORDEM_CATEGORIAS)
    as [(i & Hi & _ & y & Hy & Hyc)|[Hi Hall]].
  - rewrite Hi. intros [= <-].
    assert (existsb (py_eq cat) PreencherMalhas.ORDEM_CATEGORIAS = true) as ->;
      [|done].
    apply existsb_exists. exists y. split.
    + apply list_elem_of_In. by eapply list_elem_of_lookup_2.
    + rewrite Heq in Hy. rewrite list_lookup_fmap in Hy.
      destruct (str_values PreencherMalhas.ORDEM_CATEGORIAS !! i) as [n|];
        [|done].
      injection Hy as <-. apply py_eq_str in Hyc as ->. apply py_eq_str_refl.
  - rewrite Hi. intros [= <-].
    assert (existsb (py_eq cat) PreencherMalhas.ORDEM_CATEGORIAS = false) as ->;
      [|done].
    apply not_true_iff_false. intros (y & Hy & Hcy)%existsb_exists.
    apply list_elem_of_In in Hy. rewrite Forall_forall in Hall.
    specialize (Hall y Hy). rewrite Heq in Hy.
    apply list_elem_of_fmap in Hy as (n & -> & _).
    destruct cat; try done. cbn in Hcy, Hall.
    apply bool_decide_eq_true in Hcy as ->.
    by rewrite bool_decide_true in Hall.
Qed.

Lemma name_rank (l : list json) n k2 :
  Forall (fun v => is_str v = true) l →
  match list_index (JStr n) l with
  | Raise ValueError => Ok 9999%Z
  | r => r
  end = Ok k2 →
  (if existsb (py_eq (JStr n)) l then list_index (JStr n) l else Ok 9999%Z)
  = Ok k2.
Proof.
  intros Hstr.
  destruct (list_index_cases (JStr n) l)
    as [(i & Hi & _ & y & Hy & Hyc)|[Hi Hall]].
  - rewrite Hi. intros [= <-].
    assert (existsb (py_eq (JStr n)) l = true) as ->; [|done].
    apply existsb_exists. exists y. split.
    + apply list_elem_of_In. by eapply list_elem_of_lookup_2.
    + apply py_eq_str_r in Hyc as ->. apply py_eq_str_refl.
  - rewrite Hi. intros [= <-].
    assert (existsb (py_eq (JStr n)) l = false) as ->; [|done].
    apply not_true_iff_false. intros (y & Hy & Hcy)%existsb_exists.
    apply list_elem_of_In in Hy. rewrite Forall_forall in Hall.
    specialize (Hall y Hy). apply py_eq_str in Hcy as ->.
    by rewrite py_eq_str_refl in Hall.
Qed.

Lemma preencher_malhas_get cat lst :
  py_get PreencherMalhas.ORDEM_MALHAS cat (JArr []) = Ok lst →
  ∃ l, lst = JArr l ∧ Forall (fun v => is_str v = true) l.
Proof.
  unfold py_get, PreencherMalhas.ORDEM_MALHAS.
  destruct (hashable cat); [|done]. cbn [dict_lookup].
  repeat match goal with
  | |- context [if py_eq ?a ?b then _ else _] => destruct (py_eq a b)
  end; cbn [default from_option id]; intros [= <-]; eexists;
    (split; [reflexivity|]); by repeat constructor.
Qed.

End Index.

(** X14. [index_catalogo], on a catalog whose operations all have a
    [str] as id, returns an index where the entry of an id is the last
    operation of the catalog with that id, and where an id that no
    operation has is missing; an operation without the key [id] makes it
    raise [KeyError]. *)
Theorem index_catalogo_last (data : json) (cs : list json) :
  catalogo_of data = Ok cs →
  (Forall (fun c => str_id c = true) cs →
   ∃ idx,
     PreencherMalhas.index_catalogo data = Ok idx ∧
     ∀ i, dict_lookup (JStr i) idx
          = last (filter (fun c => has_id i c = true) cs)) ∧
  (∀ l1 d l2,
     cs = l1 ++ JObj d :: l2 → Forall (fun c => str_id c = true) l1 →
     dict_lookup (str "id") d = None →
     PreencherMalhas.index_catalogo data = Raise KeyError).
Proof.
  intros Hcs. rewrite (index_catalogo_inv _ _ Hcs). split.
  - apply index_fold.
  - intros l1 d l2 -> Hl1 Hd. rewrite res_foldl_app.
    destruct (index_fold l1 Hl1) as (idx & -> & _). res_simpl.
    cbn [res_foldl]. unfold py_getitem. by rewrite hashable_str, Hd.
Qed.

Lemma index_catalogo_last_witness :
  ∃ idx,
    PreencherMalhas.index_catalogo
      (ex_store [ex_malha "a" "FOO" "Rotativos"; ex_malha "a" "BAR" "Modelos"])
    = Ok idx
    ∧ dict_lookup (str "a") idx = Some (ex_malha "a" "BAR" "Modelos")
    ∧ PreencherMalhas.index_catalogo
        (ex_store [ex_foo; JObj [(str "nome", str "X")]]) = Raise KeyError.
Proof.
  destruct (index_catalogo_last
              (ex_store [ex_malha "a" "FOO" "Rotativos"; ex_malha "a" "BAR" "Modelos"])
              _ eq_refl) as [Hidx _].
  destruct (Hidx ltac:(by repeat constructor)) as (idx & Hi & Hlook).
  exists idx. split; [exact Hi|]. split.
  - unfold str. rewrite Hlook. reflexivity.
  - destruct (index_catalogo_last
                (ex_store [ex_foo; JObj [(str "nome", str "X")]]) _ eq_refl)
      as [_ Herr].
    apply (Herr [ex_foo] [(str "nome", str "X")] []); [reflexivity| |reflexivity].
    by repeat constructor.
Defined.

(** X15. The key of the last sort of [main], for an item of the day
    whose id the catalog has, is the key [sort_catalogo] gives the
    operation of that id when the operation has a [categoria] and a
    [nome]: the items of the day are put in the order of the catalog.  An
    operation without [categoria], which [sort_catalogo] accepts, makes
    the key raise [KeyError]; an item whose id the catalog does not have
    gets the key [(999, 9999, id)] and comes last. *)
Theorem day_item_key_catalogo (unicode_upper : N → pystr)
    (data it : json) (idx : pydict) (i : pystr) :
  PreencherMalhas.index_catalogo data = Ok idx →
  py_getitem it (str "id") = Ok (JStr i) →
  (∀ d cat nome k1 k2 n,
     dict_lookup (JStr i) idx = Some (JObj d) →
     dict_lookup (str "categoria") d = Some cat →
     dict_lookup (str "nome") d = Some nome →
     PreencherMalhas.catalogo_key unicode_upper (JObj d) = Ok (k1, k2, n) →
     PreencherMalhas.day_item_key unicode_upper data it = Ok (k1, k2, JStr n)) ∧
  (∀ d,
     dict_lookup (JStr i) idx = Some (JObj d) →
     dict_lookup (str "categoria") d = None →
     PreencherMalhas.day_item_key unicode_upper data it = Raise KeyError) ∧
  (dict_lookup (JStr i) idx = None →
   PreencherMalhas.day_item_key unicode_upper data it
   = Ok (999%Z, 9999%Z, JStr i)).
Proof.
  intros Hidx Hid. unfold PreencherMalhas.day_item_key.
  rewrite Hid, Hidx. res_simpl. cbn [hashable]. split; [|split].
  - intros d cat nome k1 k2 n Hc Hcat Hnome Hkey. rewrite Hc.
    unfold PreencherMalhas.catalogo_key in Hkey.
    rewrite !(py_get_obj "categoria"), !(py_get_obj "nome") in Hkey.
    unfold field in Hkey. rewrite Hcat, Hnome in Hkey.
    cbn [default from_option id] in Hkey. res_simpl in Hkey.
    apply res_bind_ok in Hkey as (k1' & Hk1 & Hkey).
    apply res_bind_ok in Hkey as (k2' & Hk2 & Hkey).
    apply res_bind_ok in Hkey as (n' & Hn & [= -> -> ->]).
    unfold PreencherMalhas.malha_order in Hk2.
    rewrite Hn in Hk2. res_simpl in Hk2.
    apply res_bind_ok in Hk2 as (lst & Hlst & Hk2).
    destruct (preencher_malhas_get _ _ Hlst) as (l & -> & Hl).
    unfold py_getitem. rewrite !hashable_str, Hcat, Hnome. res_simpl.
    rewrite (cat_rank _ _ Hk1). res_simpl. rewrite Hn. res_simpl.
    rewrite Hlst. res_simpl. by rewrite (name_rank _ _ _ Hl Hk2).
  - intros d Hc Hcat. rewrite Hc. unfold py_getitem.
    by rewrite hashable_str, Hcat.
  - by intros ->.
Qed.

Lemma day_item_key_catalogo_witness :
  PreencherMalhas.day_item_key upper_id
    (ex_store [ex_malha "c" "cma" "Rotativos"])
    (JObj [(str "id", str "c")]) = Ok (0%Z, 3%Z, str "CMA")
  ∧ PreencherMalhas.day_item_key upper_id
      (ex_store [JObj [(str "id", str "c"); (str "nome", str "cma")]])
      (JObj [(str "id", str "c")]) = Raise KeyError
  ∧ PreencherMalhas.day_item_key upper_id
      (ex_store [ex_malha "c" "cma" "Rotativos"])
      (JObj [(str "id", str "zz")]) = Ok (999%Z, 9999%Z, str "zz").
Proof.
  split; [|split].
  - destruct (day_item_key_catalogo upper_id
                (ex_store [ex_malha "c" "cma" "Rotativos"])
                (JObj [(str "id", str "c")]) _ (lit "c") eq_refl eq_refl)
      as (H & _ & _).
    eapply H; reflexivity.
  - destruct (day_item_key_catalogo upper_id
                (ex_store [JObj [(str "id", str "c"); (str "nome", str "cma")]])
                (JObj [(str "id", str "c")]) _ (lit "c") eq_refl eq_refl)
      as (_ & H & _).
    eapply H; reflexivity.
  - destruct (day_item_key_catalogo upper_id
                (ex_store [ex_malha "c" "cma" "Rotativos"])
                (JObj [(str "id", str "zz")]) _ (lit "zz") eq_refl eq_refl)
      as (_ & _ & H).
    apply H. reflexivity.
Defined.

(** ** A run of [update_status.py] that returns *)

Lemma load_json_ok codec p w d w' :
  load_json codec p w = (Ok d, w') →
  w' = w ∧
  ∃ text, files w !! p = Some (File text) ∧ json_loads codec text = Some d.
Proof.
  unfold load_json. destruct (files w !! p) as [[text|]|]; [|done..].
  destruct (json_loads codec text) as [d'|] eqn:E; [|done].
  intros [= <- <-]. eauto.
Qed.

(** X16. [main] of [update_status.py] returns normally only when the
    command line names an update file that exists, the store and the
    update file are read, the payload has a [date] that is not empty and
    the reconciliation of that day returns; the store then holds the
    document of the reconciled store, written at the time of the clock,
    [malhas.tmp] is gone, no other file has changed, and the console has
    one more line, the one that says so. *)
Theorem update_main_returns (unicode_upper : N → pystr) (codec : json_codec)
    (ROOT : path) (argv : list pystr) (w w' : world) (u : unit) :
  UpdateStatus.main unicode_upper codec ROOT argv w = (Ok u, w') →
  ∃ script arg rest tp td payload data day data',
    argv = script :: arg :: rest ∧
    files w !! path_join ROOT arg = Some (File tp) ∧
    json_loads codec tp = Some payload ∧
    files w !! UpdateStatus.MALHAS_JSON ROOT = Some (File td) ∧
    json_loads codec td = Some data ∧
    py_get payload (str "date") JNull = Ok day ∧ truthy day = true ∧
    UpdateStatus.merge_day unicode_upper data payload day (clock w) = Ok data' ∧
    files w' = <[UpdateStatus.MALHAS_JSON ROOT := File (document codec data')]>
                 (delete (update_tmp ROOT) (files w)) ∧
    console w'
    = console w
      ++ [EPrint [T (lit "OK: atualizado malhas.json para o dia "); V day;
                  T (lit " usando ");
                  V (JStr (path_name (path_join ROOT arg)))]] ∧
    stdin w' = stdin w.
Proof.
  unfold UpdateStatus.main.
  destruct argv as [|script [|arg rest]]; [done|done|].
  rewrite bind_run. unfold exists_file at 1.
  case_bool_decide as Hupd; cbn [negb]; [|done].
  rewrite bind_run.
  destruct (load_json codec (UpdateStatus.MALHAS_JSON ROOT) w)
    as [[data|e] w1] eqn:Hstore; [|done].
  apply load_json_ok in Hstore as (-> & td & Htd & Hdata).
  rewrite lift_run.
  destruct (UpdateStatus.build_catalog_index unicode_upper data) as [idx|e];
    [|done].
  rewrite bind_run.
  destruct (load_json codec (path_join ROOT arg) w)
    as [[payload|e] w1] eqn:Hpay; [|done].
  apply load_json_ok in Hpay as (-> & tp & Htp & Hpayload).
  rewrite lift_run.
  destruct (py_get payload (str "date") JNull) as [day|e] eqn:Hday; [|done].
  destruct (truthy day) eqn:Htrue; cbn [negb]; [|done].
  rewrite bind_run. unfold now at 1. rewrite lift_run.
  destruct (UpdateStatus.merge_day unicode_upper data payload day (clock w))
    as [data'|e] eqn:Hmerge; [|done].
  rewrite bind_run, update_save_run, run_ops_spec.
  destruct (fs_run (save_ops codec (update_tmp ROOT)
                      (UpdateStatus.MALHAS_JSON ROOT) data') (files w))
    as [[[]|e] fs1] eqn:Hsave; cbn [fst snd]; [|done].
  apply (save_ops_ok _ _ _ _ _ _ (update_tmp_ne ROOT)) in Hsave. subst fs1.
  unfold print, emit, saved. cbn [files console stdin clock]. intros [= _ <-].
  exists script, arg, rest, tp, td, payload, data, day, data'.
  cbn [files console stdin]. by repeat split.
Qed.

Lemma update_main_returns_witness :
  ∃ w',
    UpdateStatus.main upper_id ex_codec_ok ex_root
      [lit "update_status.py"; ex_arg] ex_world_ok = (Ok (), w') ∧
    files w' !! UpdateStatus.MALHAS_JSON ex_root = Some (File (lit "[]")) ∧
    stdin w' = [].
Proof.
  destruct (UpdateStatus.main upper_id ex_codec_ok ex_root
              [lit "update_status.py"; ex_arg] ex_world_ok) as [r w'] eqn:E.
  assert (r = Ok ()) as ->.
  { apply (f_equal fst) in E. cbn [fst] in E. rewrite <-E.
    vm_compute. reflexivity. }
  exists w'. split; [reflexivity|].
  destruct (update_main_returns upper_id ex_codec_ok ex_root
              [lit "update_status.py"; ex_arg] ex_world_ok w' () E)
    as (script & arg & rest & tp & td & payload & data & day & data' & _ & _
        & _ & _ & _ & _ & _ & _ & Hfiles & _ & Hstdin).
  split; [|exact Hstdin].
  rewrite Hfiles. apply (lookup_insert_eq (M := gmap path)).
Defined.

(** ** Items that the first loop of [main] cannot read *)

Section Malformed.
Variable unicode_upper : N → pystr.
Local Abbreviation norm := (norm unicode_upper).
Local Abbreviation merge_day := (merge_day unicode_upper).
Local Abbreviation incoming_entry := (incoming_entry unicode_upper).
Local Abbreviation incoming_step := (incoming_step unicode_upper).
Local Abbreviation item_name := (item_name unicode_upper).

Lemma incoming_fold_error l1 it l2 e :
  Forall (fun x => wf_item x = true) l1 →
  incoming_entry it = Raise e →
  res_foldl incoming_step ∅ (l1 ++ it :: l2) = Raise e.
Proof.
  intros Hl1 Hit. rewrite res_foldl_app.
  destruct (res_map_total incoming_entry l1) as [es Hes].
  { eapply Forall_impl; [exact Hl1|]. apply wf_item_entry. }
  rewrite (proj2 (incoming_fold unicode_upper l1 ∅ _)
             (ex_intro _ es (conj Hes eq_refl))).
  res_simpl. cbn [res_foldl]. unfold UpdateStatus.incoming_step.
  by rewrite Hit.
Qed.

Lemma merge_day_item_error data payload day clock its e :
  wf_store data = true → hashable day = true →
  itens_of payload = Ok its →
  res_foldl incoming_step ∅ its = Raise e →
  merge_day data payload day clock = Raise e.
Proof.
  intros Hstore Hday Hits Herr.
  destruct (ensure_day_total _ _ Hstore Hday)
    as (d1 & dias & dobj & Hens & Hdias & Hdobj).
  unfold UpdateStatus.merge_day. rewrite Hens. res_simpl.
  rewrite Hdias. res_simpl. rewrite Hdobj. res_simpl.
  unfold itens_of in Hits.
  destruct payload as [| | | | |p]; try done.
  rewrite (py_get_obj "updatedAt"). res_simpl.
  unfold py_setitem at 1. rewrite hashable_str. res_simpl.
  rewrite Hits. res_simpl. by rewrite Herr.
Qed.

Lemma norm_true_non_str v :
  is_str v = false → truthy v = true → norm v = Raise AttributeError.
Proof.
  intros Hs. unfold UpdateStatus.norm, norm_value, py_or.
  destruct v as [|b|z|s|l|o]; try done; cbn [truthy].
  - by destruct b.
  - by destruct (negb (z =? 0)%Z).
  - by destruct l.
  - by destruct o.
Qed.

Lemma item_name_obj d :
  item_name (JObj d) = norm (default (str "") (field "nome" (JObj d))).
Proof. unfold item_name. by rewrite py_get_obj. Qed.

End Malformed.

(** X17. An item of the payload that the first loop of [main] cannot
    read ends the reconciliation with its exception, once the store is
    well formed and the items before it are: an item that is not an
    object, or whose [nome] is a true value that is not a [str], or whose
    [nota] is one, raises [AttributeError]; an item whose [status] is a
    list or an object raises [TypeError] at [st not in VALID_STATUS].
    The [status] and the [nota] are only read when the normalised name is
    not empty: an item with an empty name is skipped whatever they
    are. *)
Theorem malformed_item_aborts (unicode_upper : N → pystr)
    data payload day clock l1 it l2 :
  wf_store data = true → hashable day = true →
  itens_of payload = Ok (l1 ++ it :: l2) →
  Forall (fun x => wf_item x = true) l1 →
  (∀ e, incoming_entry unicode_upper it = Raise e →
        merge_day unicode_upper data payload day clock = Raise e) ∧
  (is_obj it = false →
   incoming_entry unicode_upper it = Raise AttributeError) ∧
  (∀ v, field "nome" it = Some v → is_str v = false → truthy v = true →
        incoming_entry unicode_upper it = Raise AttributeError) ∧
  (∀ n st, item_name unicode_upper it = Ok n → n ≠ [] →
           field "status" it = Some st → hashable st = false →
           incoming_entry unicode_upper it = Raise TypeError) ∧
  (∀ n v, item_name unicode_upper it = Ok n → n ≠ [] →
          match field "status" it with Some st => hashable st | None => true end
            = true →
          field "nota" it = Some v → is_str v = false → truthy v = true →
          incoming_entry unicode_upper it = Raise AttributeError) ∧
  (item_name unicode_upper it = Ok [] →
   incoming_entry unicode_upper it = Ok None).
Proof.
  intros Hstore Hday Hits Hl1. split; [|split; [|split; [|split; [|split]]]].
  - intros e He. eapply merge_day_item_error; [done..|].
    by apply incoming_fold_error.
  - by destruct it.
  - intros v Hv Hstr Htrue. destruct it as [| | | | |d]; try done.
    unfold incoming_entry. rewrite (py_get_obj "nome"), Hv.
    cbn [default from_option id]. res_simpl.
    by rewrite (norm_true_non_str unicode_upper v Hstr Htrue).
  - intros n st Hn Hne Hst Hh. destruct it as [| | | | |d]; try done.
    rewrite item_name_obj in Hn.
    unfold incoming_entry. rewrite (py_get_obj "nome"). res_simpl.
    rewrite Hn. res_simpl. destruct n as [|c n]; [done|].
    rewrite (py_get_obj "status"), Hst. cbn [default from_option id].
    res_simpl. unfold in_set. by rewrite Hh.
  - intros n v Hn Hne Hst Hv Hstr Htrue. destruct it as [| | | | |d]; try done.
    rewrite item_name_obj in Hn.
    unfold incoming_entry. rewrite (py_get_obj "nome"). res_simpl.
    rewrite Hn. res_simpl. destruct n as [|c n]; [done|].
    rewrite !py_get_obj. res_simpl. unfold in_set.
    replace (hashable (default (str "sem_exec") (field "status" (JObj d))))
      with true by (by destruct (field "status" (JObj d))).
    res_simpl. rewrite Hv. cbn [default from_option id].
    unfold py_or. rewrite Htrue. by destruct v.
  - intros Hn. unfold item_name in Hn. unfold incoming_entry.
    by rewrite Hn.
Qed.

Lemma malformed_item_aborts_witness :
  merge_day upper_id (ex_store [ex_foo])
    (ex_payload [ex_foo_item;
                 JObj [(str "nome", str "bar"); (str "status", JArr [])]])
    ex_day ex_clock = Raise TypeError
  ∧ incoming_entry upper_id
      (JObj [(str "nome", str " "); (str "status", JArr [])]) = Ok None.
Proof.
  destruct (malformed_item_aborts upper_id (ex_store [ex_foo])
              (ex_payload [ex_foo_item;
                           JObj [(str "nome", str "bar"); (str "status", JArr [])]])
              ex_day ex_clock [ex_foo_item]
              (JObj [(str "nome", str "bar"); (str "status", JArr [])]) []
              eq_refl eq_refl eq_refl ltac:(by repeat constructor))
    as (Hrun & _ & _ & Hst & _).
  destruct (malformed_item_aborts upper_id (ex_store [ex_foo])
              (ex_payload [JObj [(str "nome", str " "); (str "status", JArr [])]])
              ex_day ex_clock []
              (JObj [(str "nome", str " "); (str "status", JArr [])]) []
              eq_refl eq_refl eq_refl ltac:(constructor))
    as (_ & _ & _ & _ & _ & Hskip).
  split.
  - apply Hrun. apply (Hst (lit "BAR") (JArr [])); try reflexivity.
    intros E. vm_compute in E. discriminate E.
  - apply Hskip. reflexivity.
Defined.

(** X18. An operation of the catalog that has no key [nome] is looked up
    under its id: its record takes the fields of the last item of the
    payload whose normalised name is the normalised id, and is the
    default record when there is none; for the order of [sort_catalogo]
    the missing name counts as the empty one. *)
Theorem operation_without_nome (unicode_upper : N → pystr)
    data payload day clock data' :
  merge_day unicode_upper data payload day clock = Ok data' →
  ∃ sorted its itens,
    catalogo_sorted unicode_upper data = Ok sorted ∧
    itens_of payload = Ok its ∧
    day_itens data' day = Ok itens ∧
    Forall2 (fun c rec =>
      ∀ i, is_obj c = true → field "nome" c = None →
           field "id" c = Some (JStr i) →
           malha_name unicode_upper c = Ok (norm_str unicode_upper i) ∧
           nome_of unicode_upper c = Ok [] ∧
           (∀ l1 it l2,
              its = l1 ++ it :: l2 →
              item_name unicode_upper it = Ok (norm_str unicode_upper i) →
              norm_str unicode_upper i ≠ [] →
              Forall (fun x => item_name unicode_upper x
                               ≠ Ok (norm_str unicode_upper i)) l2 →
              rec = expected_record (JStr i) it) ∧
           (Forall (fun x => item_name unicode_upper x
                             ≠ Ok (norm_str unicode_upper i)) its →
            rec = default_item (JStr i))) sorted itens.
Proof.
  intros (cs & sorted & its & itens & _ & Hsorted & _ & Hits & Hitens & Hrec)
           %merge_day_records.
  exists sorted, its, itens. do 3 (split; [done|]).
  eapply Forall2_impl; [exact Hrec|].
  intros c rec (cid & nome & Hid & _ & Hname & Hlast & Hnone) i Hobj Hnome Hi.
  rewrite Hid in Hi. injection Hi as ->.
  destruct c as [| | | | |d]; try done.
  assert (malha_name unicode_upper (JObj d) = Ok (norm_str unicode_upper i))
    as Hm.
  { unfold malha_name, py_getitem. unfold field in Hid.
    rewrite hashable_str, Hid. res_simpl.
    rewrite (py_get_obj "nome"), Hnome. cbn [default from_option id].
    res_simpl. apply norm_value_str. }
  rewrite Hm in Hname. injection Hname as <-.
  split; [done|]. split.
  { unfold nome_of. rewrite (py_get_obj "nome"), Hnome. reflexivity. }
  split; [exact Hlast|]. intros H. apply Hnone. by right.
Qed.

Lemma operation_without_nome_witness :
  ∃ data',
    merge_day upper_id (ex_store [JObj [(str "id", str "x1")]])
      (ex_payload [ex_item " X1" "abend"]) ex_day ex_clock = Ok data' ∧
    day_itens data' ex_day
    = Ok [expected_record (str "x1") (ex_item " X1" "abend")].
Proof.
  eexists. split; [vm_compute; reflexivity|].
  destruct (operation_without_nome upper_id (ex_store [JObj [(str "id", str "x1")]])
              (ex_payload [ex_item " X1" "abend"]) ex_day ex_clock _
              ltac:(vm_compute; reflexivity))
    as (sorted & its & itens & Hsorted & Hits & Hitens & Hrec).
  vm_compute in Hsorted, Hits. injection Hsorted as <-. injection Hits as <-.
  rewrite Hitens. f_equal.
  inversion Hrec as [|c rec ? ? H1 Htl]; subst. inversion Htl; subst.
  f_equal.
  destruct (H1 (lit "x1") eq_refl eq_refl eq_refl) as (_ & _ & Hlast & _).
  apply (Hlast [] _ []); [reflexivity|reflexivity| |constructor].
  intros E. vm_compute in E. discriminate E.
Defined.

(** ** The loop of [main] in preencher_malhas.py *)

Lemma seq_index_nat n i k :
  seq_index n (Z.of_nat i) = Ok k → k = i ∧ i < n.
Proof.
  unfold seq_index.
  destruct ((0 <=? Z.of_nat i) && (Z.of_nat i <? Z.of_nat n))%Z eqn:E1.
  - apply andb_true_iff in E1 as [_ ?%Z.ltb_lt]. intros [= <-]. lia.
  - destruct ((- Z.of_nat n <=? Z.of_nat i) && (Z.of_nat i <? 0))%Z eqn:E2;
      [|done].
    apply andb_true_iff in E2 as [_ ?%Z.ltb_lt]. lia.
Qed.

Lemma py_eq_sym a b : py_eq a b = py_eq b a.
Proof.
  destruct a, b; cbn; try done.
  - apply bool_decide_ext. naive_solver.
  - apply Z.eqb_sym.
  - apply bool_decide_ext. naive_solver.
Qed.

Lemma py_eq_trans a b c :
  py_eq a b = true → py_eq b c = true → py_eq a c = true.
Proof.
  destruct a, b, c; cbn; try done;
    repeat (rewrite ?bool_decide_eq_true, ?Z.eqb_eq);
    try congruence; try lia.
  all: try (intros -> ->; done).
  all: try (intros H1 H2; destruct b, b0; cbn in *; congruence || lia).
Qed.

Lemma dict_lookup_set {V} k k' (v : V) d :
  py_eq k' k' = true →
  dict_lookup k (dict_set k' v d)
  = if py_eq k' k then Some v else dict_lookup k d.
Proof.
  intros Hk'. induction d as [|[k0 v0] d IH]; [done|].
  cbn [dict_set dict_lookup].
  destruct (py_eq k0 k') eqn:E0; cbn [dict_lookup].
  - destruct (py_eq k' k) eqn:E.
    + by rewrite (py_eq_trans _ _ _ E0 E).
    + destruct (py_eq k0 k) eqn:E1; [|done].
      rewrite py_eq_sym in E0. by rewrite (py_eq_trans _ _ _ E0 E1) in E.
  - rewrite IH. destruct (py_eq k0 k) eqn:E1; [|done].
    destruct (py_eq k' k) eqn:E; [|done].
    rewrite (py_eq_sym k' k) in E. by rewrite (py_eq_trans _ _ _ E1 E) in E0.
Qed.

Lemma key_of_set_ne a b v d :
  a ≠ b → key_of b (JObj (dict_set (JStr a) v d)) = key_of b (JObj d).
Proof. intros H. cbn [key_of]. by apply dict_lookup_set_str. Qed.

Lemma key_of_set_itens k v d :
  k ≠ lit "itens" →
  key_of k (JObj (dict_set (str "itens") v d)) = key_of k (JObj d).
Proof. intros H. by apply key_of_set_ne. Qed.

Lemma key_of_set_eq a v d :
  key_of a (JObj (dict_set (JStr a) v d)) = Some v.
Proof. cbn [key_of]. apply dict_lookup_set_eq, py_eq_str_refl. Qed.

Lemma itens_ok_list d :
  itens_ok d = true → is_Some (field "itens" d) →
  field "itens" d = Some (JArr (day_list d)).
Proof.
  unfold itens_ok, day_list. intros H [v Hv]. rewrite Hv in *.
  by destruct v.
Qed.

(** The item at a position and the assignment of one of its keys. *)
Lemma item_at_inv d i it :
  itens_ok d = true → PreencherMalhas.item_at d i = Ok it →
  day_list d !! i = Some it.
Proof.
  intros Hok. unfold PreencherMalhas.item_at.
  destruct d as [| | | | |o]; try done.
  unfold py_getitem at 2. rewrite hashable_str.
  destruct (dict_lookup (str "itens") o) as [v|] eqn:Ev; [|done]. res_simpl.
  pose proof (itens_ok_list (JObj o) Hok (ex_intro _ v Ev)) as Hl.
  cbn [field] in Hl. rewrite Ev in Hl. injection Hl as ->.
  cbn [py_getitem as_index].
  destruct (seq_index (length (day_list (JObj o))) (Z.of_nat i)) as [n|] eqn:En;
    [|done].
  apply seq_index_nat in En as [-> _]. res_simpl.
  destruct (day_list (JObj o) !! i); [by intros [= ->]|done].
Qed.

Lemma item_set_inv d i (k : pystr) v d' :
  itens_ok d = true →
  PreencherMalhas.item_set d i (JStr k) v = Ok d' →
  ∃ o e, d = JObj o ∧ day_list d !! i = Some (JObj e) ∧
         d' = JObj (dict_set (str "itens")
                      (JArr (<[i := JObj (dict_set (JStr k) v e)]> (day_list d)))
                      o).
Proof.
  intros Hok. unfold PreencherMalhas.item_set.
  destruct d as [| | | | |o]; try done.
  unfold py_getitem at 2. rewrite hashable_str.
  destruct (dict_lookup (str "itens") o) as [its|] eqn:Ev; [|done]. res_simpl.
  pose proof (itens_ok_list (JObj o) Hok (ex_intro _ its Ev)) as Hl.
  cbn [field] in Hl. rewrite Ev in Hl. injection Hl as ->.
  cbn [py_getitem py_setitem as_index].
  destruct (seq_index (length (day_list (JObj o))) (Z.of_nat i)) as [n|] eqn:En;
    [|done].
  apply seq_index_nat in En as [-> _]. res_simpl.
  destruct (day_list (JObj o) !! i) as [it|] eqn:Hit; [|done]. res_simpl.
  destruct it as [| | | | |e]; try done. cbn [py_setitem hashable]. res_simpl.
  rewrite hashable_str. intros [= <-]. by exists o, e.
Qed.

Lemma day_list_set o l :
  day_list (JObj (dict_set (str "itens") (JArr l) o)) = l.
Proof.
  unfold day_list, field.
  by rewrite dict_lookup_set_eq by apply py_eq_str_refl.
Qed.

Lemma itens_ok_set o l :
  itens_ok (JObj (dict_set (str "itens") (JArr l) o)) = true.
Proof.
  unfold itens_ok, field.
  by rewrite dict_lookup_set_eq by apply py_eq_str_refl.
Qed.

Lemma append_item_inv d it d' i :
  itens_ok d = true →
  PreencherMalhas.append_item d it = Ok (d', i) →
  ∃ o o', d = JObj o ∧ d' = JObj o' ∧ i = length (day_list d) ∧
          day_list d' = day_list d ++ [it] ∧ itens_ok d' = true ∧
          ∀ k, k ≠ lit "itens" → key_of k d' = key_of k d.
Proof.
  intros Hok. unfold PreencherMalhas.append_item.
  destruct d as [| | | | |o]; try done.
  unfold py_setdefault. rewrite hashable_str.
  destruct (dict_lookup (str "itens") o) as [its|] eqn:Ev; res_simpl.
  - pose proof (itens_ok_list (JObj o) Hok (ex_intro _ its Ev)) as Hl.
    cbn [field] in Hl. rewrite Ev in Hl. injection Hl as ->.
    unfold py_getitem. rewrite hashable_str, Ev. res_simpl.
    unfold py_setitem. rewrite hashable_str. intros [= <- <-].
    eexists _, _. do 3 (split; [done|]).
    rewrite day_list_set, itens_ok_set. do 2 (split; [done|]).
    intros k Hk. by apply key_of_set_itens.
  - unfold py_getitem. rewrite hashable_str.
    rewrite dict_lookup_set_eq by apply py_eq_str_refl. res_simpl.
    unfold py_setitem. rewrite hashable_str. intros [= <- <-].
    eexists _, _. do 2 (split; [done|]).
    rewrite day_list_set, itens_ok_set.
    assert (day_list (JObj o) = []) as ->.
    { unfold day_list, field. by rewrite Ev. }
    do 3 (split; [done|]).
    intros k Hk. by rewrite !key_of_set_itens by done.
Qed.

Lemma item_set_day d i (k : pystr) v d' :
  itens_ok d = true →
  PreencherMalhas.item_set d i (JStr k) v = Ok d' →
  ∃ e, day_list d !! i = Some (JObj e) ∧
       day_list d' = <[i := JObj (dict_set (JStr k) v e)]> (day_list d) ∧
       itens_ok d' = true ∧
       ∀ k', k' ≠ lit "itens" → key_of k' d' = key_of k' d.
Proof.
  intros Hok (o & e & -> & Hi & ->)%item_set_inv; [|done].
  exists e. split; [done|]. rewrite day_list_set, itens_ok_set.
  do 2 (split; [done|]). intros k' Hk'. by apply key_of_set_itens.
Qed.

Lemma prompt_status_code current_key w k w' :
  PreencherMalhas.prompt_status current_key w = (Ok k, w') →
  k = current_key ∨ is_status_code k = true.
Proof.
  unfold PreencherMalhas.prompt_status. rewrite !print_run, lift_run.
  destruct (py_get PreencherMalhas.STATUS_LABEL current_key current_key)
    as [label|e]; [|done].
  intros (_ & _ & bads & l & _ & Hl)%input_loop_ok.
  destruct (dict_lookup (JStr (strip l)) PreencherMalhas.STATUS_MAP)
    as [[key emoji]|] eqn:E; [|done].
  injection Hl as <-.
  apply status_choice in E as [[_ ->]|Hcode]; [by left|].
  right. by destruct key.
Qed.

Lemma fill_slot_inv d m mid d1 m1 i :
  itens_ok d = true →
  (if hashable mid then
     match dict_lookup mid m with
     | Some i => Ok (d, m, i)
     | None =>
         PreencherMalhas.append_item d (PreencherMalhas.new_item mid)
         ≫= λ '(dia_obj, i), Ok (dia_obj, dict_set mid i m, i)
     end
   else Raise TypeError) = Ok (d1, m1, i) →
  hashable mid = true ∧
  fill_slot mid m (day_list d) = (i, day_list d1, m1) ∧
  itens_ok d1 = true ∧
  ∀ k, k ≠ lit "itens" → key_of k d1 = key_of k d.
Proof.
  intros Hok. unfold fill_slot. destruct (hashable mid); [|done].
  destruct (dict_lookup mid m) as [j|].
  - by intros [= <- <- <-].
  - destruct (PreencherMalhas.append_item d (PreencherMalhas.new_item mid))
      as [[d2 j]|] eqn:E; [|done].
    res_simpl. intros [= <- <- <-].
    apply append_item_inv in E as (o & o' & -> & -> & -> & Hl & Hok' & Hk);
      [|done].
    by rewrite Hl.
Qed.

Section Fill.
Variable unicode_upper : N → pystr.
Variable unicode_lower : pystr → pystr.
Local Abbreviation fill_step :=
  (PreencherMalhas.fill_step unicode_upper unicode_lower).

Lemma fill_step_inv d m c w d' m' w' :
  itens_ok d = true →
  fill_step (d, m) c w = (Ok (d', m'), w') →
  ∃ mid i l e st b e',
    field "id" c = Some mid ∧ hashable mid = true ∧
    fill_slot mid m (day_list d) = (i, l, m') ∧
    l !! i = Some (JObj e) ∧
    (st = default (str "sem_exec") (dict_lookup (str "status") e)
     ∨ is_status_code st = true) ∧
    (e' = dict_set (str "fim_de_jogo") (JBool b) (dict_set (str "status") st e)
     ∨ ∃ s, s ≠ [] ∧
         e' = dict_set (str "nota") (JStr s)
                (dict_set (str "fim_de_jogo") (JBool b)
                   (dict_set (str "status") st e))) ∧
    day_list d' = <[i := JObj e']> l ∧ itens_ok d' = true ∧
    ∀ k, k ≠ lit "itens" → key_of k d' = key_of k d.
Proof.
  intros Hok. unfold PreencherMalhas.fill_step.
  rewrite lift_run.
  destruct (py_getitem c (str "id")) as [mid|] eqn:Hmid; [|done].
  rewrite lift_run.
  destruct (py_get c (str "categoria") (str "-")) as [cat|]; [|done].
  rewrite lift_run.
  destruct (py_get c (str "nome") mid
            ≫= PreencherMalhas.normalize_name unicode_upper) as [nome|];
    [|done].
  rewrite lift_run.
  match goal with
  | |- context [match ?r with Ok _ => _ | Raise _ => _ end] =>
      destruct r as [[[d1 m1] i]|] eqn:Hslot; [|done]
  end.
  apply fill_slot_inv in Hslot as (Hh & Hslot & Hok1 & Hk1); [|done].
  rewrite !print_run, lift_run.
  destruct (PreencherMalhas.item_at d1 i) as [it|] eqn:Hit; [|done].
  apply item_at_inv in Hit; [|done].
  rewrite lift_run.
  destruct (py_get it (str "status") (str "sem_exec")) as [cur|] eqn:Hcur;
    [|done].
  rewrite bind_run.
  match goal with
  | |- context [PreencherMalhas.prompt_status cur ?w] =>
      destruct (PreencherMalhas.prompt_status cur w) as [[st|] w2] eqn:Hst;
        [|done]
  end.
  apply prompt_status_code in Hst.
  rewrite lift_run.
  destruct (PreencherMalhas.item_set d1 i (str "status") st) as [d2|] eqn:Hd2;
    [|done].
  apply item_set_day in Hd2 as (e & He & Hl2 & Hok2 & Hk2); [|done].
  rewrite lift_run.
  destruct (PreencherMalhas.item_at d2 i) as [it2|] eqn:Hit2; [|done].
  rewrite lift_run.
  destruct (py_get it2 (str "fim_de_jogo") (JBool false)) as [cur_fim|];
    [|done].
  rewrite bind_run.
  match goal with
  | |- context [PreencherMalhas.prompt_yesno ?ul ?msg ?dflt ?w] =>
      destruct (PreencherMalhas.prompt_yesno ul msg dflt w) as [[b|] w3];
        [|done]
  end.
  rewrite lift_run.
  destruct (PreencherMalhas.item_set d2 i (str "fim_de_jogo") (JBool b))
    as [d3|] eqn:Hd3; [|done].
  apply item_set_day in Hd3 as (e2 & He2 & Hl3 & Hok3 & Hk3); [|done].
  rewrite lift_run.
  destruct (PreencherMalhas.item_at d3 i) as [it3|] eqn:Hit3; [|done].
  rewrite lift_run.
  match goal with
  | |- context [match ?r with Ok _ => _ | Raise _ => _ end] =>
      destruct r as [cur_obs|]; [|done]
  end.
  rewrite bind_run.
  match goal with
  | |- context [input ?p ?w] =>
      destruct (input p w) as [[obs|] w4]; [|done]
  end.
  cbn zeta. rewrite lift_run.
  assert (i < length (day_list d1)) as Hi by (by eapply lookup_lt_Some).
  rewrite Hit in He. injection He as ->.
  rewrite (py_get_obj "status") in Hcur. injection Hcur as <-.
  rewrite Hl2, list_lookup_insert_eq in He2 by done. injection He2 as <-.
  assert (day_list d3
          = <[i := JObj (dict_set (str "fim_de_jogo") (JBool b)
                           (dict_set (str "status") st e))]> (day_list d1))
    as Hl3'.
  { by rewrite Hl3, Hl2, list_insert_insert_eq. }
  assert (∀ k, k ≠ lit "itens" → key_of k d3 = key_of k d) as Hk3'.
  { intros k Hk. by rewrite Hk3, Hk2, Hk1. }
  destruct (strip obs) as [|ch s] eqn:Hobs.
  - rewrite print_run. intros [= <- <- _].
    exists mid, i, (day_list d1), e, st, b. eexists.
    split; [by apply py_getitem_field|]. split; [done|]. split; [done|].
    split; [done|]. split; [done|]. split; [by left|]. done.
  - destruct (PreencherMalhas.item_set d3 i (str "nota") (JStr (ch :: s)))
      as [d4|] eqn:Hd4; [|done].
    apply item_set_day in Hd4 as (e3 & He3 & Hl4 & Hok4 & Hk4); [|done].
    rewrite Hl3', list_lookup_insert_eq in He3 by done. injection He3 as <-.
    rewrite print_run. intros [= <- <- _].
    exists mid, i, (day_list d1), e, st, b. eexists.
    split; [by apply py_getitem_field|]. split; [done|]. split; [done|].
    split; [done|]. split; [done|].
    split; [right; by exists (ch :: s)|].
    split; [by rewrite Hl4, Hl3', list_insert_insert_eq|]. split; [done|].
    intros k Hk. by rewrite Hk4, Hk3'.
Qed.

Lemma keeps_items_refl l : keeps_items l l.
Proof. intros i it Hi. by exists it. Qed.

Lemma keeps_items_trans l1 l2 l3 :
  keeps_items l1 l2 → keeps_items l2 l3 → keeps_items l1 l3.
Proof.
  intros H12 H23 i it Hi.
  destruct (H12 i it Hi) as (it2 & Hi2 & Hk2).
  destruct (H23 i it2 Hi2) as (it3 & Hi3 & Hk3).
  exists it3. split; [done|]. intros k Hk. by rewrite Hk3, Hk2.
Qed.

Lemma id_not_filled : lit "id" ∉ FILLED.
Proof.
  unfold FILLED. rewrite !elem_of_cons, elem_of_nil.
  intros [E|[E|[E|[]]]]; vm_compute in E; discriminate E.
Qed.

Lemma same_id_keeps mid it it' :
  (∀ k, k ∉ FILLED → key_of k it' = key_of k it) →
  same_id mid it' = same_id mid it.
Proof.
  intros H. unfold same_id.
  change (field "id" it') with (key_of (lit "id") it').
  change (field "id" it) with (key_of (lit "id") it).
  by rewrite (H _ id_not_filled).
Qed.

Lemma keeps_items_same_id l l' i it mid :
  keeps_items l l' → l !! i = Some it → same_id mid it = true →
  ∃ it', l' !! i = Some it' ∧ same_id mid it' = true.
Proof.
  intros H Hi Hid. destruct (H i it Hi) as (it' & Hi' & Hk).
  exists it'. split; [done|]. by rewrite (same_id_keeps _ _ _ Hk).
Qed.

(** The keys of the item after a round that are not assigned. *)
Lemma filled_frame e st b e' :
  (e' = dict_set (str "fim_de_jogo") (JBool b) (dict_set (str "status") st e)
   ∨ ∃ s, s ≠ [] ∧
       e' = dict_set (str "nota") (JStr s)
              (dict_set (str "fim_de_jogo") (JBool b)
                 (dict_set (str "status") st e))) →
  ∀ k, k ∉ FILLED → key_of k (JObj e') = key_of k (JObj e).
Proof.
  intros He' k Hk. unfold FILLED in Hk.
  rewrite !not_elem_of_cons in Hk. destruct Hk as (H1 & H2 & H3 & _).
  destruct He' as [->|(s & _ & ->)].
  - unfold str. by rewrite !key_of_set_ne by done.
  - unfold str. by rewrite !key_of_set_ne by done.
Qed.

Lemma same_id_new_item mid mid0 :
  same_id mid0 (PreencherMalhas.new_item mid) = py_eq mid mid0.
Proof.
  unfold same_id, PreencherMalhas.new_item, field, str. cbn [dict_lookup].
  by rewrite py_eq_str_refl.
Qed.

(** One round of the loop keeps what the loop relies on. *)
Lemma fill_step_ok d m c w d' m' w' :
  itens_ok d = true → itmap_ok d m →
  fill_step (d, m) c w = (Ok (d', m'), w') →
  itens_ok d' = true ∧ itmap_ok d' m' ∧
  keeps_items (day_list d) (day_list d') ∧
  (∃ it, it ∈ day_list d' ∧ item_for c it) ∧
  (∀ i it, day_list d' !! i = Some it → length (day_list d) ≤ i →
           item_for c it) ∧
  ∀ k, k ≠ lit "itens" → key_of k d' = key_of k d.
Proof.
  intros Hok Hm
    (mid & i & l & e & st & b & e' & Hid & Hh & Hslot & He & _ & He' & Hl'
     & Hok' & Hk)%fill_step_inv; [|done].
  pose proof (filled_frame _ _ _ _ He') as Hframe.
  assert (i < length l) as Hi by (by eapply lookup_lt_Some).
  assert (day_list d' !! i = Some (JObj e')) as Hi'.
  { by rewrite Hl', list_lookup_insert_eq. }
  assert (same_id mid (JObj e) = true → same_id mid (JObj e') = true) as Hsame.
  { intros H. by rewrite (same_id_keeps _ _ _ Hframe). }
  unfold fill_slot in Hslot.
  destruct (dict_lookup mid m) as [j|] eqn:Hj.
  - injection Hslot as <- <- <-.
    destruct (Hm mid j Hj) as (it & Hit & Hitid).
    rewrite He in Hit. injection Hit as <-.
    assert (keeps_items (day_list d) (day_list d')) as Hkeep.
    { intros p it Hp. rewrite Hl'. destruct (decide (p = j)) as [->|Hne].
      - rewrite list_lookup_insert_eq by done. eexists. split; [done|].
        rewrite He in Hp. by injection Hp as <-.
      - rewrite list_lookup_insert_ne by done. by exists it. }
    split; [done|]. split; [|split; [done|split; [|split; [|done]]]].
    + intros mid0 p Hp. destruct (Hm mid0 p Hp) as (it & Hit & Hitid0).
      by eapply keeps_items_same_id.
    + exists (JObj e'). split; [by eapply list_elem_of_lookup_2|].
      exists mid. split; [done|]. by apply Hsame.
    + intros p it Hp Hlen. apply lookup_lt_Some in Hp.
      rewrite Hl', length_insert in Hp. lia.
  - injection Hslot as <- <- <-.
    rewrite lookup_app_r, Nat.sub_diag in He by done.
    apply (inj Some) in He.
    assert (same_id mid (JObj e') = true) as Hnew.
    { apply Hsame. rewrite <-He, same_id_new_item. by apply py_eq_refl. }
    assert (∀ p it, day_list d !! p = Some it → day_list d' !! p = Some it)
      as Hold.
    { intros p it Hp. rewrite Hl'.
      rewrite list_lookup_insert_ne
        by (apply lookup_lt_Some in Hp; lia).
      by apply lookup_app_l_Some. }
    split; [done|]. split; [|split; [|split; [|split; [|done]]]].
    + intros mid0 p. rewrite dict_lookup_set by (by apply py_eq_refl).
      destruct (py_eq mid mid0) eqn:E.
      * intros [= <-]. exists (JObj e'). split; [done|].
        rewrite (same_id_keeps _ _ _ Hframe), <-He. by rewrite same_id_new_item.
      * intros Hp. destruct (Hm mid0 p Hp) as (it & Hit & Hitid0).
        exists it. split; [by apply Hold|done].
    + intros p it Hp. exists it. split; [by apply Hold|done].
    + exists (JObj e'). split; [by eapply list_elem_of_lookup_2|].
      by exists mid.
    + intros p it Hp Hlen. pose proof (lookup_lt_Some _ _ _ Hp) as Hlt.
      rewrite Hl', length_insert, length_app in Hlt. cbn [length] in Hlt.
      assert (p = length (day_list d)) as -> by lia.
      rewrite Hi' in Hp. injection Hp as <-. by exists mid.
Qed.

(** The loop over the catalog, from a state that [fill_step_ok] keeps. *)
Lemma fill_loop_ok cs d m w d' m' w' :
  itens_ok d = true → itmap_ok d m →
  M_foldl fill_step (d, m) cs w = (Ok (d', m'), w') →
  itens_ok d' = true ∧
  keeps_items (day_list d) (day_list d') ∧
  (∀ c, c ∈ cs → ∃ it, it ∈ day_list d' ∧ item_for c it) ∧
  (∀ i it, day_list d' !! i = Some it → length (day_list d) ≤ i →
           ∃ c, c ∈ cs ∧ item_for c it) ∧
  ∀ k, k ≠ lit "itens" → key_of k d' = key_of k d.
Proof.
  revert d m w. induction cs as [|c cs IH]; intros d m w Hok Hm.
  - cbn [M_foldl]. intros [= <- <- <-]. split; [done|].
    split; [apply keeps_items_refl|]. split; [by intros c ?%elem_of_nil|].
    split; [|done]. intros i it Hi Hlen. apply lookup_lt_Some in Hi. lia.
  - cbn [M_foldl]. rewrite bind_run.
    destruct (fill_step (d, m) c w) as [[[d1 m1]|] w1] eqn:Hstep; [|done].
    intros Hrest.
    apply fill_step_ok in Hstep
      as (Hok1 & Hm1 & Hkeep1 & (it1 & Hin1 & Hfor1) & Hnew1 & Hk1); [|done..].
    destruct (IH _ _ _ Hok1 Hm1 Hrest) as (Hok' & Hkeep & Hcov & Hnew & Hk).
    split; [done|].
    split; [by eapply keeps_items_trans|]. split; [|split].
    + intros c0 [->|Hc0]%elem_of_cons; [|by apply Hcov].
      apply list_elem_of_lookup in Hin1 as [p Hp].
      destruct Hfor1 as (mid & Hid & Hsame).
      destruct (keeps_items_same_id _ _ _ _ _ Hkeep Hp Hsame)
        as (it' & Hp' & Hsame').
      exists it'. split; [by eapply list_elem_of_lookup_2|]. by exists mid.
    + intros p it Hp Hlen.
      destruct (decide (length (day_list d1) ≤ p)) as [Hge|Hlt].
      * destruct (Hnew p it Hp Hge) as (c0 & Hc0 & Hfor).
        exists c0. split; [by right|done].
      * destruct (lookup_lt_is_Some_2 (day_list d1) p) as [it0 Hp0]; [lia|].
        destruct (Hnew1 p it0 Hp0 Hlen) as (mid & Hid & Hsame).
        destruct (keeps_items_same_id _ _ _ _ _ Hkeep Hp0 Hsame)
          as (it' & Hp' & Hsame').
        rewrite Hp in Hp'. injection Hp' as <-.
        exists c. split; [by left|]. by exists mid.
    + intros k Hne. by rewrite Hk, Hk1.
Qed.

End Fill.

(** The map of the items of a day holds positions of items with the
    id. *)
Lemma itens_map_ok d m :
  itens_ok d = true → PreencherMalhas.itens_map d = Ok m → itmap_ok d m.
Proof.
  intros Hok. unfold PreencherMalhas.itens_map.
  destruct d as [| | | | |o]; try done.
  rewrite (py_get_obj "itens").
  assert (default (JArr []) (field "itens" (JObj o)) = JArr (day_list (JObj o)))
    as ->.
  { unfold itens_ok, day_list in *.
    by destruct (field "itens" (JObj o)) as [[]|]. }
  res_simpl. cbn [py_iter]. res_simpl.
  unfold itmap_ok. generalize (day_list (JObj o)) as l. intros l.
  revert m. induction l as [|x l IH] using rev_ind; intros m.
  - cbn. by intros [= <-].
  - rewrite imap_app. cbn [imap]. rewrite res_foldl_snoc, Nat.add_0_r.
    match goal with
    | |- context [res_foldl ?f [] ?xs] =>
        destruct (res_foldl f [] xs) as [m0|] eqn:E0; [|done]
    end.
    res_simpl.
    destruct (py_getitem x (str "id")) as [iid|] eqn:Hid; [|done]. res_simpl.
    destruct (hashable iid) eqn:Hh; [|done]. intros [= <-] mid i.
    rewrite dict_lookup_set by (by apply py_eq_refl).
    destruct (py_eq iid mid) eqn:E.
    + intros [= <-]. exists x.
      rewrite lookup_app_r, Nat.sub_diag by done. split; [done|].
      unfold same_id. by rewrite (py_getitem_field _ _ _ Hid).
    + intros Hi. destruct (IH m0 eq_refl mid i Hi) as (it & Hit & Hsame).
      exists it. split; [by apply lookup_app_l_Some|done].
Qed.

(** X19. One round of the loop of [main] that returns works on one item
    of the day: the one [itmap] has for the id of the operation, or a new
    item with the default fields that it adds at the end of the day and
    to [itmap].  Only that item changes, and of it only [status],
    [fim_de_jogo] and [nota]: the status becomes the one it had
    ([sem_exec] if it had none) or one of the seven codes, [fim_de_jogo]
    becomes a boolean, and [nota] is kept or becomes a [str] that is not
    empty.  The other keys of the day and the files are as they were. *)
Theorem fill_step_frame (unicode_upper : N → pystr)
    (unicode_lower : pystr → pystr) (d : json) (m : list (json * nat))
    (c : json) (w : world) (d' : json) (m' : list (json * nat)) (w' : world) :
  itens_ok d = true →
  PreencherMalhas.fill_step unicode_upper unicode_lower (d, m) c w
    = (Ok (d', m'), w') →
  ∃ mid i l it it',
    field "id" c = Some mid ∧
    fill_slot mid m (day_list d) = (i, l, m') ∧
    l !! i = Some it ∧ day_list d' = <[i := it']> l ∧
    (∀ k, k ≠ lit "itens" → key_of k d' = key_of k d) ∧
    (∀ k, k ∉ FILLED → key_of k it' = key_of k it) ∧
    (∃ st, field "status" it' = Some st ∧
           (st = default (str "sem_exec") (field "status" it)
            ∨ is_status_code st = true)) ∧
    (∃ b, field "fim_de_jogo" it' = Some (JBool b)) ∧
    (field "nota" it' = field "nota" it
     ∨ ∃ s, s ≠ [] ∧ field "nota" it' = Some (JStr s)) ∧
    files w' = files w.
Proof.
  intros Hok Hrun.
  pose proof (keeps_fill_step unicode_upper unicode_lower (d, m) c w) as Hfiles.
  rewrite Hrun in Hfiles. cbn [snd] in Hfiles.
  apply fill_step_inv in Hrun
    as (mid & i & l & e & st & b & e' & Hid & _ & Hslot & He & Hst & He' & Hl'
        & _ & Hk); [|done].
  exists mid, i, l, (JObj e), (JObj e').
  do 5 (split; [done|]). split; [by eapply filled_frame|].
  assert (lit "status" ≠ lit "fim_de_jogo") as H1
    by (intros E; vm_compute in E; discriminate E).
  assert (lit "status" ≠ lit "nota") as H2
    by (intros E; vm_compute in E; discriminate E).
  assert (lit "fim_de_jogo" ≠ lit "nota") as H3
    by (intros E; vm_compute in E; discriminate E).
  assert (∀ k o, field k o = key_of (lit k) o) as Hf by done.
  rewrite !Hf. unfold str in *.
  destruct He' as [->|(s & Hs & ->)].
  - split; [|split; [|split; [|done]]].
    + exists st. split; [|done].
      by rewrite key_of_set_ne, key_of_set_eq by done.
    + exists b. by rewrite key_of_set_eq.
    + left. by rewrite !key_of_set_ne by done.
  - split; [|split; [|split; [|done]]].
    + exists st. split; [|done].
      by rewrite !key_of_set_ne, key_of_set_eq by done.
    + exists b. by rewrite key_of_set_ne, key_of_set_eq by done.
    + right. exists s. split; [done|]. by rewrite key_of_set_eq.
Qed.

Lemma fill_step_frame_witness :
  ∃ d' m' w',
    PreencherMalhas.fill_step upper_id (fun s => s)
      (PreencherMalhas.empty_day, []) ex_foo
      (World ∅ [] [lit "4"; lit "s"; lit " parou "] ex_clock)
    = (Ok (d', m'), w') ∧
    m' = [(str "a", 0)] ∧ length (day_list d') = 1.
Proof.
  destruct (PreencherMalhas.fill_step upper_id (fun s => s)
              (PreencherMalhas.empty_day, []) ex_foo
              (World ∅ [] [lit "4"; lit "s"; lit " parou "] ex_clock))
    as [r w'] eqn:E.
  assert (∃ d' m', r = Ok (d', m')) as (d' & m' & ->).
  { apply (f_equal fst) in E. vm_compute in E. subst r. by eexists _, _. }
  exists d', m', w'. split; [done|].
  destruct (fill_step_frame upper_id (fun s => s)
              PreencherMalhas.empty_day [] ex_foo _ _ _ _ eq_refl E)
    as (mid & i & l & it & it' & Hid & Hslot & _ & Hl & _).
  vm_compute in Hid. injection Hid as <-.
  unfold fill_slot in Hslot. cbn [dict_lookup] in Hslot.
  injection Hslot as <- <- <-.
  split; [reflexivity|]. by rewrite Hl, length_insert.
Defined.

(** X20. When the loop of [main] over the catalog returns, the day has an
    item with the id of every operation of the catalog; the items the day
    had are at their positions, with every key but [status],
    [fim_de_jogo] and [nota] as it was, so the loop removes and reorders
    none, also those whose id is not in the catalog; every item after
    them was added for an operation of the catalog.  The other keys of
    the day and the files are as they were. *)
Theorem fill_loop_covers (unicode_upper : N → pystr)
    (unicode_lower : pystr → pystr) (d : json) (m : list (json * nat))
    (cs : list json) (w : world) (d' : json) (m' : list (json * nat))
    (w' : world) :
  itens_ok d = true →
  PreencherMalhas.itens_map d = Ok m →
  M_foldl (PreencherMalhas.fill_step unicode_upper unicode_lower) (d, m) cs w
    = (Ok (d', m'), w') →
  (∀ c, c ∈ cs → ∃ it, it ∈ day_list d' ∧ item_for c it) ∧
  keeps_items (day_list d) (day_list d') ∧
  (∀ i it, day_list d' !! i = Some it → length (day_list d) ≤ i →
           ∃ c, c ∈ cs ∧ item_for c it) ∧
  (∀ k, k ≠ lit "itens" → key_of k d' = key_of k d) ∧
  files w' = files w.
Proof.
  intros Hok Hm Hrun.
  pose proof (keeps_foldl (PreencherMalhas.fill_step unicode_upper unicode_lower)
                (d, m) cs (keeps_fill_step unicode_upper unicode_lower) w)
    as Hfiles.
  rewrite Hrun in Hfiles. cbn [snd] in Hfiles.
  apply itens_map_ok in Hm; [|done].
  destruct (fill_loop_ok unicode_upper unicode_lower cs d m w d' m' w'
              Hok Hm Hrun) as (_ & Hkeep & Hcov & Hnew & Hk).
  done.
Qed.

Lemma fill_loop_covers_witness :
  ∃ d' m' w',
    M_foldl (PreencherMalhas.fill_step upper_id (fun s => s))
      (JObj [(str "itens",
              JArr [JObj [(str "id", str "zz"); (str "status", str "ok")]])],
       [(str "zz", 0)])
      [ex_foo; ex_malha "b" "BAR" "Modelos"]
      (World ∅ [] [lit "0"; lit ""; lit ""; lit "2"; lit "n"; lit "fim"]
         ex_clock)
    = (Ok (d', m'), w') ∧
    (∃ it, day_list d' !! 0 = Some it ∧ field "id" it = Some (str "zz")) ∧
    (∃ it, it ∈ day_list d' ∧ item_for ex_foo it) ∧
    files w' = ∅.
Proof.
  destruct (M_foldl (PreencherMalhas.fill_step upper_id (fun s => s))
              (JObj [(str "itens",
                      JArr [JObj [(str "id", str "zz");
                                  (str "status", str "ok")]])],
               [(str "zz", 0)])
              [ex_foo; ex_malha "b" "BAR" "Modelos"]
              (World ∅ [] [lit "0"; lit ""; lit ""; lit "2"; lit "n"; lit "fim"]
                 ex_clock))
    as [r w'] eqn:E.
  assert (∃ d' m', r = Ok (d', m')) as (d' & m' & ->).
  { apply (f_equal fst) in E. vm_compute in E. subst r. by eexists _, _. }
  exists d', m', w'. split; [done|].
  destruct (fill_loop_covers upper_id (fun s => s)
              (JObj [(str "itens",
                      JArr [JObj [(str "id", str "zz");
                                  (str "status", str "ok")]])])
              [(str "zz", 0)] [ex_foo; ex_malha "b" "BAR" "Modelos"]
              _ _ _ _ eq_refl eq_refl E)
    as (Hcov & Hkeep & _ & _ & Hfiles).
  split; [|split; [|done]].
  - destruct (Hkeep 0 (JObj [(str "id", str "zz"); (str "status", str "ok")])
                eq_refl) as (it & Hit & Hk).
    exists it. split; [done|].
    change (field "id" it) with (key_of (lit "id") it).
    rewrite Hk by apply id_not_filled. reflexivity.
  - apply Hcov. by left.
Defined.

(** ** [main] of preencher_malhas.py *)

Lemma prompt_date_keeps strptime_ok dflt w dia w' :
  PreencherMalhas.prompt_date strptime_ok dflt w = (Ok dia, w') →
  files w' = files w ∧ clock w' = clock w.
Proof.
  unfold PreencherMalhas.prompt_date.
  by intros (Hf & Hc & _)%input_loop_ok.
Qed.

Lemma py_sorted_partial_perm {A K} (lt : K → K → res bool)
    (key : A → res K) l out :
  py_sorted_partial lt key l = Ok out → out ≡ₚ l.
Proof.
  unfold py_sorted_partial. intros H.
  apply res_bind_ok in H as (ks & Hks & H).
  apply res_bind_ok in H as (_ & _ & [= <-]).
  apply decorate_inv in Hks as [<- _].
  apply fmap_Permutation, sort_decorated_perm.
Qed.

Lemma preencher_sort_perm unicode_upper catalogo cs out :
  py_iter catalogo = Ok cs →
  PreencherMalhas.sort_catalogo unicode_upper catalogo = Ok out → out ≡ₚ cs.
Proof.
  intros Hcs. unfold PreencherMalhas.sort_catalogo. rewrite Hcs. res_simpl.
  intros Hsort.
  by destruct (py_sorted_spec key_lt key_lt_asym key_lt_neg_trans _ _ _
                 key_lt_irrefl Hsort).
Qed.

Lemma day_of_dias d v k :
  dict_lookup (str "dias") d = Some v → day_of (JObj d) k = py_getitem v k.
Proof.
  intros H. unfold day_of. unfold py_getitem at 2. by rewrite hashable_str, H.
Qed.

Lemma py_eq_str_ne dia s : JStr s ≠ dia → py_eq dia (JStr s) = false.
Proof.
  destruct dia; try done. cbn. intros H.
  apply bool_decide_eq_false. by intros ->.
Qed.

Lemma key_of_set_dias k v d :
  k ≠ lit "dias" →
  key_of k (JObj (dict_set (str "dias") v d)) = key_of k (JObj d).
Proof. intros H. by apply key_of_set_ne. Qed.

(** The store that [main] saves, from the store it loaded: [ensure_day]
    and then the assignment of the object of the day. *)
Lemma main_store data dia data1 dias d0 d3 dias' data' :
  days_ok data = true →
  PreencherMalhas.ensure_day data dia = Ok data1 →
  py_getitem data1 (str "dias") = Ok dias →
  py_getitem dias dia = Ok d0 →
  py_setitem dias dia d3 = Ok dias' →
  py_setitem data1 (str "dias") dias' = Ok data' →
  itens_ok d0 = true ∧ day_list d0 = day_items data dia ∧
  day_of data' dia = Ok d3 ∧
  (∀ k, k ≠ lit "dias" → key_of k data' = key_of k data) ∧
  (∀ s, JStr s ≠ dia → day_of data' (JStr s) = day_of data (JStr s)).
Proof.
  unfold days_ok. intros [Hobj Hdays]%andb_true_iff Hens Hg1 Hg2 Hs1 Hs2.
  destruct data as [| | | | |d]; try done. unfold field in Hdays.
  assert (∀ ds ds1 d1,
            dict_lookup (str "dias") d1 = Some (JObj ds1) →
            (∀ k, k ≠ lit "dias" → key_of k (JObj d1) = key_of k (JObj d)) →
            hashable dia = true →
            (∀ s, JStr s ≠ dia →
                  dict_lookup (JStr s) ds1 = dict_lookup (JStr s) ds) →
            (∀ s, day_of (JObj d) (JStr s)
                  = match dict_lookup (JStr s) ds with
                    | Some o => Ok o
                    | None => Raise KeyError
                    end) →
            dict_lookup dia ds1
            = Some (match day_of (JObj d) dia with
                    | Ok o => o
                    | Raise _ => PreencherMalhas.empty_day
                    end) →
            itens_ok (match day_of (JObj d) dia with
                      | Ok o => o
                      | Raise _ => PreencherMalhas.empty_day
                      end) = true →
            py_getitem (JObj d1) (str "dias") = Ok dias →
            py_getitem dias dia = Ok d0 →
            py_setitem dias dia d3 = Ok dias' →
            py_setitem (JObj d1) (str "dias") dias' = Ok data' →
            itens_ok d0 = true ∧ day_list d0 = day_items (JObj d) dia ∧
            day_of data' dia = Ok d3 ∧
            (∀ k, k ≠ lit "dias" → key_of k data' = key_of k (JObj d)) ∧
            (∀ s, JStr s ≠ dia →
                  day_of data' (JStr s) = day_of (JObj d) (JStr s))) as Hend.
  { intros ds ds1 d1 Hd1 Hkeys Hh Hother Hday Hdia Hok.
    unfold py_getitem at 1. rewrite hashable_str, Hd1. intros [= <-].
    unfold py_getitem. rewrite Hh, Hdia. intros [= <-].
    unfold py_setitem at 1. rewrite Hh. intros [= <-].
    unfold py_setitem. rewrite hashable_str. intros [= <-].
    split; [done|]. split.
    { unfold day_items. by destruct (day_of (JObj d) dia). }
    assert (dict_lookup (str "dias")
              (dict_set (str "dias") (JObj (dict_set dia d3 ds1)) d1)
            = Some (JObj (dict_set dia d3 ds1))) as Hnew
      by apply dict_lookup_set_eq, py_eq_str_refl.
    split; [|split].
    - rewrite (day_of_dias _ _ _ Hnew). unfold py_getitem. rewrite Hh.
      by rewrite dict_lookup_set_eq by (by apply py_eq_refl).
    - intros k Hk. rewrite key_of_set_dias by done. by apply Hkeys.
    - intros s Hs. rewrite (day_of_dias _ _ _ Hnew), Hday.
      unfold py_getitem. cbn [hashable].
      rewrite dict_lookup_set by (by apply py_eq_refl).
      by rewrite (py_eq_str_ne _ _ Hs), Hother. }
  revert Hens.
  unfold PreencherMalhas.ensure_day, py_setdefault. rewrite hashable_str.
  destruct (dict_lookup (str "dias") d) as [[| | | | |ds]|] eqn:Ed; try done.
  - res_simpl. unfold py_getitem at 1. rewrite hashable_str, Ed. res_simpl.
    unfold py_contains. destruct (hashable dia) eqn:Hh; [|done]. res_simpl.
    assert (∀ s, day_of (JObj d) (JStr s)
                 = match dict_lookup (JStr s) ds with
                   | Some o => Ok o
                   | None => Raise KeyError
                   end) as Hday.
    { intros s. by rewrite (day_of_dias _ _ _ Ed). }
    assert (day_of (JObj d) dia
            = match dict_lookup dia ds with
              | Some o => Ok o
              | None => Raise KeyError
              end) as Hdia.
    { rewrite (day_of_dias _ _ _ Ed). unfold py_getitem. by rewrite Hh. }
    destruct (dict_lookup dia ds) as [o|] eqn:Eo.
    + rewrite bool_decide_true by eauto. intros [= <-].
      refine (Hend ds ds _ Ed _ eq_refl _ Hday _ _ Hg1 Hg2 Hs1 Hs2); try done.
      * by rewrite Hdia.
      * rewrite Hdia. rewrite forallb_forall in Hdays.
        apply dict_lookup_elem in Eo as (k0 & Hin).
        apply (Hdays (k0, o)). by apply list_elem_of_In.
    + rewrite bool_decide_false by (by intros [? ?]).
      unfold py_setitem. rewrite Hh. res_simpl. rewrite hashable_str.
      intros [= <-].
      refine (Hend ds _ _ _ _ eq_refl _ Hday _ _ Hg1 Hg2 Hs1 Hs2).
      * apply dict_lookup_set_eq, py_eq_str_refl.
      * intros k Hk. by apply key_of_set_dias.
      * intros s Hs. rewrite dict_lookup_set by (by apply py_eq_refl).
        by rewrite (py_eq_str_ne _ _ Hs).
      * rewrite Hdia. by apply dict_lookup_set_eq, py_eq_refl.
      * by rewrite Hdia.
  - res_simpl. unfold py_getitem at 1. rewrite hashable_str.
    rewrite dict_lookup_set_eq by apply py_eq_str_refl. res_simpl.
    unfold py_contains. destruct (hashable dia) eqn:Hh; [|done]. res_simpl.
    cbn [dict_lookup]. rewrite bool_decide_false by (by intros [? ?]).
    unfold py_setitem. rewrite Hh. res_simpl. rewrite hashable_str.
    intros [= <-].
    assert (∀ k, day_of (JObj d) k = Raise KeyError) as Hnone.
    { intros k. unfold day_of, py_getitem. by rewrite hashable_str, Ed. }
    refine (Hend [] _ _ _ _ eq_refl _ _ _ _ Hg1 Hg2 Hs1 Hs2).
    * apply dict_lookup_set_eq, py_eq_str_refl.
    * intros k Hk. by rewrite !key_of_set_dias by done.
    * intros s Hs. cbn [dict_lookup]. by rewrite (py_eq_str_ne _ _ Hs).
    * intros s. by rewrite Hnone.
    * rewrite Hnone. cbn [dict_lookup]. by rewrite py_eq_refl.
    * by rewrite Hnone.
Qed.

Lemma print_last line w : print line w = (Ok (), say w [EPrint line]).
Proof. reflexivity. Qed.

Section Main.
Variable unicode_upper : N → pystr.
Variable unicode_lower : pystr → pystr.
Variable strptime_ok : pystr → bool.
Variable codec : json_codec.
Variable CWD : path.
Local Abbreviation main :=
  (PreencherMalhas.main unicode_upper unicode_lower strptime_ok codec CWD).
Local Abbreviation fill_step :=
  (PreencherMalhas.fill_step unicode_upper unicode_lower).

Lemma preencher_main_inv w w' :
  main w = (Ok (), w') →
  files w !! preencher_store CWD = None ∧ files w' = files w
  ∨ ∃ text data dia data1 dias d0 d1 cs m w1 d2 m2 w2 its itens d3 dias' data',
      files w !! preencher_store CWD = Some (File text) ∧
      json_loads codec text = Some data ∧
      PreencherMalhas.ensure_day data dia = Ok data1 ∧
      py_getitem data1 (str "dias") = Ok dias ∧
      py_getitem dias dia = Ok d0 ∧
      py_setitem d0 (str "updatedAt") (JStr (clock w)) = Ok d1 ∧
      (py_get data1 (str "catalogo_malhas") (JArr [])
       ≫= PreencherMalhas.sort_catalogo unicode_upper) = Ok cs ∧
      PreencherMalhas.itens_map d1 = Ok m ∧
      M_foldl fill_step (d1, m) cs w1 = (Ok (d2, m2), w2) ∧
      (py_getitem d2 (str "itens") ≫= py_iter) = Ok its ∧
      py_sorted_partial key3_lt
        (PreencherMalhas.day_item_key unicode_upper data1) its = Ok itens ∧
      py_setitem d2 (str "itens") (JArr itens) = Ok d3 ∧
      py_setitem dias dia d3 = Ok dias' ∧
      py_setitem data1 (str "dias") dias' = Ok data' ∧
      files w'
      = <[preencher_store CWD := File (document codec data')]>
          (delete (preencher_tmp CWD) (files w)).
Proof.
  unfold PreencherMalhas.main.
  destruct (preencher_paths CWD) as (Htmp & Hstore & Hne & _).
  rewrite bind_run. unfold exists_file at 1. rewrite Hstore.
  destruct (files w !! preencher_store CWD) as [[text|]|] eqn:Hfile.
  3:{ rewrite bool_decide_false by (by intros [? ?]). cbn [negb].
      rewrite !print_run. intros [= <-]. by left. }
  2:{ rewrite bool_decide_true by eauto. cbn [negb].
      rewrite bind_run. unfold load_json at 1. by rewrite Hfile. }
  rewrite bool_decide_true by eauto. cbn [negb].
  rewrite bind_run. unfold load_json at 1. rewrite Hfile.
  destruct (json_loads codec text) as [data|] eqn:Hload; [|done].
  rewrite lift_run.
  match goal with
  | |- context [match ?r with Ok _ => _ | Raise _ => _ end] =>
      destruct r as [dias_exist|]; [|done]
  end.
  rewrite bind_run.
  match goal with
  | |- context [PreencherMalhas.prompt_date ?s ?d ?w] =>
      destruct (PreencherMalhas.prompt_date s d w) as [[dia|] w1] eqn:Hdia;
        [|done]
  end.
  apply prompt_date_keeps in Hdia as [Hf1 Hc1].
  rewrite lift_run.
  destruct (PreencherMalhas.ensure_day data dia) as [data1|] eqn:Hens; [|done].
  rewrite lift_run.
  destruct (py_getitem data1 (str "dias")) as [dias|] eqn:Hdias; [|done].
  rewrite lift_run.
  destruct (py_getitem dias dia) as [d0|] eqn:Hd0; [|done].
  rewrite bind_run. unfold now at 1. rewrite lift_run, Hc1.
  destruct (py_setitem d0 (str "updatedAt") (JStr (clock w))) as [d1|] eqn:Hd1;
    [|done].
  rewrite lift_run.
  destruct (py_get data1 (str "catalogo_malhas") (JArr [])) as [catalogo|]
    eqn:Hcat; [|done].
  rewrite lift_run.
  destruct (PreencherMalhas.sort_catalogo unicode_upper catalogo) as [cs|]
    eqn:Hcs; [|done].
  rewrite lift_run.
  destruct (PreencherMalhas.itens_map d1) as [m|] eqn:Hm; [|done].
  rewrite !print_run, bind_run.
  match goal with
  | |- context [M_foldl ?f ?s ?l ?w] =>
      pose proof (keeps_foldl f s l
                    (keeps_fill_step unicode_upper unicode_lower) w) as Hf2;
      destruct (M_foldl f s l w) as [[[d2 m2]|] w2] eqn:Hloop; [|done]
  end.
  cbn [snd] in Hf2. rewrite !say_files, Hf1 in Hf2.
  rewrite lift_run.
  destruct (py_getitem d2 (str "itens") ≫= py_iter) as [its|] eqn:Hits;
    [|done].
  rewrite lift_run.
  destruct (py_sorted_partial key3_lt
              (PreencherMalhas.day_item_key unicode_upper data1) its)
    as [itens|] eqn:Hsort; [|done].
  rewrite lift_run.
  destruct (py_setitem d2 (str "itens") (JArr itens)) as [d3|] eqn:Hd3;
    [|done].
  rewrite lift_run.
  destruct (py_setitem dias dia d3) as [dias'|] eqn:Hdias'; [|done].
  rewrite lift_run.
  destruct (py_setitem data1 (str "dias") dias') as [data'|] eqn:Hdata';
    [|done].
  rewrite lift_run.
  destruct (PreencherMalhas.report_rows unicode_upper data' itens) as [rows|];
    [|done].
  rewrite bind_run, preencher_save_run, run_ops_spec.
  destruct (fs_run (save_ops codec (preencher_tmp CWD) (preencher_store CWD)
                      data') (files w2)) as [[[]|e] fs1] eqn:Hsave;
    cbn [fst snd]; [|done].
  apply (save_ops_ok _ _ _ _ _ _ Hne) in Hsave. subst fs1.
  rewrite lift_run.
  destruct (PreencherMalhas.build_whatsapp_report dia rows) as [rel|]; [|done].
  rewrite !print_run, print_last. intros [_ <-]%pair_equal_spec. right.
  exists text, data, dia, data1, dias, d0, d1.
  eexists cs, m, _, d2, m2, w2, its, itens, d3, dias', data'.
  do 6 (split; [done|]). split; [by rewrite Hcat|]. split; [done|].
  split; [exact Hloop|]. do 5 (split; [done|]).
  rewrite !say_files. cbn [files]. unfold saved. by rewrite Hf2.
Qed.

End Main.

(** The day that [main] saves, from the day it found. *)
Lemma main_day unicode_upper unicode_lower d0 t d1 m cs w1 d2 m2 w2 its
    itens d3 :
  itens_ok d0 = true →
  py_setitem d0 (str "updatedAt") (JStr t) = Ok d1 →
  PreencherMalhas.itens_map d1 = Ok m →
  M_foldl (PreencherMalhas.fill_step unicode_upper unicode_lower) (d1, m) cs w1
    = (Ok (d2, m2), w2) →
  (py_getitem d2 (str "itens") ≫= py_iter) = Ok its →
  py_setitem d2 (str "itens") (JArr itens) = Ok d3 →
  py_getitem d3 (str "itens") = Ok (JArr itens) ∧
  py_getitem d3 (str "updatedAt") = Ok (JStr t) ∧
  keeps_items (day_list d0) its ∧
  (∀ c, c ∈ cs → ∃ it, it ∈ its ∧ item_for c it) ∧
  (∀ i it, its !! i = Some it → length (day_list d0) ≤ i →
           ∃ c, c ∈ cs ∧ item_for c it).
Proof.
  intros Hok0 (o0 & -> & ->)%py_setitem_str_obj Hm Hloop Hits Hd3.
  assert (itens_ok (JObj (dict_set (str "updatedAt") (JStr t) o0)) = true
          ∧ day_list (JObj (dict_set (str "updatedAt") (JStr t) o0))
            = day_list (JObj o0)) as [Hok1 Hl1].
  { unfold itens_ok, day_list in *.
    by rewrite (field_set_ne "updatedAt" "itens") by apply lit_updatedAt_itens. }
  pose proof (itens_map_ok _ _ Hok1 Hm) as Hm1.
  destruct (fill_loop_ok unicode_upper unicode_lower cs _ _ _ _ _ _
              Hok1 Hm1 Hloop) as (Hok2 & Hkeep & Hcov & Hnew & Hk).
  rewrite Hl1 in Hkeep, Hnew.
  assert (its = day_list d2) as ->.
  { destruct (py_getitem d2 (str "itens")) as [v|] eqn:Hv; [|done].
    apply py_getitem_field in Hv.
    rewrite (itens_ok_list _ Hok2) in Hv by (by rewrite Hv).
    injection Hv as <-. res_simpl in Hits. cbn [py_iter] in Hits.
    by injection Hits as <-. }
  split; [by eapply py_getitem_setitem|].
  apply py_setitem_str_obj in Hd3 as (o2 & -> & ->).
  split; [|done].
  assert (key_of (lit "updatedAt") (JObj o2) = Some (JStr t)) as Ht.
  { rewrite Hk by apply lit_updatedAt_itens. apply key_of_set_eq. }
  unfold py_getitem. rewrite hashable_str.
  change (dict_lookup (str "updatedAt")
            (dict_set (str "itens") (JArr itens) o2))
    with (key_of (lit "updatedAt")
            (JObj (dict_set (str "itens") (JArr itens) o2))).
  rewrite key_of_set_itens by apply lit_updatedAt_itens. by rewrite Ht.
Qed.

(** X21. A run of [main] of preencher_malhas.py that returns, on a store
    whose days each have a list of items or none, either found no store,
    and then left the files as they were, or saved one document: the
    store it loaded with the day that was chosen filled.  In what is
    saved the day has an item with the id of every operation of the
    catalog; its items are, in some order, the items the day had, with
    every key but [status], [fim_de_jogo] and [nota] as it was, and then
    items added for operations of the catalog; its [updatedAt] is the
    time of the run; the other keys of the store and the other days are
    as they were loaded; and the temporary file is gone. *)
Theorem preencher_main_returns (unicode_upper : N → pystr)
    (unicode_lower : pystr → pystr) (strptime_ok : pystr → bool)
    (codec : json_codec) (CWD : path) (w w' : world) :
  (∀ text data,
     files w !! preencher_store CWD = Some (File text) →
     json_loads codec text = Some data → days_ok data = true) →
  PreencherMalhas.main unicode_upper unicode_lower strptime_ok codec CWD w
    = (Ok (), w') →
  (files w !! preencher_store CWD = None ∧ files w' = files w)
  ∨ ∃ text data dia data' catalogo itens,
      files w !! preencher_store CWD = Some (File text) ∧
      json_loads codec text = Some data ∧
      files w' = <[preencher_store CWD := File (document codec data')]>
                   (delete (preencher_tmp CWD) (files w)) ∧
      (py_get data (str "catalogo_malhas") (JArr []) ≫= py_iter)
        = Ok catalogo ∧
      day_itens data' dia = Ok itens ∧
      (∀ c, c ∈ catalogo → ∃ it, it ∈ itens ∧ item_for c it) ∧
      (∃ its, itens ≡ₚ its ∧ keeps_items (day_items data dia) its ∧
         ∀ i it, its !! i = Some it → length (day_items data dia) ≤ i →
                 ∃ c, c ∈ catalogo ∧ item_for c it) ∧
      (day_of data' dia ≫= fun o => py_getitem o (str "updatedAt"))
        = Ok (JStr (clock w)) ∧
      (∀ k, k ≠ lit "dias" → key_of k data' = key_of k data) ∧
      (∀ s, JStr s ≠ dia → day_of data' (JStr s) = day_of data (JStr s)).
Proof.
  intros Hwf
    [?|(text & data & dia & data1 & dias & d0 & d1 & cs & m & w1 & d2 & m2
        & w2 & its & itens & d3 & dias' & data' & Hfile & Hload & Hens
        & Hdias & Hd0 & Hd1 & Hcs & Hm & Hloop & Hits & Hsort & Hd3 & Hdias'
        & Hdata' & Hfiles)]%preencher_main_inv; [by left|right].
  specialize (Hwf text data Hfile Hload).
  destruct (main_store _ _ _ _ _ _ _ _ Hwf Hens Hdias Hd0 Hdias' Hdata')
    as (Hok0 & Hl0 & Hday & Hkeys & Hother).
  destruct (main_day _ _ _ _ _ _ _ _ _ _ _ _ _ _ Hok0 Hd1 Hm Hloop Hits Hd3)
    as (Hitens & Ht & Hkeep & Hcov & Hnew).
  rewrite Hl0 in Hkeep, Hnew.
  apply py_sorted_partial_perm in Hsort.
  assert (∃ catalogo,
            (py_get data (str "catalogo_malhas") (JArr []) ≫= py_iter)
              = Ok catalogo ∧ cs ≡ₚ catalogo) as (catalogo & Hcat & Hperm).
  { apply py_setitem_str_obj in Hdata' as (o1 & -> & ->).
    assert (key_of (lit "catalogo_malhas") (JObj o1)
            = key_of (lit "catalogo_malhas") data) as Hk.
    { rewrite <-Hkeys by (intros E; symmetry in E; by apply lit_dias_catalogo).
      symmetry. apply key_of_set_dias.
      intros E; symmetry in E; by apply lit_dias_catalogo. }
    unfold days_ok in Hwf. apply andb_true_iff in Hwf as [Hobj _].
    destruct data as [| | | | |o]; try done.
    rewrite (py_get_obj "catalogo_malhas") in Hcs |- *.
    change (field "catalogo_malhas" (JObj o1))
      with (key_of (lit "catalogo_malhas") (JObj o1)) in Hcs.
    change (field "catalogo_malhas" (JObj o))
      with (key_of (lit "catalogo_malhas") (JObj o)).
    rewrite Hk in Hcs. res_simpl in Hcs. res_simpl.
    pose proof Hcs as Hiter. unfold PreencherMalhas.sort_catalogo in Hiter.
    apply res_bind_ok in Hiter as (l & Hl & _).
    exists l. split; [done|]. by eapply preencher_sort_perm. }
  exists text, data, dia, data', catalogo, itens.
  do 4 (split; [done|]). split; [|split; [|split; [|split; [|done]]]].
  - unfold day_itens. unfold day_of in Hday.
    destruct (py_getitem data' (str "dias")) as [ds|]; [|done].
    res_simpl in Hday. res_simpl. rewrite Hday. res_simpl.
    by rewrite Hitens.
  - intros c Hc. rewrite <-Hperm in Hc.
    destruct (Hcov c Hc) as (it & Hin & Hfor).
    exists it. split; [by rewrite Hsort|done].
  - exists its. split; [done|]. split; [done|].
    intros i it Hi Hlen. destruct (Hnew i it Hi Hlen) as (c & Hc & Hfor).
    exists c. split; [by rewrite <-Hperm|done].
  - rewrite Hday. res_simpl. exact Ht.
Qed.

Lemma preencher_main_returns_witness :
  ∃ w',
    PreencherMalhas.main upper_id (fun s => s) (fun _ => true) ex_codec_ok
      ex_root ex_session = (Ok (), w') ∧
    files w' !! preencher_store ex_root = Some (File (lit "[]")) ∧
    files w' !! preencher_tmp ex_root = None.
Proof.
  destruct (PreencherMalhas.main upper_id (fun s => s) (fun _ => true)
              ex_codec_ok ex_root ex_session) as [r w'] eqn:E.
  assert (r = Ok ()) as ->.
  { apply (f_equal fst) in E. cbn [fst] in E. rewrite <-E.
    vm_compute. reflexivity. }
  exists w'. split; [reflexivity|].
  assert (files ex_session !! preencher_store ex_root = Some (File (lit "S")))
    as Hs.
  { apply (lookup_insert_eq (M := gmap path)). }
  destruct (preencher_main_returns upper_id (fun s => s) (fun _ => true)
              ex_codec_ok ex_root ex_session w') as [[Hnone _]|H].
  - intros text data Hf Hl. rewrite Hs in Hf. injection Hf as <-.
    vm_compute in Hl. injection Hl as <-. reflexivity.
  - exact E.
  - rewrite Hs in Hnone. discriminate Hnone.
  - destruct H as (text & data & dia & data' & catalogo & itens & _ & _
                   & Hfiles & _).
    rewrite Hfiles. split.
    + apply (lookup_insert_eq (M := gmap path)).
    + rewrite (lookup_insert_ne (M := gmap path))
        by (intros Hp; symmetry in Hp; revert Hp;
            apply (proj1 (proj2 (proj2 (preencher_paths ex_root))))).
      apply (lookup_delete_eq (M := gmap path)).
Defined.

(** ** The comparisons of the sorts of [main] *)

Lemma py_sorted_partial_one {A K} (lt : K → K → res bool)
    (key : A → res K) x k :
  key x = Ok k → py_sorted_partial lt key [x] = Ok [x].
Proof.
  intros Hk. unfold py_sorted_partial, comparable_keys.
  cbn [res_map]. rewrite Hk. res_simpl. cbn [imap res_map]. res_simpl.
  rewrite bool_decide_true by done. res_simpl. reflexivity.
Qed.

Lemma py_sorted_partial_two {A K} (lt : K → K → res bool)
    (key : A → res K) x y k k' :
  key x = Ok k → key y = Ok k' →
  lt k k' = Ok false → lt k' k = Ok false →
  py_sorted_partial lt key [x; y] = Ok [x; y].
Proof.
  intros Hx Hy H1 H2. unfold py_sorted_partial, comparable_keys.
  cbn [res_map]. rewrite Hx, Hy. res_simpl.
  cbn [imap res_map compose fst]. res_simpl.
  rewrite !bool_decide_true by done. rewrite !bool_decide_false by done.
  res_simpl. rewrite H1. res_simpl. rewrite H2. res_simpl.
  unfold sort_decorated. cbn [foldr insert_by fst]. rewrite H2. reflexivity.
Qed.

Lemma py_sorted_partial_two_raise {A K} (lt : K → K → res bool)
    (key : A → res K) x y k k' e :
  key x = Ok k → key y = Ok k' → lt k k' = Raise e →
  py_sorted_partial lt key [x; y] = Raise e.
Proof.
  intros Hx Hy H1. unfold py_sorted_partial, comparable_keys.
  cbn [res_map]. rewrite Hx, Hy. res_simpl.
  cbn [imap res_map compose fst]. res_simpl.
  rewrite !bool_decide_true by done. rewrite !bool_decide_false by done.
  res_simpl. rewrite H1. reflexivity.
Qed.

Lemma key3_lt_same k : hashable k.2 = true → key3_lt k k = Ok false.
Proof.
  destruct k as [[a b] c]. cbn [snd]. intros Hc. unfold key3_lt.
  rewrite !Z.eqb_refl. cbn [negb]. by rewrite (py_eq_refl _ Hc).
Qed.

Lemma day_item_key_hashable unicode_upper data it k :
  PreencherMalhas.day_item_key unicode_upper data it = Ok k →
  hashable k.2 = true.
Proof.
  unfold PreencherMalhas.day_item_key. intros H.
  apply res_bind_ok in H as (iid & _ & H).
  apply res_bind_ok in H as (idx & _ & H).
  destruct (hashable iid) eqn:Hh; [|done].
  destruct (dict_lookup iid idx) as [c|].
  - apply res_bind_ok in H as (cat & _ & H).
    apply res_bind_ok in H as (k1 & _ & H).
    apply res_bind_ok in H as (nome & _ & H).
    apply res_bind_ok in H as (lst & _ & H).
    apply res_bind_ok in H as (k2 & _ & H).
    injection H as <-. reflexivity.
  - injection H as <-. exact Hh.
Qed.

(** X22. The last sort of [main] compares the keys of two items of the
    day only: a day of one item is sorted without a comparison, whatever
    its id.  The third component of a key is a [str] or an id that a
    [dict] takes as a key, and a key of this kind is not less than
    itself: two items of one key, two items of the id [None] among them,
    keep their order.  Two items whose keys agree on the two ranks and
    whose third components are not equal and have no order, as the ids
    [None] and a [str] outside the catalog, make the sort raise
    [TypeError].  [sorted] of the keys of a store of one day returns
    that day. *)
Theorem day_sort_comparisons (unicode_upper : N → pystr) (data : json) :
  let key := PreencherMalhas.day_item_key unicode_upper data in
  (∀ it k, key it = Ok k → py_sorted_partial key3_lt key [it] = Ok [it]) ∧
  (∀ it k, key it = Ok k → hashable k.2 = true) ∧
  (∀ k, hashable k.2 = true → key3_lt k k = Ok false) ∧
  (∀ x y k, key x = Ok k → key y = Ok k →
     py_sorted_partial key3_lt key [x; y] = Ok [x; y]) ∧
  (∀ x y k1 k2 a b,
     key x = Ok (k1, k2, a) → key y = Ok (k1, k2, b) →
     py_eq a b = false → json_lt a b = Raise TypeError →
     py_sorted_partial key3_lt key [x; y] = Raise TypeError) ∧
  (∀ k v, PreencherMalhas.sorted_keys (JObj [(k, v)]) = Ok [k]).
Proof.
  intros key. split; [|split; [|split; [|split; [|split]]]].
  - intros it k Hk. by eapply py_sorted_partial_one.
  - intros it k Hk. by eapply day_item_key_hashable.
  - apply key3_lt_same.
  - intros x y k Hx Hy.
    pose proof (key3_lt_same k (day_item_key_hashable _ _ _ _ Hx)) as Hlt.
    by eapply py_sorted_partial_two.
  - intros x y k1 k2 a b Hx Hy Hne Hlt.
    eapply py_sorted_partial_two_raise; [exact Hx|exact Hy|].
    unfold key3_lt. rewrite !Z.eqb_refl. cbn [negb]. by rewrite Hne.
  - intros k v. unfold PreencherMalhas.sorted_keys.
    by apply py_sorted_partial_one with (k := k).
Qed.

Lemma day_sort_comparisons_witness :
  py_sorted_partial key3_lt
    (PreencherMalhas.day_item_key upper_id (JObj []))
    [JObj [(str "id", JNull)]]
  = Ok [JObj [(str "id", JNull)]]
  ∧ py_sorted_partial key3_lt
      (PreencherMalhas.day_item_key upper_id (JObj []))
      [JObj [(str "id", JNull); (str "status", str "ok")];
       JObj [(str "id", JNull)]]
    = Ok [JObj [(str "id", JNull); (str "status", str "ok")];
          JObj [(str "id", JNull)]]
  ∧ py_sorted_partial key3_lt
      (PreencherMalhas.day_item_key upper_id (JObj []))
      [JObj [(str "id", JNull)]; JObj [(str "id", str "x")]]
    = Raise TypeError.
Proof.
  destruct (day_sort_comparisons upper_id (JObj []))
    as (H1 & _ & _ & H2 & H3 & _).
  split; [|split].
  - apply (H1 _ (999%Z, 9999%Z, JNull)). reflexivity.
  - apply (H2 _ _ (999%Z, 9999%Z, JNull)); reflexivity.
  - apply (H3 _ _ 999%Z 9999%Z JNull (str "x")); reflexivity.
Defined.
